(** * Maritime simulator 2030: a shallow embedding of the core and its properties

    The development follows the Python sources of [007_maritime_simulator2030/src]:

    - [Py]       the handful of Python / numpy operators the code relies on;
    - [Channel]  [scenario_controller.py]: Gilbert-Elliott channel, forced
                 blackout, reliability metrics;
    - [Vessel]   the [VesselState] dataclass of [ais_client.py], shared by
                 the client and the simulators;
    - [Geo]      the interface to [prediction_engine.py] and shapely;
    - [Ammonia]  [simulation_ammonia.py]: the waypoint-route simulator tick;
    - [SMR]      [simulation_smr.py]: the corridor simulator tick and its
                 violation log;
    - [AIS]      [ais_client.py]: message handling, the bounded queue and the
                 reconnection loop;
    - [Oceanic]  [simulation_oceanic.py]: the predicted position along a
                 route of waypoints.

    The modules [PyFacts], [ChannelFacts], [AmmoniaFacts], [SMRFacts] and
    [AISFacts] hold the lemmas and the theorems; [ChannelMore],
    [AmmoniaMore], [SMRMore], [AISMore] and [OceanicMore] hold further
    properties of the same code.

    Numbers.  Python [float]s are read as exact rationals ([Q]): comparisons,
    [min], [max], [abs], [np.sign] and [%] keep their mathematical meaning and
    rounding is not modelled.  Python [int]s are [Z].  A [datetime] is a number
    of microseconds ([Z]).

    Effects.  Every method is a function from the object's state to its new
    state (and a result).  Random draws, the clock and the network are inputs
    of the function that consumes them.  A Python exception is a value of
    [Py.Error]. *)

From Stdlib Require Import ZArith QArith Qround Qabs Lia Lqa List Ascii String.
From stdpp Require Import gmap strings pretty.

Import ListNotations.

(* ===================================================================== *)
(** * Python operators                                                    *)
(* ===================================================================== *)

Module Py.

Local Open Scope Q_scope.

(** [x < y], [x > y], [x >= y], [x <= y] and [x == y] on floats. *)
Definition ltb (x y : Q) : bool := negb (Qle_bool y x).
Definition gtb (x y : Q) : bool := ltb y x.
Definition leb (x y : Q) : bool := Qle_bool x y.
Definition geb (x y : Q) : bool := Qle_bool y x.
Definition eqb (x y : Q) : bool := Qeq_bool x y.

(** [min(a, b)] keeps [a] unless [b < a]; [max(a, b)] keeps [a] unless
    [b > a]. *)
Definition min (a b : Q) : Q := if ltb b a then b else a.
Definition max (a b : Q) : Q := if gtb b a then b else a.

(** [abs(x)]. *)
Definition abs (x : Q) : Q := Qabs x.

(** [np.sign(x)]: -1, 0 or 1. *)
Definition sign (x : Q) : Q :=
  if ltb x 0 then -1 else if ltb 0 x then 1 else 0.

(** [x % m] for a positive modulus: the result has the sign of [m]. *)
Definition mod_ (x m : Q) : Q := x - m * inject_Z (Qfloor (x / m)).

(** Exceptions that the modelled methods can raise. *)
Inductive Error : Set :=
| ZeroDivisionError
| TypeError
| IndexError
| AttributeError
| ValueError.

(** [a / b] raises [ZeroDivisionError] on a zero divisor. *)
Definition truediv (a b : Q) : Error + Q :=
  if eqb b 0 then inl ZeroDivisionError else inr (a / b).

(** A [datetime], in microseconds; [timedelta(seconds=n)] and
    [timedelta.total_seconds()]. *)
Definition datetime : Set := Z.
Definition timedelta_seconds (n : Z) : Z := (n * 1000000)%Z.
Definition total_seconds (d : Z) : Q := inject_Z d / 1000000.

End Py.

(* ===================================================================== *)
(** * scenario_controller.py                                              *)
(* ===================================================================== *)

Module Channel.

Import Py.
Local Open Scope Q_scope.

Inductive CommunicationType : Set := AIS_TERRESTRIAL | VSAT | LEO_SATELLITE.

(** Douglas sea scale. *)
Inductive SeaState : Set :=
| CALM | SMOOTH | SLIGHT | MODERATE | ROUGH | VERY_ROUGH | HIGH.

Record CommunicationProfile : Set := {
  comm_type : CommunicationType;
  latency_mean_ms : Q;
  latency_std_ms : Q;
  packet_loss_good_state : Q;
  packet_loss_bad_state : Q;
  prob_good_to_bad : Q;
  prob_bad_to_good : Q;
  normal_update_interval_sec : Z;
  degraded_update_interval_sec : Z;
  critical_update_interval_sec : Z
}.

Definition get_ais_terrestrial : CommunicationProfile := {|
  comm_type := AIS_TERRESTRIAL;
  latency_mean_ms := 2000; latency_std_ms := 500;
  packet_loss_good_state := 1 # 100; packet_loss_bad_state := 30 # 100;
  prob_good_to_bad := 5 # 100; prob_bad_to_good := 15 # 100;
  normal_update_interval_sec := 10;
  degraded_update_interval_sec := 30;
  critical_update_interval_sec := 120 |}.

Definition get_vsat : CommunicationProfile := {|
  comm_type := VSAT;
  latency_mean_ms := 500; latency_std_ms := 100;
  packet_loss_good_state := 5 # 1000; packet_loss_bad_state := 20 # 100;
  prob_good_to_bad := 3 # 100; prob_bad_to_good := 20 # 100;
  normal_update_interval_sec := 5;
  degraded_update_interval_sec := 20;
  critical_update_interval_sec := 60 |}.

Definition get_leo_satellite : CommunicationProfile := {|
  comm_type := LEO_SATELLITE;
  latency_mean_ms := 30; latency_std_ms := 10;
  packet_loss_good_state := 2 # 1000; packet_loss_bad_state := 15 # 100;
  prob_good_to_bad := 2 # 100; prob_bad_to_good := 30 # 100;
  normal_update_interval_sec := 2;
  degraded_update_interval_sec := 10;
  critical_update_interval_sec := 30 |}.

Record ScenarioConfig : Set := {
  scenario_name : string;
  communication_profile : CommunicationProfile;
  sea_state : SeaState;
  wind_speed_knots : Q;
  wind_direction_deg : Q;
  current_speed_knots : Q;
  current_direction_deg : Q;
  degradation_level : Q;
  geofence_enabled : bool;
  force_blackout : bool;
  blackout_duration_sec : Z
}.

(** The dataclass defaults of [ScenarioConfig]. *)
Definition scenario_defaults (name : string) (p : CommunicationProfile)
  : ScenarioConfig := {|
  scenario_name := name;
  communication_profile := p;
  sea_state := MODERATE;
  wind_speed_knots := 15; wind_direction_deg := 270;
  current_speed_knots := 1; current_direction_deg := 180;
  degradation_level := 0;
  geofence_enabled := true;
  force_blackout := false;
  blackout_duration_sec := 300 |}.

Definition create_scenario_critical_failure : ScenarioConfig := {|
  scenario_name := "Critical Communication Failure";
  communication_profile := get_ais_terrestrial;
  sea_state := HIGH;
  wind_speed_knots := 15; wind_direction_deg := 270;
  current_speed_knots := 1; current_direction_deg := 180;
  degradation_level := 9 # 10;
  geofence_enabled := true;
  force_blackout := true;
  blackout_duration_sec := 600 |}.

(** ** GilbertElliotModel *)

Inductive GEState : Set := GOOD | BAD.

Record GilbertElliotModel : Set := {
  p_loss_good : Q;
  p_loss_bad : Q;
  p_gb : Q;
  p_bg : Q;
  current_state : GEState
}.

Definition GilbertElliotModel_init (plg plb pgb pbg : Q) : GilbertElliotModel :=
  {| p_loss_good := plg; p_loss_bad := plb; p_gb := pgb; p_bg := pbg;
     current_state := GOOD |}.

Definition set_current_state (g : GilbertElliotModel) (s : GEState) :=
  {| p_loss_good := p_loss_good g; p_loss_bad := p_loss_bad g;
     p_gb := p_gb g; p_bg := p_bg g; current_state := s |}.

Definition set_p_loss (g : GilbertElliotModel) (plg plb : Q) :=
  {| p_loss_good := plg; p_loss_bad := plb;
     p_gb := p_gb g; p_bg := p_bg g; current_state := current_state g |}.

(** [GilbertElliotModel.step]: the two calls of [random.random()] are the
    inputs [u_transition] and [u_loss]; the result is [true] when the packet
    is lost. *)
Definition ge_step (g : GilbertElliotModel) (u_transition u_loss : Q)
  : GilbertElliotModel * bool :=
  let g :=
    match current_state g with
    | GOOD => if ltb u_transition (p_gb g) then set_current_state g BAD else g
    | BAD => if ltb u_transition (p_bg g) then set_current_state g GOOD else g
    end in
  match current_state g with
  | GOOD => (g, ltb u_loss (p_loss_good g))
  | BAD => (g, ltb u_loss (p_loss_bad g))
  end.

(** ** ScenarioController *)

Record Stats : Set := {
  total_packets : Z;
  lost_packets : Z;
  total_delay_ms : Q;
  blackout_events : Z;
  total_blackout_duration_sec : Q
}.

Definition stats_zero : Stats := {|
  total_packets := 0; lost_packets := 0; total_delay_ms := 0;
  blackout_events := 0; total_blackout_duration_sec := 0 |}.

Record ScenarioController : Set := {
  config : ScenarioConfig;
  ge_model : GilbertElliotModel;
  stats : Stats;
  in_blackout : bool;
  blackout_start_time : option datetime;
  blackout_end_time : option datetime;
  simulation_time : datetime
}.

(** [ScenarioController.__init__]; [now] is [datetime.utcnow()]. *)
Definition ScenarioController_init (cfg : ScenarioConfig) (now : datetime)
  : ScenarioController := {|
  config := cfg;
  ge_model :=
    GilbertElliotModel_init
      (packet_loss_good_state (communication_profile cfg))
      (packet_loss_bad_state (communication_profile cfg))
      (prob_good_to_bad (communication_profile cfg))
      (prob_bad_to_good (communication_profile cfg));
  stats := stats_zero;
  in_blackout := false;
  blackout_start_time := None;
  blackout_end_time := None;
  simulation_time := now |}.

Definition set_simulation_time (c : ScenarioController) (t : datetime) := {|
  config := config c; ge_model := ge_model c; stats := stats c;
  in_blackout := in_blackout c;
  blackout_start_time := blackout_start_time c;
  blackout_end_time := blackout_end_time c;
  simulation_time := t |}.

Definition set_stats (c : ScenarioController) (s : Stats) := {|
  config := config c; ge_model := ge_model c; stats := s;
  in_blackout := in_blackout c;
  blackout_start_time := blackout_start_time c;
  blackout_end_time := blackout_end_time c;
  simulation_time := simulation_time c |}.

Definition set_ge_model (c : ScenarioController) (g : GilbertElliotModel) := {|
  config := config c; ge_model := g; stats := stats c;
  in_blackout := in_blackout c;
  blackout_start_time := blackout_start_time c;
  blackout_end_time := blackout_end_time c;
  simulation_time := simulation_time c |}.

Definition set_blackout (c : ScenarioController) (b : bool)
    (st en : option datetime) := {|
  config := config c; ge_model := ge_model c; stats := stats c;
  in_blackout := b;
  blackout_start_time := st;
  blackout_end_time := en;
  simulation_time := simulation_time c |}.

Definition incr_total_packets (s : Stats) : Stats := {|
  total_packets := total_packets s + 1; lost_packets := lost_packets s;
  total_delay_ms := total_delay_ms s; blackout_events := blackout_events s;
  total_blackout_duration_sec := total_blackout_duration_sec s |}.

Definition incr_lost_packets (s : Stats) : Stats := {|
  total_packets := total_packets s; lost_packets := lost_packets s + 1;
  total_delay_ms := total_delay_ms s; blackout_events := blackout_events s;
  total_blackout_duration_sec := total_blackout_duration_sec s |}.

Definition incr_blackout_events (s : Stats) : Stats := {|
  total_packets := total_packets s; lost_packets := lost_packets s;
  total_delay_ms := total_delay_ms s; blackout_events := blackout_events s + 1;
  total_blackout_duration_sec := total_blackout_duration_sec s |}.

Definition add_total_delay_ms (s : Stats) (d : Q) : Stats := {|
  total_packets := total_packets s; lost_packets := lost_packets s;
  total_delay_ms := total_delay_ms s + d; blackout_events := blackout_events s;
  total_blackout_duration_sec := total_blackout_duration_sec s |}.

Definition add_blackout_duration (s : Stats) (d : Q) : Stats := {|
  total_packets := total_packets s; lost_packets := lost_packets s;
  total_delay_ms := total_delay_ms s; blackout_events := blackout_events s;
  total_blackout_duration_sec := total_blackout_duration_sec s + d |}.

(** The dictionary returned by [process_transmission]. *)
Inductive Transmission : Set :=
| BLACKOUT
| PACKET_LOSS (channel_state : GEState)
| SUCCESS (latency_ms : Q) (channel_state : GEState)
          (sea_state_impact_ms degradation_impact_ms : Q).

Inductive Outcome : Set :=
| Returned (r : Transmission)
| Raised (e : Error).

(** The random draws one call may consume: two [random.random()] of the
    Gilbert-Elliott step and one [np.random.normal(mean, std)]. *)
Record Draws : Set := {
  u_transition : Q;
  u_loss : Q;
  normal_sample : Q
}.

(** [_calculate_sea_state_impact]. *)
Definition sea_state_factor (s : SeaState) : Q :=
  match s with
  | CALM => 0
  | SMOOTH => 5 # 100
  | SLIGHT => 10 # 100
  | MODERATE => 20 # 100
  | ROUGH => 40 # 100
  | VERY_ROUGH => 70 # 100
  | HIGH => 120 # 100
  end.

Definition _calculate_sea_state_impact (c : ScenarioController) : Q :=
  latency_mean_ms (communication_profile (config c))
  * sea_state_factor (sea_state (config c)).

(** Sections 2 to 4 of [process_transmission]: the Gilbert-Elliott step
    under temporarily degraded loss probabilities, then the latency. *)
Definition transmit (self : ScenarioController) (rnd : Draws)
  : ScenarioController * Outcome :=
  let degradation_factor := 1 + degradation_level (config self) * 2 in
  let original_p_loss_good := p_loss_good (ge_model self) in
  let original_p_loss_bad := p_loss_bad (ge_model self) in
  let g := set_p_loss (ge_model self)
             (min (original_p_loss_good * degradation_factor) (1 # 2))
             (min (original_p_loss_bad * degradation_factor) (9 # 10)) in
  let '(g, packet_lost) := ge_step g (u_transition rnd) (u_loss rnd) in
  let g := set_p_loss g original_p_loss_good original_p_loss_bad in
  let self := set_ge_model self g in
  if packet_lost then
    (set_stats self (incr_lost_packets (stats self)),
     Returned (PACKET_LOSS (current_state (ge_model self))))
  else
    let base_latency := normal_sample rnd in
    let sea_state_latency := _calculate_sea_state_impact self in
    let degradation_latency :=
      latency_mean_ms (communication_profile (config self))
      * degradation_level (config self) * (1 # 2) in
    let total_latency :=
      max 0 (base_latency + sea_state_latency + degradation_latency) in
    (set_stats self (add_total_delay_ms (stats self) total_latency),
     Returned (SUCCESS total_latency (current_state (ge_model self))
                       sea_state_latency degradation_latency)).

(** [ScenarioController.process_transmission]. *)
Definition process_transmission (self : ScenarioController)
    (current_time : option datetime) (rnd : Draws)
  : ScenarioController * Outcome :=
  let self :=
    match current_time with
    | Some t => set_simulation_time self t
    | None => self
    end in
  let self := set_stats self (incr_total_packets (stats self)) in
  (* 1. blackout *)
  let self :=
    if force_blackout (config self) then
      if negb (in_blackout self) then
        set_stats
          (set_blackout self true
             (Some (simulation_time self))
             (Some (simulation_time self
                    + timedelta_seconds (blackout_duration_sec (config self)))%Z))
          (incr_blackout_events (stats self))
      else self
    else self in
  if in_blackout self then
    match blackout_end_time self with
    | None => (self, Raised TypeError)
    | Some end_time =>
        if (end_time <=? simulation_time self)%Z then
          match blackout_start_time self with
          | None => (self, Raised TypeError)
          | Some start_time =>
              let duration := total_seconds (end_time - start_time) in
              let self :=
                set_stats self (add_blackout_duration (stats self) duration) in
              let self := set_blackout self false None None in
              transmit self rnd
          end
        else
          (set_stats self (incr_lost_packets (stats self)), Returned BLACKOUT)
    end
  else transmit self rnd.

(** [get_update_interval]. *)
Definition get_update_interval (self : ScenarioController) : Z :=
  if ltb (degradation_level (config self)) (3 # 10) then
    normal_update_interval_sec (communication_profile (config self))
  else if ltb (degradation_level (config self)) (7 # 10) then
    degraded_update_interval_sec (communication_profile (config self))
  else
    critical_update_interval_sec (communication_profile (config self)).

(** [calculate_reliability_index]. *)
Definition calculate_reliability_index (self : ScenarioController) : Error + Q :=
  if (total_packets (stats self) =? 0)%Z then inr 100
  else
    let successful_packets :=
      (total_packets (stats self) - lost_packets (stats self))%Z in
    match truediv (inject_Z successful_packets)
                  (inject_Z (total_packets (stats self))) with
    | inl e => inl e
    | inr ratio => inr (ratio * 100)
    end.

(** [calculate_average_latency]. *)
Definition calculate_average_latency (self : ScenarioController) : Error + Q :=
  let successful_packets :=
    (total_packets (stats self) - lost_packets (stats self))%Z in
  if (successful_packets =? 0)%Z then inr 0
  else truediv (total_delay_ms (stats self)) (inject_Z successful_packets).

(** [reset_statistics]. *)
Definition reset_statistics (self : ScenarioController) : ScenarioController :=
  set_stats self stats_zero.

(** The states a controller goes through: construction, then any
    interleaving of transmissions and statistics resets. *)
Inductive reachable : ScenarioController -> Prop :=
| reach_init cfg now : reachable (ScenarioController_init cfg now)
| reach_transmission s t rnd :
    reachable s -> reachable (fst (process_transmission s t rnd))
| reach_reset s : reachable s -> reachable (reset_statistics s).

(** A scripted run: each element is one [process_transmission] call. *)
Fixpoint run (self : ScenarioController)
    (calls : list (option datetime * Draws)) : ScenarioController :=
  match calls with
  | [] => self
  | (t, rnd) :: rest => run (fst (process_transmission self t rnd)) rest
  end.

(** Lost packets are a part of the packets sent. *)
Definition counters_ok (s : ScenarioController) : Prop :=
  (0 <= lost_packets (stats s) <= total_packets (stats s))%Z.

(** ** Example states *)

Definition quiet_draws : Draws :=
  {| u_transition := 1 # 2; u_loss := 99 # 100; normal_sample := 500 |}.

Definition lossy_draws : Draws :=
  {| u_transition := 1 # 100; u_loss := 1 # 100; normal_sample := 500 |}.

(** A VSAT channel after three transmissions, the second one lost. *)
Definition after_three : ScenarioController :=
  run (ScenarioController_init (scenario_defaults "Normal Conditions" get_vsat) 0%Z)
      [ (None, quiet_draws); (None, lossy_draws); (Some 5000000%Z, quiet_draws) ].

(** The critical-failure scenario, one second into its forced blackout. *)
Definition in_forced_blackout : ScenarioController :=
  fst (process_transmission
         (ScenarioController_init create_scenario_critical_failure 0%Z)
         (Some 1000000%Z) quiet_draws).

(** The [packet_loss_rate] entry of [get_statistics]. *)
Definition packet_loss_rate (self : ScenarioController) : Error + Q :=
  if (0 <? total_packets (stats self))%Z then
    truediv (inject_Z (lost_packets (stats self)))
            (inject_Z (total_packets (stats self)))
  else inr 0.

(** The simulation time that a call of [process_transmission] works with. *)
Definition call_time (self : ScenarioController) (current_time : option datetime)
  : datetime :=
  match current_time with
  | Some t => t
  | None => simulation_time self
  end.

(** While a blackout is on, both ends of its window are set. *)
Definition blackout_window_set (s : ScenarioController) : Prop :=
  in_blackout s = true ->
  is_Some (blackout_start_time s) /\ is_Some (blackout_end_time s).

(** The loss and transition probabilities of the channel are those of the
    profile. *)
Definition probabilities_of_profile (s : ScenarioController) : Prop :=
  p_loss_good (ge_model s)
    = packet_loss_good_state (communication_profile (config s))
  /\ p_loss_bad (ge_model s)
    = packet_loss_bad_state (communication_profile (config s))
  /\ p_gb (ge_model s) = prob_good_to_bad (communication_profile (config s))
  /\ p_bg (ge_model s) = prob_bad_to_good (communication_profile (config s)).

(** The opening of [process_transmission]: the clock, the packet count and
    the start of a forced blackout. *)
Definition begin_call (self : ScenarioController)
    (current_time : option datetime) : ScenarioController :=
  let self :=
    match current_time with
    | Some t => set_simulation_time self t
    | None => self
    end in
  let self := set_stats self (incr_total_packets (stats self)) in
  if force_blackout (config self) then
    if negb (in_blackout self) then
      set_stats
        (set_blackout self true
           (Some (simulation_time self))
           (Some (simulation_time self
                  + timedelta_seconds (blackout_duration_sec (config self)))%Z))
        (incr_blackout_events (stats self))
    else self
  else self.

End Channel.

(* ===================================================================== *)
(** * ais_client.py: the VesselState dataclass                            *)
(* ===================================================================== *)

Module Vessel.

Import Py.

(** The value of [datetime(year, month, day, hour, minute)] kept in [eta]. *)
Record CivilTime : Set := {
  ct_year : Z; ct_month : Z; ct_day : Z; ct_hour : Z; ct_minute : Z
}.

Record VesselState : Set := {
  mmsi : string;
  vessel_name : string;
  vessel_type : string;
  latitude : Q;
  longitude : Q;
  course : Q;
  speed : Q;
  heading : option Q;
  timestamp : datetime;
  position_accuracy : Z;
  length : option Q;
  width : option Q;
  draught : option Q;
  destination : option string;
  eta : option CivilTime;
  nav_status : option Z;
  is_simulated : bool;
  data_source : string
}.

(** [vessel.speed = v]. *)
Definition set_speed (v : VesselState) (x : Q) : VesselState := {|
  mmsi := mmsi v; vessel_name := vessel_name v; vessel_type := vessel_type v;
  latitude := latitude v; longitude := longitude v;
  course := course v; speed := x; heading := heading v;
  timestamp := timestamp v; position_accuracy := position_accuracy v;
  length := length v; width := width v; draught := draught v;
  destination := destination v; eta := eta v; nav_status := nav_status v;
  is_simulated := is_simulated v; data_source := data_source v |}.

(** [vessel.course = c]. *)
Definition set_course (v : VesselState) (c : Q) : VesselState := {|
  mmsi := mmsi v; vessel_name := vessel_name v; vessel_type := vessel_type v;
  latitude := latitude v; longitude := longitude v;
  course := c; speed := speed v; heading := heading v;
  timestamp := timestamp v; position_accuracy := position_accuracy v;
  length := length v; width := width v; draught := draught v;
  destination := destination v; eta := eta v; nav_status := nav_status v;
  is_simulated := is_simulated v; data_source := data_source v |}.

(** [vessel.heading = h]. *)
Definition set_heading (v : VesselState) (h : option Q) : VesselState := {|
  mmsi := mmsi v; vessel_name := vessel_name v; vessel_type := vessel_type v;
  latitude := latitude v; longitude := longitude v;
  course := course v; speed := speed v; heading := h;
  timestamp := timestamp v; position_accuracy := position_accuracy v;
  length := length v; width := width v; draught := draught v;
  destination := destination v; eta := eta v; nav_status := nav_status v;
  is_simulated := is_simulated v; data_source := data_source v |}.

(** [vessel.latitude = lat; vessel.longitude = lon; vessel.timestamp = t]. *)
Definition set_fix (v : VesselState) (lat lon : Q) (t : datetime)
  : VesselState := {|
  mmsi := mmsi v; vessel_name := vessel_name v; vessel_type := vessel_type v;
  latitude := lat; longitude := lon;
  course := course v; speed := speed v; heading := heading v;
  timestamp := t; position_accuracy := position_accuracy v;
  length := length v; width := width v; draught := draught v;
  destination := destination v; eta := eta v; nav_status := nav_status v;
  is_simulated := is_simulated v; data_source := data_source v |}.

End Vessel.

(* ===================================================================== *)
(** * prediction_engine.py and shapely: the geodesy interface             *)
(* ===================================================================== *)

(** The dead-reckoning engine and the shapely calls are trigonometry
    ([sin], [cos], [arcsin], [arctan2], [sqrt]) and planar projection; they
    have no rational model.  The simulators only call them, so they are
    taken as an interface and every statement about a simulator tick holds
    for all its implementations. *)

Module Geo.

Local Open Scope Q_scope.

Record PredictionResult : Set := {
  predicted_latitude : Q;
  predicted_longitude : Q;
  error_radius_95 : Q;
  error_radius_50 : Q;
  time_since_last_fix : Q;
  prediction_confidence : Q
}.

Class Geodesy : Type := {
  (** [DeadReckoningEngine.calculate_bearing lat1 lon1 lat2 lon2] *)
  calculate_bearing : Q -> Q -> Q -> Q -> Q;
  (** [DeadReckoningEngine.calculate_distance_haversine lat1 lon1 lat2 lon2] *)
  calculate_distance_haversine : Q -> Q -> Q -> Q -> Q;
  (** [DeadReckoningEngine.predict_position last_latitude last_longitude
      course_deg speed_knots time_elapsed_seconds wind_speed_knots
      wind_direction_deg current_speed_knots current_direction_deg] *)
  predict_position :
    Q -> Q -> Q -> Q -> Q ->
    option Q -> option Q -> option Q -> option Q -> PredictionResult;
  (** the haversine distance from [(latitude, longitude)] to shapely's
      nearest point of the line string through the given coordinates *)
  nearest_on_linestring_m : list (Q * Q) -> Q -> Q -> Q;
  (** [Polygon(boundary_coords).contains(Point(longitude, latitude))] *)
  polygon_contains : list (Q * Q) -> Q -> Q -> bool
}.

(** A stand-in geodesy for running the simulators on concrete inputs, for
    waters next to a centreline that runs along the equator, where one
    degree is 111 195 m: the target always bears [bearing] at [range]
    metres; one prediction advances the vessel to the east by its speed
    (0.514444 m/s per knot) and sets it [set_north] degrees of latitude to
    the north; a point lies 111 195 m off the centreline per degree of
    latitude; no point is inside a polygon. *)
Definition equatorial_waters (bearing range set_north : Q) : Geodesy := {|
  calculate_bearing := fun _ _ _ _ => bearing;
  calculate_distance_haversine := fun _ _ _ _ => range;
  predict_position := fun lat lon _ speed t _ _ _ _ =>
    {| predicted_latitude := lat + set_north;
       predicted_longitude := lon + speed * (514444 # 1000000) * t / 111195;
       error_radius_95 := 0; error_radius_50 := 0;
       time_since_last_fix := t; prediction_confidence := 1 |};
  nearest_on_linestring_m := fun _ lat _ => 111195 * Qabs lat;
  polygon_contains := fun _ _ _ => false |}.

End Geo.

(* ===================================================================== *)
(** * simulation_ammonia.py                                               *)
(* ===================================================================== *)

Module Ammonia.

Import Py Vessel Geo.
Local Open Scope Q_scope.

Definition AMMONIA_MMSI_BASE : Z := 900000000.

Record Waypoint : Set := {
  wp_latitude : Q;
  wp_longitude : Q;
  wp_name : string;
  arrival_speed_knots : Q
}.

Record Route : Set := {
  waypoints : list Waypoint;
  route_name : string
}.

Definition get_total_waypoints (r : Route) : nat := List.length (waypoints r).

Record AmmoniaVesselConfig : Set := {
  vessel_id : Z;
  cfg_vessel_name : string;
  route : Route;
  length_m : Q;
  width_m : Q;
  draught_m : Q;
  max_speed_knots : Q;
  cruise_speed_knots : Q;
  min_speed_knots : Q;
  signal_blackout_probability : Q;
  blackout_min_duration_sec : Z;
  blackout_max_duration_sec : Z;
  wind_sensitivity : Q;
  current_sensitivity : Q
}.

Record AmmoniaVesselSimulator : Set := {
  config : AmmoniaVesselConfig;
  update_interval : Z;
  current_waypoint_idx : nat;
  vessel_state : VesselState;
  simulation_time : datetime;
  in_blackout : bool;
  blackout_start_time : option datetime;
  blackout_duration_sec : Z
}.

(** The arguments of one [step] call, with the draws it may consume:
    [random.random()] and [random.randint(min, max)]. *)
Record StepInput : Set := {
  delta_time_sec : option Z;
  wind_speed_knots : option Q;
  wind_direction_deg : option Q;
  current_speed_knots : option Q;
  current_direction_deg : option Q;
  u_blackout : Q;
  blackout_draw : Z
}.

(** [dt = delta_time_sec or self.update_interval]: [None] and [0] both
    fall back to the update interval. *)
Definition tick_duration (self : AmmoniaVesselSimulator) (inp : StepInput) : Z :=
  match delta_time_sec inp with
  | Some d => if (d =? 0)%Z then update_interval self else d
  | None => update_interval self
  end.

Definition set_blackout (self : AmmoniaVesselSimulator) (b : bool)
    (st : option datetime) (dur : Z) : AmmoniaVesselSimulator := {|
  config := config self; update_interval := update_interval self;
  current_waypoint_idx := current_waypoint_idx self;
  vessel_state := vessel_state self;
  simulation_time := simulation_time self;
  in_blackout := b; blackout_start_time := st; blackout_duration_sec := dur |}.

Definition set_simulation_time (self : AmmoniaVesselSimulator) (t : datetime)
  : AmmoniaVesselSimulator := {|
  config := config self; update_interval := update_interval self;
  current_waypoint_idx := current_waypoint_idx self;
  vessel_state := vessel_state self;
  simulation_time := t;
  in_blackout := in_blackout self;
  blackout_start_time := blackout_start_time self;
  blackout_duration_sec := blackout_duration_sec self |}.

Definition set_waypoint_idx (self : AmmoniaVesselSimulator) (i : nat)
  : AmmoniaVesselSimulator := {|
  config := config self; update_interval := update_interval self;
  current_waypoint_idx := i;
  vessel_state := vessel_state self;
  simulation_time := simulation_time self;
  in_blackout := in_blackout self;
  blackout_start_time := blackout_start_time self;
  blackout_duration_sec := blackout_duration_sec self |}.

Definition set_vessel_state (self : AmmoniaVesselSimulator) (v : VesselState)
  : AmmoniaVesselSimulator := {|
  config := config self; update_interval := update_interval self;
  current_waypoint_idx := current_waypoint_idx self;
  vessel_state := v;
  simulation_time := simulation_time self;
  in_blackout := in_blackout self;
  blackout_start_time := blackout_start_time self;
  blackout_duration_sec := blackout_duration_sec self |}.

(** Section 1 of [step]: the blackout timer. *)
Definition update_blackout (self : AmmoniaVesselSimulator) (inp : StepInput)
  : Error + AmmoniaVesselSimulator :=
  if in_blackout self then
    match blackout_start_time self with
    | None => inl TypeError
    | Some st =>
        let elapsed := total_seconds (simulation_time self - st) in
        if geb elapsed (inject_Z (blackout_duration_sec self)) then
          inr (set_blackout self false None (blackout_duration_sec self))
        else inr self
    end
  else if ltb (u_blackout inp) (signal_blackout_probability (config self)) then
    inr (set_blackout self true (Some (simulation_time self)) (blackout_draw inp))
  else inr self.

(** Section 4 of [step]: the speed aimed at, from the distance left. *)
Definition target_speed_for (cfg : AmmoniaVesselConfig) (wp : Waypoint)
    (distance_to_target : Q) : Q :=
  let deceleration_distance := 5000 in
  if ltb distance_to_target deceleration_distance then
    let speed_factor := distance_to_target / deceleration_distance in
    min_speed_knots cfg
    + (arrival_speed_knots wp - min_speed_knots cfg) * speed_factor
  else cruise_speed_knots cfg.

(** Section 4, second half: the acceleration limit. *)
Definition limit_speed (speed target_speed : Q) (dt : Z) : Q :=
  let max_acceleration_knots_per_sec := 5 # 100 in
  let speed_diff := target_speed - speed in
  let max_speed_change := max_acceleration_knots_per_sec * inject_Z dt in
  if gtb (abs speed_diff) max_speed_change then
    speed + sign speed_diff * max_speed_change
  else target_speed.

(** Section 5: the turn-rate limit and the normalisation to [0, 360). *)
Definition limit_course (course target_course : Q) (dt : Z) : Q :=
  let max_turn_rate_deg_per_sec := 2 in
  let course_diff := mod_ (target_course - course + 180) 360 - 180 in
  let max_course_change := max_turn_rate_deg_per_sec * inject_Z dt in
  let course :=
    if gtb (abs course_diff) max_course_change then
      course + sign course_diff * max_course_change
    else target_course in
  mod_ course 360.

Section Step.

Context {geo : Geodesy}.

(** [AmmoniaVesselSimulator.__init__] with [_initialize_position]; [now]
    is [datetime.utcnow()]. *)
Definition AmmoniaVesselSimulator_init (config : AmmoniaVesselConfig)
    (update_interval_sec : Z) (now : datetime)
  : Error + AmmoniaVesselSimulator :=
  match waypoints (route config) with
  | [] => inl ValueError
  | start_waypoint :: rest =>
      let initial_course :=
        match rest with
        | next_waypoint :: _ =>
            calculate_bearing
              (wp_latitude start_waypoint) (wp_longitude start_waypoint)
              (wp_latitude next_waypoint) (wp_longitude next_waypoint)
        | [] => 0
        end in
      inr {|
        config := config;
        update_interval := update_interval_sec;
        current_waypoint_idx := 1;
        vessel_state := {|
          mmsi := pretty (AMMONIA_MMSI_BASE + vessel_id config)%Z;
          vessel_name := cfg_vessel_name config;
          vessel_type := "AMMONIA";
          latitude := wp_latitude start_waypoint;
          longitude := wp_longitude start_waypoint;
          course := initial_course;
          speed := cruise_speed_knots config;
          heading := Some initial_course;
          timestamp := now;
          position_accuracy := 1;
          length := Some (length_m config);
          width := Some (width_m config);
          draught := Some (draught_m config);
          destination := Some (route_name (route config));
          eta := None;
          nav_status := None;
          is_simulated := true;
          data_source := "SIMULATED_AMMONIA" |};
        simulation_time := now;
        in_blackout := false;
        blackout_start_time := None;
        blackout_duration_sec := 0 |}
  end.

(** [AmmoniaVesselSimulator.step]. *)
Definition step (self : AmmoniaVesselSimulator) (inp : StepInput)
  : Error + AmmoniaVesselSimulator :=
  let dt := tick_duration self inp in
  let self :=
    set_simulation_time self (simulation_time self + timedelta_seconds dt)%Z in
  (* 1. blackout *)
  match update_blackout self inp with
  | inl e => inl e
  | inr self =>
    (* 2. current target waypoint *)
    let self :=
      if (get_total_waypoints (route (config self))
            <=? current_waypoint_idx self)%nat
      then set_waypoint_idx self 0%nat else self in
    match nth_error (waypoints (route (config self)))
                    (current_waypoint_idx self) with
    | None => inl IndexError
    | Some target_waypoint =>
      let v := vessel_state self in
      (* 3. bearing and distance *)
      let target_course :=
        calculate_bearing (latitude v) (longitude v)
          (wp_latitude target_waypoint) (wp_longitude target_waypoint) in
      let distance_to_target :=
        calculate_distance_haversine (latitude v) (longitude v)
          (wp_latitude target_waypoint) (wp_longitude target_waypoint) in
      (* 4. speed profile *)
      let target_speed :=
        target_speed_for (config self) target_waypoint distance_to_target in
      let v := set_speed v (limit_speed (speed v) target_speed dt) in
      (* 5. course *)
      let v := set_course v (limit_course (course v) target_course dt) in
      let v := set_heading v (Some (course v)) in
      (* 6. dead reckoning *)
      let prediction :=
        predict_position (latitude v) (longitude v) (course v) (speed v)
          (inject_Z dt)
          (wind_speed_knots inp) (wind_direction_deg inp)
          (current_speed_knots inp) (current_direction_deg inp) in
      let v :=
        set_fix v (predicted_latitude prediction)
          (predicted_longitude prediction) (simulation_time self) in
      let self := set_vessel_state self v in
      (* 7. waypoint reached *)
      let waypoint_arrival_threshold := 500 in
      let self :=
        if ltb distance_to_target waypoint_arrival_threshold then
          set_waypoint_idx self (S (current_waypoint_idx self))
        else self in
      inr self
    end
  end.

(** A run of ticks; it stops at the first exception. *)
Fixpoint steps (self : AmmoniaVesselSimulator) (inps : list StepInput)
  : Error + AmmoniaVesselSimulator :=
  match inps with
  | [] => inr self
  | inp :: rest =>
      match step self inp with
      | inl e => inl e
      | inr self => steps self rest
      end
  end.

End Step.

(** The signed smallest rotation, in degrees, that takes course [a] to
    course [b]: a value in [-180, 180). *)
Definition shortest_rotation (a b : Q) : Q := mod_ (b - a + 180) 360 - 180.

(** ** An example vessel *)

(** The first two legs of the sample route "UAE to Korea". *)
Definition uae_to_korea : Route := {|
  waypoints :=
    [ {| wp_latitude := 245 # 10; wp_longitude := 544 # 10;
         wp_name := "Abu Dhabi"; arrival_speed_knots := 15 |};
      {| wp_latitude := 223 # 10; wp_longitude := 595 # 10;
         wp_name := "Oman Sea"; arrival_speed_knots := 17 |};
      {| wp_latitude := 18; wp_longitude := 68;
         wp_name := "Arabian Sea"; arrival_speed_knots := 17 |} ];
  route_name := "UAE to Korea" |}.

(** [AmmoniaVesselConfig] with the dataclass defaults. *)
Definition sakigake : AmmoniaVesselConfig := {|
  vessel_id := 1;
  cfg_vessel_name := "SAKIGAKE";
  route := uae_to_korea;
  length_m := 230; width_m := 36; draught_m := 125 # 10;
  max_speed_knots := 195 # 10;
  cruise_speed_knots := 16;
  min_speed_knots := 10;
  signal_blackout_probability := 2 # 100;
  blackout_min_duration_sec := 60;
  blackout_max_duration_sec := 600;
  wind_sensitivity := 3 # 100;
  current_sensitivity := 8 # 10 |}.

(** The vessel under way at 12 knots on course 350, its next waypoint
    100 km away on bearing 020. *)
Definition sakigake_under_way : AmmoniaVesselSimulator := {|
  config := sakigake;
  update_interval := 10;
  current_waypoint_idx := 1;
  vessel_state := {|
    mmsi := "900000001";
    vessel_name := "SAKIGAKE";
    vessel_type := "AMMONIA";
    latitude := 24; longitude := 56;
    course := 350; speed := 12;
    heading := Some 350;
    timestamp := 0%Z;
    position_accuracy := 1%Z;
    length := Some 230; width := Some 36; draught := Some (125 # 10);
    destination := Some "UAE to Korea"%string;
    eta := None; nav_status := None;
    is_simulated := true;
    data_source := "SIMULATED_AMMONIA" |};
  simulation_time := 0%Z;
  in_blackout := false;
  blackout_start_time := None;
  blackout_duration_sec := 0 |}.

Definition ten_seconds : StepInput := {|
  delta_time_sec := Some 10%Z;
  wind_speed_knots := None; wind_direction_deg := None;
  current_speed_knots := None; current_direction_deg := None;
  u_blackout := 1 # 2;
  blackout_draw := 60 |}.

(** The index of the waypoint that a tick steers to: the current index,
    or 0 when the current index is past the end of the route. *)
Definition target_index (self : AmmoniaVesselSimulator) : nat :=
  if (get_total_waypoints (route (config self)) <=? current_waypoint_idx self)%nat
  then 0%nat else current_waypoint_idx self.

(** The simulation time at the end of a tick. *)
Definition time_after (self : AmmoniaVesselSimulator) (inp : StepInput)
  : datetime :=
  (simulation_time self + timedelta_seconds (tick_duration self inp))%Z.

(** A simulator that can tick: its route has a waypoint and, while a
    blackout is on, the start of the blackout is set. *)
Definition ready (self : AmmoniaVesselSimulator) : Prop :=
  waypoints (route (config self)) <> []
  /\ (in_blackout self = true -> is_Some (blackout_start_time self)).

(** The example vessel ten seconds before the end of a blackout of one
    minute that began at time 0. *)
Definition sakigake_in_blackout : AmmoniaVesselSimulator :=
  set_blackout
    (set_simulation_time sakigake_under_way (timedelta_seconds 50))
    true (Some 0%Z) 60.

End Ammonia.

(* ===================================================================== *)
(** * simulation_smr.py                                                   *)
(* ===================================================================== *)

Module SMR.

Import Py Vessel Geo.
Local Open Scope Q_scope.

Definition SMR_MMSI : string := "999999999".

Record GeofenceZone : Set := {
  zone_id : string;
  zone_name : string;
  zone_type : string;
  boundary_coords : list (Q * Q);
  max_speed_knots : option Q;
  mandatory_reporting : bool
}.

Record Corridor : Set := {
  corridor_id : string;
  corridor_name : string;
  centerline_coords : list (Q * Q);
  width_m : Q;
  corridor_max_speed_knots : Q
}.

(** The kind-specific [details] dictionary of an event. *)
Inductive Details : Set :=
| DeviationDetails (deviation_distance_m corridor_width_m threshold_m : Q)
| ZoneDetails (zone_id zone_name zone_type : string)
| SpeedDetails (zone_id zone_name : string)
               (current_speed_knots max_allowed_speed_knots : Q).

Record ViolationEvent : Set := {
  ev_timestamp : datetime;
  event_type : string;
  severity : string;
  ev_latitude : Q;
  ev_longitude : Q;
  details : Details
}.

Record SMRVesselConfig : Set := {
  cfg_vessel_name : string;
  length_m : Q;
  cfg_width_m : Q;
  draught_m : Q;
  cfg_max_speed_knots : Q;
  cruise_speed_knots : Q;
  radiation_monitoring_interval_sec : Z;
  mandatory_position_reporting_interval_sec : Z;
  corridor_deviation_threshold_m : Q
}.

(** The dataclass defaults of [SMRVesselConfig] and of [Corridor]. *)
Definition SMRVesselConfig_default : SMRVesselConfig := {|
  cfg_vessel_name := "SMR-PIONEER";
  length_m := 400; cfg_width_m := 59; draught_m := 16;
  cfg_max_speed_knots := 25; cruise_speed_knots := 22;
  radiation_monitoring_interval_sec := 300;
  mandatory_position_reporting_interval_sec := 60;
  corridor_deviation_threshold_m := 2000 |}.

Definition Corridor_default (id name : string) (centerline : list (Q * Q))
  : Corridor := {|
  corridor_id := id; corridor_name := name;
  centerline_coords := centerline;
  width_m := 10000;
  corridor_max_speed_knots := 20 |}.

(** [create_sample_corridor]. *)
Definition create_sample_corridor : Corridor := {|
  corridor_id := "SMR_TRANSPACIFIC_01";
  corridor_name := "Korea to US West Coast (SMR Route)";
  centerline_coords :=
    [ (351 # 10, 129); (38, 140); (42, 155); (45, 170); (48, -175);
      (50, -160); (48, -145); (476 # 10, -1223 # 10) ];
  width_m := 20000;
  corridor_max_speed_knots := 23 |}.

Record Stats : Set := {
  total_distance_traveled_m : Q;
  corridor_deviations : Z;
  geofence_violations : Z;
  speed_violations : Z
}.

Record SMRVesselSimulator : Set := {
  config : SMRVesselConfig;
  corridor : Corridor;
  geofence_zones : list GeofenceZone;
  update_interval : Z;
  vessel_state : VesselState;
  current_centerline_index : nat;
  simulation_time : datetime;
  violation_log : list ViolationEvent;
  stats : Stats
}.

Record StepInput : Set := {
  delta_time_sec : option Z;
  wind_speed_knots : option Q;
  wind_direction_deg : option Q;
  current_speed_knots : option Q;
  current_direction_deg : option Q
}.

(** [dt = delta_time_sec or self.update_interval]. *)
Definition tick_duration (self : SMRVesselSimulator) (inp : StepInput) : Z :=
  match delta_time_sec inp with
  | Some d => if (d =? 0)%Z then update_interval self else d
  | None => update_interval self
  end.

Definition set_simulation_time (self : SMRVesselSimulator) (t : datetime)
  : SMRVesselSimulator := {|
  config := config self; corridor := corridor self;
  geofence_zones := geofence_zones self;
  update_interval := update_interval self;
  vessel_state := vessel_state self;
  current_centerline_index := current_centerline_index self;
  simulation_time := t;
  violation_log := violation_log self; stats := stats self |}.

Definition set_centerline_index (self : SMRVesselSimulator) (i : nat)
  : SMRVesselSimulator := {|
  config := config self; corridor := corridor self;
  geofence_zones := geofence_zones self;
  update_interval := update_interval self;
  vessel_state := vessel_state self;
  current_centerline_index := i;
  simulation_time := simulation_time self;
  violation_log := violation_log self; stats := stats self |}.

Definition set_vessel_state (self : SMRVesselSimulator) (v : VesselState)
  : SMRVesselSimulator := {|
  config := config self; corridor := corridor self;
  geofence_zones := geofence_zones self;
  update_interval := update_interval self;
  vessel_state := v;
  current_centerline_index := current_centerline_index self;
  simulation_time := simulation_time self;
  violation_log := violation_log self; stats := stats self |}.

Definition set_violation_log (self : SMRVesselSimulator)
    (l : list ViolationEvent) : SMRVesselSimulator := {|
  config := config self; corridor := corridor self;
  geofence_zones := geofence_zones self;
  update_interval := update_interval self;
  vessel_state := vessel_state self;
  current_centerline_index := current_centerline_index self;
  simulation_time := simulation_time self;
  violation_log := l; stats := stats self |}.

Definition set_stats (self : SMRVesselSimulator) (s : Stats)
  : SMRVesselSimulator := {|
  config := config self; corridor := corridor self;
  geofence_zones := geofence_zones self;
  update_interval := update_interval self;
  vessel_state := vessel_state self;
  current_centerline_index := current_centerline_index self;
  simulation_time := simulation_time self;
  violation_log := violation_log self; stats := s |}.

Definition add_distance (s : Stats) (d : Q) : Stats := {|
  total_distance_traveled_m := total_distance_traveled_m s + d;
  corridor_deviations := corridor_deviations s;
  geofence_violations := geofence_violations s;
  speed_violations := speed_violations s |}.

Definition incr_corridor_deviations (s : Stats) : Stats := {|
  total_distance_traveled_m := total_distance_traveled_m s;
  corridor_deviations := corridor_deviations s + 1;
  geofence_violations := geofence_violations s;
  speed_violations := speed_violations s |}.

Definition incr_geofence_violations (s : Stats) : Stats := {|
  total_distance_traveled_m := total_distance_traveled_m s;
  corridor_deviations := corridor_deviations s;
  geofence_violations := geofence_violations s + 1;
  speed_violations := speed_violations s |}.

Definition incr_speed_violations (s : Stats) : Stats := {|
  total_distance_traveled_m := total_distance_traveled_m s;
  corridor_deviations := corridor_deviations s;
  geofence_violations := geofence_violations s;
  speed_violations := speed_violations s + 1 |}.

(** [_log_violation]: the event is stamped with the simulation time and
    the vessel's position, and appended to the log. *)
Definition _log_violation (self : SMRVesselSimulator)
    (event_type severity : string) (details : Details) : SMRVesselSimulator :=
  let event := {|
    ev_timestamp := simulation_time self;
    event_type := event_type;
    severity := severity;
    ev_latitude := latitude (vessel_state self);
    ev_longitude := longitude (vessel_state self);
    details := details |} in
  set_violation_log self (violation_log self ++ [event]).

(** Section 4 of [step]: the turn-rate limit (1.5 degrees per second). *)
Definition limit_course (course desired_course : Q) (dt : Z) : Q :=
  let max_turn_rate_deg_per_sec := 15 # 10 in
  let course_diff := mod_ (desired_course - course + 180) 360 - 180 in
  let max_course_change := max_turn_rate_deg_per_sec * inject_Z dt in
  let course :=
    if gtb (abs course_diff) max_course_change then
      course + sign course_diff * max_course_change
    else desired_course in
  mod_ course 360.

Section Step.

Context {geo : Geodesy}.

(** [Corridor.distance_from_centerline] and [Corridor.is_within_corridor]. *)
Definition distance_from_centerline (c : Corridor) (latitude longitude : Q)
  : Q :=
  nearest_on_linestring_m (centerline_coords c) latitude longitude.

Definition is_within_corridor (c : Corridor) (latitude longitude : Q)
  : bool :=
  let distance := distance_from_centerline c latitude longitude in
  leb distance (width_m c / 2).

(** [GeofenceZone.contains_point]. *)
Definition contains_point (z : GeofenceZone) (latitude longitude : Q)
  : bool :=
  polygon_contains (boundary_coords z) latitude longitude.

(** Section 6 of [step]: corridor deviation. *)
Definition check_corridor (self : SMRVesselSimulator) : SMRVesselSimulator :=
  let v := vessel_state self in
  if negb (is_within_corridor (corridor self) (latitude v) (longitude v))
  then
    let deviation_distance :=
      distance_from_centerline (corridor self) (latitude v) (longitude v) in
    if gtb deviation_distance
           (corridor_deviation_threshold_m (config self)) then
      let self :=
        _log_violation self "CORRIDOR_DEVIATION" "CRITICAL"
          (DeviationDetails deviation_distance (width_m (corridor self))
             (corridor_deviation_threshold_m (config self))) in
      set_stats self (incr_corridor_deviations (stats self))
    else self
  else self.

(** Section 7 of [step]: the body of the loop over the zones.
    [zone.max_speed_knots] is tested for truth: [None] and [0] are
    both false. *)
Definition check_zone (self : SMRVesselSimulator) (zone : GeofenceZone)
  : SMRVesselSimulator :=
  let v := vessel_state self in
  let in_zone := contains_point zone (latitude v) (longitude v) in
  if String.eqb (zone_type zone) "PROHIBITED" && in_zone then
    let self :=
      _log_violation self "GEOFENCE_VIOLATION" "CRITICAL"
        (ZoneDetails (zone_id zone) (zone_name zone) (zone_type zone)) in
    set_stats self (incr_geofence_violations (stats self))
  else if String.eqb (zone_type zone) "RESTRICTED" && in_zone then
    match max_speed_knots zone with
    | Some limit =>
        if negb (eqb limit 0) && gtb (speed v) limit then
          let self :=
            _log_violation self "SPEED_VIOLATION" "WARNING"
              (SpeedDetails (zone_id zone) (zone_name zone) (speed v) limit) in
          set_stats self (incr_speed_violations (stats self))
        else self
    | None => self
    end
  else self.

Definition check_geofences (self : SMRVesselSimulator) : SMRVesselSimulator :=
  fold_left check_zone (geofence_zones self) self.

(** [SMRVesselSimulator.__init__] with [_initialize_position]; [now] is
    [datetime.utcnow()]. *)
Definition SMRVesselSimulator_init (config : SMRVesselConfig)
    (corridor : Corridor) (geofence_zones : list GeofenceZone)
    (update_interval_sec : Z) (now : datetime)
  : Error + SMRVesselSimulator :=
  match centerline_coords corridor with
  | start_point :: next_point :: _ =>
      let initial_course :=
        calculate_bearing (fst start_point) (snd start_point)
          (fst next_point) (snd next_point) in
      inr {|
        config := config;
        corridor := corridor;
        geofence_zones := geofence_zones;
        update_interval := update_interval_sec;
        vessel_state := {|
          mmsi := SMR_MMSI;
          vessel_name := cfg_vessel_name config;
          vessel_type := "SMR";
          latitude := fst start_point;
          longitude := snd start_point;
          course := initial_course;
          speed := cruise_speed_knots config;
          heading := Some initial_course;
          timestamp := now;
          position_accuracy := 1;
          length := Some (length_m config);
          width := Some (cfg_width_m config);
          draught := Some (draught_m config);
          destination := Some (corridor_name corridor);
          eta := None;
          nav_status := None;
          is_simulated := true;
          data_source := "SIMULATED_SMR" |};
        current_centerline_index := 1;
        simulation_time := now;
        violation_log := [];
        stats := {| total_distance_traveled_m := 0;
                    corridor_deviations := 0;
                    geofence_violations := 0;
                    speed_violations := 0 |} |}
  | _ => inl ValueError
  end.

(** [SMRVesselSimulator.step]. *)
Definition step (self : SMRVesselSimulator) (inp : StepInput)
  : Error + SMRVesselSimulator :=
  let dt := tick_duration self inp in
  let self :=
    set_simulation_time self (simulation_time self + timedelta_seconds dt)%Z in
  (* 1. current target centreline point *)
  let self :=
    if (List.length (centerline_coords (corridor self))
          <=? current_centerline_index self)%nat
    then set_centerline_index self 0%nat else self in
  match nth_error (centerline_coords (corridor self))
                  (current_centerline_index self) with
  | None => inl IndexError
  | Some target_point =>
    let v := vessel_state self in
    (* 2. bearing and distance *)
    let target_course :=
      calculate_bearing (latitude v) (longitude v)
        (fst target_point) (snd target_point) in
    let distance_to_target :=
      calculate_distance_haversine (latitude v) (longitude v)
        (fst target_point) (snd target_point) in
    (* 3. path following *)
    let cross_track_error :=
      distance_from_centerline (corridor self) (latitude v) (longitude v) in
    let K_p := 5 # 100 in
    let course_correction := K_p * cross_track_error in
    let desired_course :=
      target_course + sign cross_track_error * min course_correction 10 in
    (* 4. course and speed *)
    let v := set_course v (limit_course (course v) desired_course dt) in
    let v := set_heading v (Some (course v)) in
    let target_speed :=
      min (cruise_speed_knots (config self))
          (corridor_max_speed_knots (corridor self)) in
    let v := set_speed v target_speed in
    (* 5. dead reckoning *)
    let prediction :=
      predict_position (latitude v) (longitude v) (course v) (speed v)
        (inject_Z dt)
        (wind_speed_knots inp) (wind_direction_deg inp)
        (current_speed_knots inp) (current_direction_deg inp) in
    let distance_moved :=
      calculate_distance_haversine (latitude v) (longitude v)
        (predicted_latitude prediction) (predicted_longitude prediction) in
    let self := set_stats self (add_distance (stats self) distance_moved) in
    let v :=
      set_fix v (predicted_latitude prediction)
        (predicted_longitude prediction) (simulation_time self) in
    let self := set_vessel_state self v in
    (* 6. corridor deviation *)
    let self := check_corridor self in
    (* 7. geofences *)
    let self := check_geofences self in
    (* 8. centreline point reached *)
    let waypoint_arrival_threshold := 1000 in
    let self :=
      if ltb distance_to_target waypoint_arrival_threshold then
        set_centerline_index self (S (current_centerline_index self))
      else self in
    inr self
  end.

(** A run of ticks; it stops at the first exception. *)
Fixpoint steps (self : SMRVesselSimulator) (inps : list StepInput)
  : Error + SMRVesselSimulator :=
  match inps with
  | [] => inr self
  | inp :: rest =>
      match step self inp with
      | inl e => inl e
      | inr self => steps self rest
      end
  end.

(** The cross-track distance at the vessel's present position. *)
Definition cross_track (self : SMRVesselSimulator) : Q :=
  distance_from_centerline (corridor self)
    (latitude (vessel_state self)) (longitude (vessel_state self)).

(** The test of section 6 at the vessel's present position: outside the
    corridor, and farther off than the deviation threshold. *)
Definition deviation_detected (self : SMRVesselSimulator) : bool :=
  negb (leb (cross_track self) (width_m (corridor self) / 2))
  && gtb (cross_track self) (corridor_deviation_threshold_m (config self)).

(** The event that section 6 logs at the vessel's present position. *)
Definition deviation_event (self : SMRVesselSimulator) : ViolationEvent := {|
  ev_timestamp := simulation_time self;
  event_type := "CORRIDOR_DEVIATION";
  severity := "CRITICAL";
  ev_latitude := latitude (vessel_state self);
  ev_longitude := longitude (vessel_state self);
  details :=
    DeviationDetails (cross_track self) (width_m (corridor self))
      (corridor_deviation_threshold_m (config self)) |}.

(** A run on which every tick ends farther from the centreline than
    both the deviation threshold and half the corridor width. *)
Fixpoint stays_off_corridor (self : SMRVesselSimulator)
    (inps : list StepInput) : Prop :=
  match inps with
  | [] => True
  | inp :: rest =>
      match step self inp with
      | inr self =>
          (corridor_deviation_threshold_m (config self) < cross_track self
           /\ width_m (corridor self) / 2 < cross_track self)
          /\ stays_off_corridor self rest
      | inl _ => False
      end
  end.

(** A run that starts within the deviation threshold and on which every
    tick ends beyond it. *)
Fixpoint stays_beyond_threshold (self : SMRVesselSimulator)
    (inps : list StepInput) : Prop :=
  match inps with
  | [] => True
  | inp :: rest =>
      match step self inp with
      | inr self =>
          corridor_deviation_threshold_m (config self) < cross_track self
          /\ stays_beyond_threshold self rest
      | inl _ => False
      end
  end.

(** A PROHIBITED zone that contains the vessel. *)
Definition prohibited_hit (v : VesselState) (zone : GeofenceZone) : bool :=
  String.eqb (zone_type zone) "PROHIBITED"
  && contains_point zone (latitude v) (longitude v).

(** A RESTRICTED zone that contains the vessel, has a speed limit that
    counts as true (neither [None] nor 0) and is exceeded by the vessel. *)
Definition speeding_hit (v : VesselState) (zone : GeofenceZone) : bool :=
  String.eqb (zone_type zone) "RESTRICTED"
  && contains_point zone (latitude v) (longitude v)
  && match max_speed_knots zone with
     | Some limit => negb (eqb limit 0) && gtb (speed v) limit
     | None => false
     end.

End Step.

(** The corridor-deviation events of a log. *)
Definition is_corridor_deviation (e : ViolationEvent) : bool :=
  String.eqb (event_type e) "CORRIDOR_DEVIATION".

Definition corridor_deviation_events (l : list ViolationEvent)
  : list ViolationEvent :=
  List.filter is_corridor_deviation l.

(** The events appended to the log between two states. *)
Definition logged_between (before after : SMRVesselSimulator)
  : list ViolationEvent :=
  skipn (List.length (violation_log before)) (violation_log after).

(** A critical corridor-deviation event was appended between two states. *)
Definition deviation_logged (before after : SMRVesselSimulator) : Prop :=
  exists e,
    In e (logged_between before after)
    /\ event_type e = "CORRIDOR_DEVIATION"%string
    /\ severity e = "CRITICAL"%string.

(** ** An example vessel *)

(** A corridor along the equator, with the dataclass defaults: 10 km wide
    (5 km on either side of the centreline). *)
Definition equator_corridor : Corridor :=
  Corridor_default "EQ_01" "Equator" [ (0, 0); (0, 10) ].

(** The default SMR vessel (deviation threshold 2 000 m) in that corridor,
    0.03 degrees (3 336 m) north of the centreline. *)
Definition pioneer_off_track : SMRVesselSimulator := {|
  config := SMRVesselConfig_default;
  corridor := equator_corridor;
  geofence_zones := [];
  update_interval := 10;
  vessel_state := {|
    mmsi := SMR_MMSI;
    vessel_name := "SMR-PIONEER";
    vessel_type := "SMR";
    latitude := 3 # 100; longitude := 5;
    course := 90; speed := 20;
    heading := Some 90;
    timestamp := 0%Z;
    position_accuracy := 1%Z;
    length := Some 400; width := Some 59; draught := Some 16;
    destination := Some "Equator"%string;
    eta := None; nav_status := None;
    is_simulated := true;
    data_source := "SIMULATED_SMR" |};
  current_centerline_index := 1;
  simulation_time := 0%Z;
  violation_log := [];
  stats := {| total_distance_traveled_m := 0; corridor_deviations := 0;
              geofence_violations := 0; speed_violations := 0 |} |}.

(** The same vessel on the centreline. *)
Definition pioneer_on_track : SMRVesselSimulator :=
  set_vessel_state pioneer_off_track
    (set_fix (vessel_state pioneer_off_track) 0 5 0%Z).

Definition one_hour : StepInput := {|
  delta_time_sec := Some 3600%Z;
  wind_speed_knots := None; wind_direction_deg := None;
  current_speed_knots := None; current_direction_deg := None |}.

Definition ten_seconds : StepInput := {|
  delta_time_sec := Some 10%Z;
  wind_speed_knots := None; wind_direction_deg := None;
  current_speed_knots := None; current_direction_deg := None |}.

(** The geofence and the speed events of a log. *)
Definition is_geofence_violation (e : ViolationEvent) : bool :=
  String.eqb (event_type e) "GEOFENCE_VIOLATION".

Definition is_speed_violation (e : ViolationEvent) : bool :=
  String.eqb (event_type e) "SPEED_VIOLATION".

(** An event stamped with the time and the position of a simulator, and
    with the severity of its kind. *)
Definition stamped_by (self : SMRVesselSimulator) (e : ViolationEvent) : Prop :=
  ev_timestamp e = simulation_time self
  /\ ev_latitude e = latitude (vessel_state self)
  /\ ev_longitude e = longitude (vessel_state self)
  /\ (event_type e = "CORRIDOR_DEVIATION"%string /\ severity e = "CRITICAL"%string
      \/ event_type e = "GEOFENCE_VIOLATION"%string /\ severity e = "CRITICAL"%string
      \/ event_type e = "SPEED_VIOLATION"%string /\ severity e = "WARNING"%string).

(** The counters of the statistics are the numbers of events of each kind
    in the log. *)
Definition stats_agree_with_log (self : SMRVesselSimulator) : Prop :=
  corridor_deviations (stats self)
    = Z.of_nat (List.length (List.filter is_corridor_deviation (violation_log self)))
  /\ geofence_violations (stats self)
    = Z.of_nat (List.length (List.filter is_geofence_violation (violation_log self)))
  /\ speed_violations (stats self)
    = Z.of_nat (List.length (List.filter is_speed_violation (violation_log self))).

(** The simulation time at the end of a tick. *)
Definition time_after (self : SMRVesselSimulator) (inp : StepInput) : datetime :=
  (simulation_time self + timedelta_seconds (tick_duration self inp))%Z.

(** A corridor with one restricted zone (limit 15 knots) and one prohibited
    zone, and the example vessel in it. *)
Definition slow_zone : GeofenceZone := {|
  zone_id := "RESTRICTED_01"; zone_name := "Slow Zone";
  zone_type := "RESTRICTED";
  boundary_coords := [ (-1, 4); (-1, 6); (1, 6); (1, 4); (-1, 4) ];
  max_speed_knots := Some 15;
  mandatory_reporting := true |}.

Definition reserve_zone : GeofenceZone := {|
  zone_id := "PROHIBITED_01"; zone_name := "Marine Reserve";
  zone_type := "PROHIBITED";
  boundary_coords := [ (-1, 4); (-1, 6); (1, 6); (1, 4); (-1, 4) ];
  max_speed_knots := None;
  mandatory_reporting := false |}.

Definition pioneer_among_zones : SMRVesselSimulator := {|
  config := config pioneer_on_track;
  corridor := corridor pioneer_on_track;
  geofence_zones := [slow_zone; reserve_zone];
  update_interval := update_interval pioneer_on_track;
  vessel_state := vessel_state pioneer_on_track;
  current_centerline_index := current_centerline_index pioneer_on_track;
  simulation_time := simulation_time pioneer_on_track;
  violation_log := violation_log pioneer_on_track;
  stats := stats pioneer_on_track |}.

(** A stand-in geodesy like [equatorial_waters] in which a point is inside
    a polygon when it lies within one degree of the equator. *)
Definition equatorial_zones (bearing range set_north : Q) : Geodesy := {|
  calculate_bearing := fun _ _ _ _ => bearing;
  calculate_distance_haversine := fun _ _ _ _ => range;
  predict_position :=
    @predict_position (equatorial_waters bearing range set_north);
  nearest_on_linestring_m :=
    @nearest_on_linestring_m (equatorial_waters bearing range set_north);
  polygon_contains := fun _ lat _ => leb (Qabs lat) 1 |}.

End SMR.

(* ===================================================================== *)
(** * ais_client.py: AISStreamClient                                      *)
(* ===================================================================== *)

Module AIS.

Import Py Vessel.
Local Open Scope Z_scope.

(** ** The parsed envelope

    A frame is the result of [json.loads] on the raw text.  A key that is
    absent from a dictionary is [None]; [MMSI] is the string
    [str(metadata.get("MMSI", ""))]. *)

Record MetaData : Set := {
  MMSI : string;
  ShipName : option string
}.

Record PositionReport : Set := {
  pr_Type : option Z;
  Latitude : option Q;
  Longitude : option Q;
  Cog : option Q;
  Sog : option Q;
  TrueHeading : option Q;
  NavigationalStatus : option Z;
  PositionAccuracy : option Z
}.

Record Dimension : Set := {
  dim_A : option Q; dim_B : option Q; dim_C : option Q; dim_D : option Q
}.

Record EtaRaw : Set := {
  Month : option Z; Day : option Z; Hour : option Z; Minute : option Z
}.

(** [sd_Dimension] and [sd_Eta] are [None] when the key is absent or holds
    an empty dictionary (both are false in Python). *)
Record ShipStaticData : Set := {
  sd_Type : option Z;
  sd_Name : option string;
  sd_Dimension : option Dimension;
  sd_Draught : option Q;
  sd_Destination : option string;
  sd_Eta : option EtaRaw
}.

Inductive Frame : Set :=
| NotJSON                       (* json.loads raises JSONDecodeError *)
| NotAnObject                   (* valid JSON, but data.get does not exist *)
| PositionReportFrame (meta : MetaData) (msg : PositionReport)
| ShipStaticDataFrame (meta : MetaData) (msg : ShipStaticData)
| OtherFrame.                   (* any other MessageType *)

(** One reading of [datetime.utcnow()]: the instant and its civil year.
    The readings taken while one frame is handled are taken to be equal. *)
Record Now : Set := {
  instant : datetime;
  year : Z
}.

(** ** str.strip, on ASCII white space *)

Definition is_space (c : ascii) : bool :=
  let n := nat_of_ascii c in
  ((9 <=? n) && (n <=? 13) || (28 <=? n) && (n <=? 32))%nat.

Fixpoint lstrip (l : list ascii) : list ascii :=
  match l with
  | c :: r => if is_space c then lstrip r else l
  | [] => []
  end.

Definition strip (s : string) : string :=
  string_of_list_ascii
    (rev (lstrip (rev (lstrip (list_ascii_of_string s))))).

(** ** datetime(year, month, day, hour, minute) *)

Definition is_leap (y : Z) : bool :=
  (y mod 4 =? 0) && (negb (y mod 100 =? 0) || (y mod 400 =? 0)).

Definition days_in_month (y m : Z) : Z :=
  if m =? 2 then (if is_leap y then 29 else 28)
  else if (m =? 4) || (m =? 6) || (m =? 9) || (m =? 11) then 30
  else 31.

(** [None] stands for the [ValueError] of an impossible date. *)
Definition make_datetime (y mo d h mi : Z) : option CivilTime :=
  if (1 <=? y) && (y <=? 9999) && (1 <=? mo) && (mo <=? 12)
     && (1 <=? d) && (d <=? days_in_month y mo)
     && (0 <=? h) && (h <=? 23) && (0 <=? mi) && (mi <=? 59)
  then Some {| ct_year := y; ct_month := mo; ct_day := d;
               ct_hour := h; ct_minute := mi |}
  else None.

(** ** The client *)

Definition AUTONOMOUS_SHIP_MMSI_LIST : list string :=
  [ "257646000"; "259005610"; "258022650"; "352986205"; "440326000" ]%string.

Definition AUTONOMOUS_SHIP_TYPES : gset Z :=
  list_to_set [ 70; 71; 72; 73; 74; 75; 76; 77; 78; 79;
                80; 81; 82; 83; 84; 85; 86; 87; 88; 89 ].

Record Stats : Set := {
  messages_received : Z;
  messages_filtered : Z;
  parse_errors : Z;
  last_update : option datetime
}.

(** [queue.Queue(maxsize)].  The queue holds references to the
    [VesselState] objects of the cache; an object is named by the key it
    is cached under (the cache never rebinds or deletes a key), so an
    entry is that key and its content is read through the cache. *)
Record Queue : Set := {
  maxsize : Z;
  items : list string
}.

Definition qsize (q : Queue) : Z := Z.of_nat (List.length (items q)).

(** [Queue.full]: a queue with [maxsize <= 0] is never full. *)
Definition full (q : Queue) : bool := (0 <? maxsize q) && (maxsize q <=? qsize q).

(** [Queue.put], when it does not block. *)
Definition put (q : Queue) (x : string) : Queue :=
  {| maxsize := maxsize q; items := items q ++ [x] |}.

(** [Queue.get] on a queue that is not empty: the head leaves. *)
Definition get (q : Queue) : Queue :=
  {| maxsize := maxsize q; items := tail (items q) |}.

Record AISStreamClient : Type := {
  autonomous_mmsi_set : gset string;
  use_ship_type_fallback : bool;
  max_vessels : Z;
  (** the callback answers [false] when it raises *)
  message_callback : option (VesselState -> bool);
  message_queue : Queue;
  is_connected : bool;
  reconnect_attempts : Z;
  max_reconnect_attempts : Z;
  vessel_cache : gmap string VesselState;
  stats : Stats;
  running : bool
}.

(** [AISStreamClient.__init__]. *)
Definition AISStreamClient_init
    (message_callback : option (VesselState -> bool))
    (max_queue_size max_vessels : Z) (use_ship_type_fallback : bool)
  : AISStreamClient := {|
  autonomous_mmsi_set := list_to_set AUTONOMOUS_SHIP_MMSI_LIST;
  use_ship_type_fallback := use_ship_type_fallback;
  max_vessels := max_vessels;
  message_callback := message_callback;
  message_queue := {| maxsize := max_queue_size; items := [] |};
  is_connected := false;
  reconnect_attempts := 0;
  max_reconnect_attempts := 10;
  vessel_cache := ∅;
  stats := {| messages_received := 0; messages_filtered := 0;
              parse_errors := 0; last_update := None |};
  running := false |}.

(** The constructor's defaults: no callback, a queue of 1000, 20 vessels,
    no ship-type fallback. *)
Definition AISStreamClient_default : AISStreamClient :=
  AISStreamClient_init None 1000 20 false.

Definition set_vessel_cache (c : AISStreamClient)
    (m : gmap string VesselState) : AISStreamClient := {|
  autonomous_mmsi_set := autonomous_mmsi_set c;
  use_ship_type_fallback := use_ship_type_fallback c;
  max_vessels := max_vessels c;
  message_callback := message_callback c;
  message_queue := message_queue c;
  is_connected := is_connected c;
  reconnect_attempts := reconnect_attempts c;
  max_reconnect_attempts := max_reconnect_attempts c;
  vessel_cache := m;
  stats := stats c;
  running := running c |}.

Definition set_stats (c : AISStreamClient) (s : Stats) : AISStreamClient := {|
  autonomous_mmsi_set := autonomous_mmsi_set c;
  use_ship_type_fallback := use_ship_type_fallback c;
  max_vessels := max_vessels c;
  message_callback := message_callback c;
  message_queue := message_queue c;
  is_connected := is_connected c;
  reconnect_attempts := reconnect_attempts c;
  max_reconnect_attempts := max_reconnect_attempts c;
  vessel_cache := vessel_cache c;
  stats := s;
  running := running c |}.

Definition set_message_queue (c : AISStreamClient) (q : Queue)
  : AISStreamClient := {|
  autonomous_mmsi_set := autonomous_mmsi_set c;
  use_ship_type_fallback := use_ship_type_fallback c;
  max_vessels := max_vessels c;
  message_callback := message_callback c;
  message_queue := q;
  is_connected := is_connected c;
  reconnect_attempts := reconnect_attempts c;
  max_reconnect_attempts := max_reconnect_attempts c;
  vessel_cache := vessel_cache c;
  stats := stats c;
  running := running c |}.

Definition set_connection (c : AISStreamClient) (connected : bool)
    (attempts : Z) : AISStreamClient := {|
  autonomous_mmsi_set := autonomous_mmsi_set c;
  use_ship_type_fallback := use_ship_type_fallback c;
  max_vessels := max_vessels c;
  message_callback := message_callback c;
  message_queue := message_queue c;
  is_connected := connected;
  reconnect_attempts := attempts;
  max_reconnect_attempts := max_reconnect_attempts c;
  vessel_cache := vessel_cache c;
  stats := stats c;
  running := running c |}.

Definition set_running (c : AISStreamClient) (r : bool) : AISStreamClient := {|
  autonomous_mmsi_set := autonomous_mmsi_set c;
  use_ship_type_fallback := use_ship_type_fallback c;
  max_vessels := max_vessels c;
  message_callback := message_callback c;
  message_queue := message_queue c;
  is_connected := is_connected c;
  reconnect_attempts := reconnect_attempts c;
  max_reconnect_attempts := max_reconnect_attempts c;
  vessel_cache := vessel_cache c;
  stats := stats c;
  running := r |}.

Definition incr_messages_received (s : Stats) : Stats := {|
  messages_received := messages_received s + 1;
  messages_filtered := messages_filtered s;
  parse_errors := parse_errors s; last_update := last_update s |}.

Definition incr_messages_filtered (s : Stats) : Stats := {|
  messages_received := messages_received s;
  messages_filtered := messages_filtered s + 1;
  parse_errors := parse_errors s; last_update := last_update s |}.

Definition incr_parse_errors (s : Stats) : Stats := {|
  messages_received := messages_received s;
  messages_filtered := messages_filtered s;
  parse_errors := parse_errors s + 1; last_update := last_update s |}.

Definition set_last_update (s : Stats) (t : datetime) : Stats := {|
  messages_received := messages_received s;
  messages_filtered := messages_filtered s;
  parse_errors := parse_errors s; last_update := Some t |}.

(** The [VesselState] built for an identity seen for the first time. *)
Definition new_vessel (mmsi name : string) (is_autonomous : bool) (now : Now)
  : VesselState := {|
  Vessel.mmsi := mmsi;
  vessel_name := name;
  vessel_type := if is_autonomous then "Autonomous Ship" else "Cargo/Tanker";
  latitude := 0; longitude := 0; course := 0; speed := 0;
  heading := None;
  timestamp := instant now;
  position_accuracy := 1;
  length := None; width := None; draught := None;
  destination := None; eta := None; nav_status := None;
  is_simulated := false;
  data_source := "AIS" |}.

(** The assignments of a position update. *)
Definition update_position (v : VesselState) (lat lon : Q)
    (msg : PositionReport) (now : Now) : VesselState := {|
  Vessel.mmsi := Vessel.mmsi v;
  vessel_name := vessel_name v; vessel_type := vessel_type v;
  latitude := lat;
  longitude := lon;
  course := default (course v) (Cog msg);
  speed := default (speed v) (Sog msg);
  heading := TrueHeading msg;
  timestamp := instant now;
  position_accuracy := default 1 (PositionAccuracy msg);
  length := length v; width := width v; draught := draught v;
  destination := destination v; eta := eta v;
  nav_status := NavigationalStatus msg;
  is_simulated := is_simulated v; data_source := data_source v |}.

(** The two admission filters shared by both handlers. *)
Definition is_autonomous_mmsi (self : AISStreamClient) (mmsi : string) : bool :=
  bool_decide (mmsi ∈ autonomous_mmsi_set self).

Definition is_cargo_tanker (self : AISStreamClient) (ship_type : Z) : bool :=
  if use_ship_type_fallback self
  then bool_decide (ship_type ∈ AUTONOMOUS_SHIP_TYPES)
  else false.

Definition cache_len (self : AISStreamClient) : Z :=
  Z.of_nat (size (vessel_cache self)).

(** The enqueue at the end of a position update. *)
Definition enqueue (q : Queue) (ref : string) : Queue :=
  if negb (full q) then put q ref
  else put (get q) ref.

(** [_handle_position_report]. *)
Definition _handle_position_report (self : AISStreamClient)
    (metadata : MetaData) (message : PositionReport) (now : Now)
  : AISStreamClient :=
  let mmsi := MMSI metadata in
  let ship_type := default 0 (pr_Type message) in
  let is_autonomous := is_autonomous_mmsi self mmsi in
  let is_cargo_tanker_type := is_cargo_tanker self ship_type in
  if negb is_autonomous && negb is_cargo_tanker_type then
    set_stats self (incr_messages_filtered (stats self))
  else if negb is_autonomous && (max_vessels self <=? cache_len self) then
    set_stats self (incr_messages_filtered (stats self))
  else
    (* create or fetch the cached object *)
    let '(self, vessel) :=
      match vessel_cache self !! mmsi with
      | Some vessel => (self, vessel)
      | None =>
          let vessel_name :=
            strip (default ("Unknown-" ++ mmsi)%string (ShipName metadata)) in
          let vessel := new_vessel mmsi vessel_name is_autonomous now in
          (set_vessel_cache self (<[mmsi := vessel]> (vessel_cache self)),
           vessel)
      end in
    let new_latitude := default (latitude vessel) (Latitude message) in
    let new_longitude := default (longitude vessel) (Longitude message) in
    if eqb new_latitude 0 && eqb new_longitude 0 then
      set_stats self (incr_messages_filtered (stats self))
    else
      (* the cached object is updated in place *)
      let vessel := update_position vessel new_latitude new_longitude message now in
      let self :=
        set_vessel_cache self (<[mmsi := vessel]> (vessel_cache self)) in
      let self := set_message_queue self (enqueue (message_queue self) mmsi) in
      let callback_returns :=
        match message_callback self with
        | Some callback => callback vessel
        | None => true
        end in
      if callback_returns then
        set_stats self (set_last_update (stats self) (instant now))
      else self.

(** The assignments of a static update; [eta] is the date computed from
    the [Eta] dictionary, or the previous value. *)
Definition update_static (v : VesselState) (msg : ShipStaticData)
    (eta : option CivilTime) : VesselState := {|
  Vessel.mmsi := Vessel.mmsi v;
  vessel_name := vessel_name v; vessel_type := vessel_type v;
  latitude := latitude v; longitude := longitude v;
  course := course v; speed := speed v; heading := heading v;
  timestamp := timestamp v; position_accuracy := position_accuracy v;
  length :=
    match sd_Dimension msg with
    | Some dim => Some (default 0 (dim_A dim) + default 0 (dim_B dim))%Q
    | None => None
    end;
  width :=
    match sd_Dimension msg with
    | Some dim => Some (default 0 (dim_C dim) + default 0 (dim_D dim))%Q
    | None => None
    end;
  draught := sd_Draught msg;
  destination := Some (strip (default ""%string (sd_Destination msg)));
  eta := eta;
  nav_status := nav_status v;
  is_simulated := is_simulated v; data_source := data_source v |}.

(** The ETA block: month and day must be positive, and a date that
    [datetime] refuses leaves the previous value. *)
Definition parse_eta (previous : option CivilTime) (eta_raw : option EtaRaw)
    (now : Now) : option CivilTime :=
  match eta_raw with
  | None => previous
  | Some e =>
      let month := default 0 (Month e) in
      let day := default 0 (Day e) in
      let hour := default 0 (Hour e) in
      let minute := default 0 (Minute e) in
      if (0 <? month) && (0 <? day) then
        match make_datetime (year now) month day hour minute with
        | Some t => Some t
        | None => previous
        end
      else previous
  end.

(** [_handle_static_data]. *)
Definition _handle_static_data (self : AISStreamClient)
    (metadata : MetaData) (message : ShipStaticData) (now : Now)
  : AISStreamClient :=
  let mmsi := MMSI metadata in
  let ship_type := default 0 (sd_Type message) in
  let is_autonomous := is_autonomous_mmsi self mmsi in
  let is_cargo_tanker_type := is_cargo_tanker self ship_type in
  if negb is_autonomous && negb is_cargo_tanker_type then self
  else if negb is_autonomous && (max_vessels self <=? cache_len self) then self
  else
    let vessel :=
      match vessel_cache self !! mmsi with
      | Some vessel => vessel
      | None =>
          let ship_name :=
            strip (default ("Unknown-" ++ mmsi)%string (sd_Name message)) in
          new_vessel mmsi ship_name is_autonomous now
      end in
    let vessel :=
      update_static vessel message
        (parse_eta (eta vessel) (sd_Eta message) now) in
    set_vessel_cache self (<[mmsi := vessel]> (vessel_cache self)).

(** [_process_message]; an exception that leaves it is the second
    component. *)
Definition _process_message (self : AISStreamClient) (frame : Frame)
    (now : Now) : AISStreamClient * option Error :=
  let self := set_stats self (incr_messages_received (stats self)) in
  match frame with
  | NotJSON => (set_stats self (incr_parse_errors (stats self)), None)
  | NotAnObject => (self, Some AttributeError)
  | PositionReportFrame metadata message =>
      (_handle_position_report self metadata message now, None)
  | ShipStaticDataFrame metadata message =>
      (_handle_static_data self metadata message now, None)
  | OtherFrame => (self, None)
  end.

(** The body of the receive loop of [connect], for one frame. *)
Definition receive (self : AISStreamClient) (fr : Frame * Now)
  : AISStreamClient :=
  match _process_message self (fst fr) (snd fr) with
  | (self, None) => self
  | (self, Some _) => set_stats self (incr_parse_errors (stats self))
  end.

Definition receive_all (self : AISStreamClient) (frames : list (Frame * Now))
  : AISStreamClient :=
  fold_left receive frames self.

(** ** Connection and reconnection *)

(** How a session ends. *)
Inductive SessionEnd : Set :=
| ConnectionLost   (* ConnectionClosed, or any other exception *)
| StreamEnded.     (* the frame iterator finishes without raising *)

(** What the network does on one call of [connect]. *)
Inductive ConnectOutcome : Set :=
| Refused          (* websockets.connect raises *)
| Established (frames : list (Frame * Now)) (ending : SessionEnd).

Definition end_session (self : AISStreamClient) (ending : SessionEnd)
  : AISStreamClient :=
  match ending with
  | ConnectionLost => set_connection self false (reconnect_attempts self)
  | StreamEnded => self
  end.

(** [connect]. *)
Definition connect (self : AISStreamClient) (net : ConnectOutcome)
  : AISStreamClient :=
  match net with
  | Refused => set_connection self false (reconnect_attempts self)
  | Established frames ending =>
      let self := set_connection self true 0 in
      match frames with
      | [] => end_session self ending
      | _ :: _ =>
          if negb (running self) then self   (* break *)
          else end_session (receive_all self frames) ending
      end
  end.

(** The delay slept before attempt number [n]. *)
Definition backoff_time (n : Z) : Z := Z.min (2 ^ n) 60.

(** One turn of the loop of [reconnect_with_backoff]: count the attempt,
    sleep, call [connect].  The second component is the delay slept. *)
Definition attempt (self : AISStreamClient) (answer : ConnectOutcome)
  : AISStreamClient * Z :=
  let self :=
    set_connection self (is_connected self) (reconnect_attempts self + 1) in
  let slept := backoff_time (reconnect_attempts self) in
  (connect self answer, slept).

(** [reconnect_with_backoff].  The network's answers are read from [net];
    the result lists the delays slept, in order.  [None]: the loop is still
    running when the scripted answers are used up. *)
Fixpoint reconnect_with_backoff (self : AISStreamClient)
    (net : list ConnectOutcome) : option (AISStreamClient * list Z) :=
  if running self && (reconnect_attempts self <? max_reconnect_attempts self)
  then
    match net with
    | [] => None
    | answer :: net =>
        let '(self, slept) := attempt self answer in
        if is_connected self then Some (self, [slept])
        else
          match reconnect_with_backoff self net with
          | Some (self, sleeps) => Some (self, slept :: sleeps)
          | None => None
          end
    end
  else Some (set_running self false, []).

(** The attempt numbers [n], [n + 1], ... of [k] attempts in a row. *)
Fixpoint attempt_numbers (n : Z) (k : nat) : list Z :=
  match k with
  | O => []
  | S k => n :: attempt_numbers (n + 1) k
  end.

(** [stop]. *)
Definition stop (self : AISStreamClient) : AISStreamClient :=
  set_running (set_connection self false (reconnect_attempts self)) false.

(** [get_statistics]. *)
Record Statistics : Set := {
  st_stats : Stats;
  st_is_connected : bool;
  st_reconnect_attempts : Z;
  vessels_tracked : Z;
  queue_size : Z
}.

Definition get_statistics (self : AISStreamClient) : Statistics := {|
  st_stats := stats self;
  st_is_connected := is_connected self;
  st_reconnect_attempts := reconnect_attempts self;
  vessels_tracked := cache_len self;
  queue_size := qsize (message_queue self) |}.

(** ** Vocabulary of the properties *)

(** A course in [0, 360) and a speed that is not negative. *)
Definition course_speed_in_range (v : VesselState) : Prop :=
  (0 <= course v /\ course v < 360 /\ 0 <= speed v)%Q.

Definition cache_in_range (self : AISStreamClient) : Prop :=
  map_Forall (fun _ v => course_speed_in_range v) (vessel_cache self).

(** A position report whose [Cog] and [Sog], when present, are already a
    course in [0, 360) and a speed that is not negative. *)
Definition report_in_range (msg : PositionReport) : Prop :=
  (forall c, Cog msg = Some c -> 0 <= c /\ c < 360)%Q
  /\ (forall s, Sog msg = Some s -> 0 <= s)%Q.

Definition frame_in_range (fr : Frame * Now) : Prop :=
  match fst fr with
  | PositionReportFrame _ msg => report_in_range msg
  | _ => True
  end.

(** The handler did not count the report as filtered: it passed both
    admission filters and the position test. *)
Definition admitted (self : AISStreamClient) (metadata : MetaData)
    (message : PositionReport) (now : Now) : Prop :=
  messages_filtered (stats (_handle_position_report self metadata message now))
  = messages_filtered (stats self).

(** Some count reported by [get_statistics] differs between two states. *)
Definition some_count_changed (before after : Statistics) : Prop :=
  messages_received (st_stats after) <> messages_received (st_stats before)
  \/ messages_filtered (st_stats after) <> messages_filtered (st_stats before)
  \/ parse_errors (st_stats after) <> parse_errors (st_stats before)
  \/ st_reconnect_attempts after <> st_reconnect_attempts before
  \/ vessels_tracked after <> vessels_tracked before
  \/ queue_size after <> queue_size before.

(** ** Example traffic *)

Definition at_noon : Now := {| instant := 1793707200000000; year := 2026 |}.

Definition hmm_algeciras : MetaData :=
  {| MMSI := "440326000"; ShipName := Some "HMM ALGECIRAS        "%string |}.

Definition yara_birkeland : MetaData :=
  {| MMSI := "257646000"; ShipName := Some "YARA BIRKELAND"%string |}.

Definition report (lat lon cog sog : Q) : PositionReport := {|
  pr_Type := None;
  Latitude := Some lat; Longitude := Some lon;
  Cog := Some cog; Sog := Some sog;
  TrueHeading := None; NavigationalStatus := Some 0;
  PositionAccuracy := Some 1 |}.

(** The fix of the end-to-end scenario, and a report at null island. *)
Definition good_report : PositionReport := report (123 # 10) (456 # 10) 88 (152 # 10).
Definition null_island_report : PositionReport := report 0 0 88 (152 # 10).

(** "Course not available" is sent as 360 degrees. *)
Definition report_cog_360 : PositionReport := report (123 # 10) (456 # 10) 360 (-1).

(** A client with a queue of one entry that has seen two vessels: the
    queue holds the second one and is full. *)
Definition client_with_full_queue : AISStreamClient :=
  receive_all (AISStreamClient_init None 1 20 false)
    [ (PositionReportFrame hmm_algeciras good_report, at_noon);
      (PositionReportFrame yara_birkeland good_report, at_noon) ].

(** The default client, started. *)
Definition started_client : AISStreamClient :=
  set_running AISStreamClient_default true.

(** [get_vessel_by_mmsi] and [get_latest_vessels] (a copy of the cache). *)
Definition get_vessel_by_mmsi (self : AISStreamClient) (mmsi : string)
  : option VesselState :=
  vessel_cache self !! mmsi.

Definition get_latest_vessels (self : AISStreamClient)
  : gmap string VesselState :=
  vessel_cache self.

(** The two admission filters together: an allow-listed identity passes;
    any other passes when its ship type is a cargo or tanker type, the
    fallback is enabled and the cache is below [max_vessels]. *)
Definition passes_admission (self : AISStreamClient) (mmsi : string)
    (ship_type : Z) : bool :=
  is_autonomous_mmsi self mmsi
  || (is_cargo_tanker self ship_type && negb (max_vessels self <=? cache_len self)).

(** A frame that counts as a parse error. *)
Definition is_malformed (fr : Frame * Now) : bool :=
  match fst fr with
  | NotJSON | NotAnObject => true
  | _ => false
  end.

Definition is_position_report (fr : Frame * Now) : bool :=
  match fst fr with
  | PositionReportFrame _ _ => true
  | _ => false
  end.

(** Every record is cached under its own identity. *)
Definition keys_are_mmsi (self : AISStreamClient) : Prop :=
  forall k v, vessel_cache self !! k = Some v -> Vessel.mmsi v = k.

(** Every entry of the queue refers to a cached vessel. *)
Definition queue_refs_cached (self : AISStreamClient) : Prop :=
  forall ref, In ref (items (message_queue self)) ->
              is_Some (vessel_cache self !! ref).

(** Only allow-listed identities are cached. *)
Definition only_allowlisted (self : AISStreamClient) : Prop :=
  forall k, is_Some (vessel_cache self !! k) -> k ∈ autonomous_mmsi_set self.

(** Two records of the same vessel: identity, name, classification and
    provenance agree. *)
Definition same_identity (v v' : VesselState) : Prop :=
  Vessel.mmsi v' = Vessel.mmsi v
  /\ vessel_name v' = vessel_name v
  /\ vessel_type v' = vessel_type v
  /\ is_simulated v' = is_simulated v
  /\ data_source v' = data_source v.

(** Two records with the same kinematic state. *)
Definition same_fix (v v' : VesselState) : Prop :=
  latitude v' = latitude v
  /\ longitude v' = longitude v
  /\ course v' = course v
  /\ speed v' = speed v
  /\ heading v' = heading v
  /\ timestamp v' = timestamp v.

(** Every cached vessel is still cached, as the same vessel. *)
Definition cache_extends (before after : AISStreamClient) : Prop :=
  forall k v,
    vessel_cache before !! k = Some v ->
    exists v', vessel_cache after !! k = Some v' /\ same_identity v v'.

(** The settings of a client that handling frames never changes. *)
Definition same_settings (before after : AISStreamClient) : Prop :=
  autonomous_mmsi_set after = autonomous_mmsi_set before
  /\ use_ship_type_fallback after = use_ship_type_fallback before
  /\ max_vessels after = max_vessels before
  /\ maxsize (message_queue after) = maxsize (message_queue before).

(** Static data for HMM Algeciras and a report without a position. *)
Definition algeciras_static : ShipStaticData := {|
  sd_Type := Some 71;
  sd_Name := Some "HMM ALGECIRAS"%string;
  sd_Dimension :=
    Some {| dim_A := Some 200%Q; dim_B := Some 200%Q;
            dim_C := Some 30%Q; dim_D := Some 31%Q |};
  sd_Draught := Some (165 # 10)%Q;
  sd_Destination := Some "ROTTERDAM   "%string;
  sd_Eta := Some {| Month := Some 2; Day := Some 30;
                    Hour := Some 12; Minute := Some 0 |} |}.

Definition report_without_position : PositionReport := {|
  pr_Type := None;
  Latitude := None; Longitude := None;
  Cog := Some 91%Q; Sog := None;
  TrueHeading := Some 92%Q; NavigationalStatus := Some 0;
  PositionAccuracy := None |}.

(** A cargo vessel that is not on the allow-list, and a client with the
    ship-type fallback that tracks at most one vessel. *)
Definition some_cargo_ship : MetaData :=
  {| MMSI := "123456789"; ShipName := Some "EVER GIVEN"%string |}.

Definition cargo_report : PositionReport := {|
  pr_Type := Some 70;
  Latitude := Some 30%Q; Longitude := Some (325 # 10)%Q;
  Cog := Some 10%Q; Sog := Some 8%Q;
  TrueHeading := None; NavigationalStatus := None;
  PositionAccuracy := None |}.

Definition client_at_capacity : AISStreamClient :=
  receive_all (AISStreamClient_init None 1000 1 true)
    [ (PositionReportFrame some_cargo_ship cargo_report, at_noon) ].

End AIS.

(* ===================================================================== *)
(** * simulation_oceanic.py                                               *)
(* ===================================================================== *)

Module Oceanic.

Import Py.
Local Open Scope Q_scope.

Record Waypoint : Set := {
  latitude : Q;
  longitude : Q;
  name : string
}.

Record OceanicVesselConfig : Set := {
  vessel_name : string;
  mmsi : string;
  imo : string;
  vessel_type : string;
  route_name : string;
  waypoints : list Waypoint;
  speed_knots : Q;
  current_waypoint_index : Z;
  start_time : option datetime
}.

(** The static methods of [GreatCircleNavigator].  They are trigonometry on
    floats and stay abstract.  [calculate_distance_nm] takes a square root
    and [calculate_intermediate_point] divides by the sine of the angular
    distance of its end points, so both can raise; [calculate_bearing]
    cannot. *)
Class GreatCircleNavigator : Type := {
  calculate_distance_nm : Q -> Q -> Q -> Q -> Error + Q;
  calculate_bearing : Q -> Q -> Q -> Q -> Q;
  calculate_intermediate_point : Q -> Q -> Q -> Q -> Q -> Error + (Q * Q)
}.

Record OceanicVesselSimulator : Set := {
  config : OceanicVesselConfig;
  current_time : datetime;
  current_position : option (Q * Q);
  current_bearing : Q
}.

Definition set_start_time (c : OceanicVesselConfig) (t : option datetime)
  : OceanicVesselConfig := {|
  vessel_name := vessel_name c; mmsi := mmsi c; imo := imo c;
  vessel_type := vessel_type c; route_name := route_name c;
  waypoints := waypoints c; speed_knots := speed_knots c;
  current_waypoint_index := current_waypoint_index c;
  start_time := t |}.

Section Navigation.

Context {nav : GreatCircleNavigator}.

(** [__init__] with [_initialize_position]; [utcnow] is the clock. *)
Definition OceanicVesselSimulator_init (config : OceanicVesselConfig)
    (utcnow : datetime) : OceanicVesselSimulator :=
  let start := default utcnow (start_time config) in
  let config := set_start_time config (Some start) in
  match waypoints config with
  | wp1 :: wp2 :: _ =>
      {| config := config; current_time := start;
         current_position := Some (latitude wp1, longitude wp1);
         current_bearing :=
           calculate_bearing (latitude wp1) (longitude wp1)
             (latitude wp2) (longitude wp2) |}
  | _ =>
      {| config := config; current_time := start;
         current_position := None; current_bearing := 0 |}
  end.

(** The search of the loop of [get_predicted_position]: the first leg
    [waypoints[i]], [waypoints[i + 1]] whose end lies at or beyond the
    distance travelled, with the fraction of the leg covered; [None] when the
    loop runs to its end. *)
Fixpoint locate (waypoints : list Waypoint)
    (cumulative_distance distance_traveled_nm : Q)
  : Error + option (Waypoint * Waypoint * Q) :=
  match waypoints with
  | wp1 :: (wp2 :: _) as rest =>
      match calculate_distance_nm (latitude wp1) (longitude wp1)
              (latitude wp2) (longitude wp2) with
      | inl e => inl e
      | inr leg_distance =>
          if geb (cumulative_distance + leg_distance) distance_traveled_nm then
            let distance_in_leg := distance_traveled_nm - cumulative_distance in
            let fraction :=
              if gtb leg_distance 0 then distance_in_leg / leg_distance
              else 0 in
            inr (Some (wp1, wp2, fraction))
          else
            locate rest (cumulative_distance + leg_distance)
              distance_traveled_nm
      end
  | _ => inr None
  end.

(** [get_predicted_position]: latitude, longitude, bearing and the name of
    the current leg. *)
Definition get_predicted_position (self : OceanicVesselSimulator)
    (elapsed_hours : Q) : Error + (Q * Q * Q * string) :=
  let distance_traveled_nm := speed_knots (config self) * elapsed_hours in
  match locate (waypoints (config self)) 0 distance_traveled_nm with
  | inl e => inl e
  | inr (Some (wp1, wp2, fraction)) =>
      match calculate_intermediate_point (latitude wp1) (longitude wp1)
              (latitude wp2) (longitude wp2) fraction with
      | inl e => inl e
      | inr (lat, lon) =>
          let bearing :=
            calculate_bearing (latitude wp1) (longitude wp1)
              (latitude wp2) (longitude wp2) in
          inr (lat, lon, bearing, (name wp1 ++ " → " ++ name wp2)%string)
      end
  | inr None =>
      (* waypoints[-1] *)
      match last (waypoints (config self)) with
      | None => inl IndexError
      | Some last_wp =>
          inr (latitude last_wp, longitude last_wp, 0,
               ("Arrived at " ++ name last_wp)%string)
      end
  end.

(** The navigator raised [e] in one of its two fallible methods. *)
Definition navigator_raised (e : Error) : Prop :=
  (exists lat1 lon1 lat2 lon2,
      calculate_distance_nm lat1 lon1 lat2 lon2 = inl e)
  \/ (exists lat1 lon1 lat2 lon2 fraction,
        calculate_intermediate_point lat1 lon1 lat2 lon2 fraction = inl e).

(** Distances are not negative. *)
Definition distances_nonneg : Prop :=
  forall lat1 lon1 lat2 lon2 d,
    calculate_distance_nm lat1 lon1 lat2 lon2 = inr d -> 0 <= d.

End Navigation.

(** A stand-in navigator for running the simulator on concrete routes, a
    plane chart: 60 nautical miles per degree along both axes, added up;
    every leg bears 90 degrees; the intermediate point is the linear
    interpolation, and coincident end points raise as the division by the
    sine of a zero angular distance does. *)
Definition plane_chart : GreatCircleNavigator := {|
  calculate_distance_nm := fun lat1 lon1 lat2 lon2 =>
    inr (60 * (Qabs (lat2 - lat1) + Qabs (lon2 - lon1)));
  calculate_bearing := fun _ _ _ _ => 90;
  calculate_intermediate_point := fun lat1 lon1 lat2 lon2 fraction =>
    if eqb lat1 lat2 && eqb lon1 lon2 then inl ZeroDivisionError
    else inr (lat1 + fraction * (lat2 - lat1),
              lon1 + fraction * (lon2 - lon1)) |}.

(** [create_prism_courage_route]. *)
Definition create_prism_courage_route : OceanicVesselConfig := {|
  vessel_name := "Prism Courage";
  mmsi := "352986205";
  imo := "9888481";
  vessel_type := "LNG Tanker";
  route_name := "US Gulf → Korea";
  waypoints :=
    [ {| latitude := 2973 # 100; longitude := - (9387 # 100);
         name := "Sabine Pass (TX, USA)" |};
      {| latitude := 938 # 100; longitude := - (7992 # 100);
         name := "Panama Canal (Atlantic)" |};
      {| latitude := 897 # 100; longitude := - (7957 # 100);
         name := "Panama Canal (Pacific)" |};
      {| latitude := 0; longitude := - 140;
         name := "Pacific Ocean (Equator)" |};
      {| latitude := 20; longitude := 160;
         name := "Pacific Ocean (North)" |};
      {| latitude := 3699 # 100; longitude := 12682 # 100;
         name := "Pyeongtaek (Korea)" |} ];
  speed_knots := 19;
  current_waypoint_index := 0;
  (* datetime(2026, 1, 10, 0, 0, 0) *)
  start_time := Some 1768003200000000%Z |}.

Definition prism_courage : OceanicVesselSimulator :=
  @OceanicVesselSimulator_init plane_chart create_prism_courage_route 0%Z.

End Oceanic.

(* ===================================================================== *)
(** * Facts about the Python operators                                    *)
(* ===================================================================== *)

Module PyFacts.

Import Py.
Local Open Scope Q_scope.

Lemma ltb_lt (x y : Q) : ltb x y = true <-> x < y.
Proof.
  unfold ltb. rewrite negb_true_iff, <- not_true_iff_false, Qle_bool_iff.
  split; [apply Qnot_le_lt | apply Qlt_not_le].
Qed.

Lemma ltb_ge (x y : Q) : ltb x y = false <-> y <= x.
Proof.
  unfold ltb. rewrite negb_false_iff. apply Qle_bool_iff.
Qed.

Lemma gtb_gt (x y : Q) : gtb x y = true <-> y < x.
Proof. apply ltb_lt. Qed.

Lemma gtb_le (x y : Q) : gtb x y = false <-> x <= y.
Proof. apply ltb_ge. Qed.

Lemma leb_le (x y : Q) : leb x y = true <-> x <= y.
Proof. apply Qle_bool_iff. Qed.

Lemma leb_gt (x y : Q) : leb x y = false <-> y < x.
Proof.
  unfold leb. rewrite <- not_true_iff_false, Qle_bool_iff.
  split; [apply Qnot_le_lt | apply Qlt_not_le].
Qed.

Lemma eqb_eq (x y : Q) : eqb x y = true <-> x == y.
Proof. apply Qeq_bool_iff. Qed.

Lemma sign_pos (x : Q) : 0 < x -> sign x = 1.
Proof.
  intros H. unfold sign.
  destruct (ltb x 0) eqn:E1.
  - apply ltb_lt in E1. exfalso. apply (Qlt_irrefl 0). now apply Qlt_trans with x.
  - apply ltb_lt in H. now rewrite H.
Qed.

Lemma sign_neg (x : Q) : x < 0 -> sign x = -1.
Proof. intros H. unfold sign. apply ltb_lt in H. now rewrite H. Qed.

(** The floor of [x] is the only integer [k] with [k <= x < k + 1]. *)
Lemma Qfloor_unique (x : Q) (k : Z) :
  inject_Z k <= x -> x < inject_Z (k + 1) -> Qfloor x = k.
Proof.
  intros Hlo Hhi.
  assert (H1 : (k <= Qfloor x)%Z).
  { rewrite <- (Qfloor_Z k). now apply Qfloor_resp_le. }
  assert (H2 : (Qfloor x < k + 1)%Z).
  { rewrite Zlt_Qlt. apply Qle_lt_trans with x; [apply Qfloor_le | exact Hhi]. }
  lia.
Qed.

Lemma Qfloor_add_Z (x : Q) (k : Z) : Qfloor (x + inject_Z k) = (Qfloor x + k)%Z.
Proof.
  apply Qfloor_unique.
  - rewrite inject_Z_plus. apply Qplus_le_l. apply Qfloor_le.
  - replace (Qfloor x + k + 1)%Z with ((Qfloor x + 1) + k)%Z by lia.
    rewrite inject_Z_plus. apply Qplus_lt_l. apply Qlt_floor.
Qed.

#[export] Instance mod_comp : Proper (Qeq ==> Qeq ==> Qeq) mod_.
Proof.
  intros x x' Hx m m' Hm. unfold mod_.
  assert (E : Qfloor (x / m) = Qfloor (x' / m')).
  { apply Qfloor_comp. now rewrite Hx, Hm. }
  rewrite E, Hx, Hm. reflexivity.
Qed.

(** [x % 360] lies in [0, 360). *)
Lemma mod_360_range (x : Q) : 0 <= mod_ x 360 /\ mod_ x 360 < 360.
Proof.
  unfold mod_.
  pose proof (Qfloor_le (x / 360)) as Hlo.
  pose proof (Qlt_floor (x / 360)) as Hhi.
  rewrite inject_Z_plus in Hhi.
  set (f := inject_Z (Qfloor (x / 360))) in *.
  assert (Hx : x == 360 * (x / 360)) by (field).
  split.
  - apply (Qmult_le_l _ _ 360) in Hlo; [| reflexivity].
    rewrite <- Hx in Hlo.
    rewrite <- (Qplus_opp_r (360 * f)).
    apply Qplus_le_l. exact Hlo.
  - apply (Qmult_lt_l _ _ 360) in Hhi; [| reflexivity].
    rewrite <- Hx in Hhi.
    apply Qplus_lt_l with (z := 360 * f).
    assert (E1 : x - 360 * f + 360 * f == x) by ring.
    assert (E2 : 360 + 360 * f == 360 * (f + inject_Z 1)) by ring.
    rewrite E1, E2. exact Hhi.
Qed.

(** A value already in [0, 360) is left alone. *)
Lemma mod_360_small (x : Q) : 0 <= x -> x < 360 -> mod_ x 360 == x.
Proof.
  intros Hlo Hhi. unfold mod_.
  assert (E : Qfloor (x / 360) = 0%Z).
  { apply Qfloor_unique.
    - apply Qle_shift_div_l; [reflexivity |]. now rewrite Qmult_0_l.
    - apply Qlt_shift_div_r; [reflexivity |]. now rewrite Qmult_1_l. }
  rewrite E. ring.
Qed.

(** Whole turns do not matter. *)
Lemma mod_360_shift (x : Q) (k : Z) :
  mod_ (x + 360 * inject_Z k) 360 == mod_ x 360.
Proof.
  unfold mod_.
  assert (E : Qfloor ((x + 360 * inject_Z k) / 360) = (Qfloor (x / 360) + k)%Z).
  { rewrite <- Qfloor_add_Z. apply Qfloor_comp. field. }
  rewrite E, inject_Z_plus. ring.
Qed.

(** Normalising a course first does not change a rotation to or from it. *)
Lemma mod_360_absorb (x y : Q) :
  mod_ (mod_ x 360 + y) 360 == mod_ (x + y) 360.
Proof.
  assert (E : mod_ x 360 + y == (x + y) + 360 * inject_Z (- Qfloor (x / 360))).
  { unfold mod_. rewrite inject_Z_opp. ring. }
  rewrite E. apply mod_360_shift.
Qed.

End PyFacts.

(* ===================================================================== *)
(** * The channel simulator: metrics and the forced blackout              *)
(* ===================================================================== *)

Module ChannelFacts.

Import Py PyFacts Channel.
Local Open Scope Q_scope.

(** ** What one transmission does to the packet counters *)

Lemma transmit_counters (s : ScenarioController) (rnd : Draws) :
  total_packets (stats (fst (transmit s rnd))) = total_packets (stats s)
  /\ (lost_packets (stats s) <= lost_packets (stats (fst (transmit s rnd)))
      <= lost_packets (stats s) + 1)%Z.
Proof.
  unfold transmit.
  destruct (ge_step _ _ _) as [g lost]. destruct lost; simpl; lia.
Qed.

Lemma transmit_never_blackout (s s' : ScenarioController) (rnd : Draws) :
  transmit s rnd <> (s', Returned BLACKOUT).
Proof.
  unfold transmit.
  destruct (ge_step _ _ _) as [g lost]. destruct lost; intros H; inversion H.
Qed.

Lemma process_transmission_counters s t rnd :
  total_packets (stats (fst (process_transmission s t rnd)))
    = (total_packets (stats s) + 1)%Z
  /\ (lost_packets (stats s)
      <= lost_packets (stats (fst (process_transmission s t rnd)))
      <= lost_packets (stats s) + 1)%Z.
Proof.
  unfold process_transmission.
  repeat match goal with
         | |- context [match ?x with _ => _ end] =>
             match x with
             | transmit _ _ => fail 1
             | _ => destruct x eqn:?
             end
         end; simpl;
    try match goal with
        | |- context [transmit ?a ?b] =>
            pose proof (transmit_counters a b) as Ht; simpl in Ht
        end;
    try lia.
Qed.

Lemma reachable_counters_ok s : reachable s -> counters_ok s.
Proof.
  unfold counters_ok. induction 1 as [cfg now | s t rnd _ IH | s _ IH].
  - simpl. lia.
  - pose proof (process_transmission_counters s t rnd). lia.
  - simpl. lia.
Qed.

Lemma run_reachable s calls : reachable s -> reachable (run s calls).
Proof.
  revert s. induction calls as [| [t rnd] rest IH]; intros s Hs; simpl.
  - exact Hs.
  - apply IH. now constructor.
Qed.

(** ** The reliability index *)

Lemma inject_Z_nonzero (z : Z) : z <> 0%Z -> ~ inject_Z z == 0.
Proof.
  intros Hz H. apply Hz. unfold Qeq in H. simpl in H. lia.
Qed.

Lemma reliability_index_value (s : ScenarioController) :
  total_packets (stats s) <> 0%Z ->
  calculate_reliability_index s
  = inr (inject_Z (total_packets (stats s) - lost_packets (stats s))
         / inject_Z (total_packets (stats s)) * 100).
Proof.
  intros Ht. unfold calculate_reliability_index, truediv.
  destruct (Z.eqb_spec (total_packets (stats s)) 0) as [E | _]; [contradiction |].
  destruct (eqb (inject_Z (total_packets (stats s))) 0) eqn:E; [| reflexivity].
  apply eqb_eq in E. now apply inject_Z_nonzero in E.
Qed.



(** C8.  A [process_transmission] call that answers [BLACKOUT] leaves the
    Gilbert-Elliott model as it was: same GOOD/BAD state, same loss and
    transition probabilities. *)
Theorem blackout_leaves_ge_model_untouched
    (s s' : ScenarioController) (t : option datetime) (rnd : Draws) :
  process_transmission s t rnd = (s', Returned BLACKOUT) ->
  ge_model s' = ge_model s
  /\ current_state (ge_model s') = current_state (ge_model s)
  /\ p_loss_good (ge_model s') = p_loss_good (ge_model s)
  /\ p_loss_bad (ge_model s') = p_loss_bad (ge_model s).
Proof.
  intros H.
  assert (E : ge_model s' = ge_model s).
  { unfold process_transmission in H.
    repeat match type of H with
           | context [match ?x with _ => _ end] =>
               match x with
               | transmit _ _ => fail 1
               | _ => destruct x eqn:?
               end
           end;
      try (now apply transmit_never_blackout in H);
      try discriminate;
      inversion H; reflexivity. }
  rewrite E. repeat split.
Qed.

Lemma blackout_leaves_ge_model_untouched_witness :
  ge_model in_forced_blackout
    = ge_model (ScenarioController_init create_scenario_critical_failure 0%Z)
  /\ current_state (ge_model in_forced_blackout) = GOOD
  /\ p_loss_good (ge_model in_forced_blackout) = 1 # 100
  /\ p_loss_bad (ge_model in_forced_blackout) = 30 # 100.
Proof.
  apply (blackout_leaves_ge_model_untouched
           (ScenarioController_init create_scenario_critical_failure 0%Z)
           in_forced_blackout (Some 1000000%Z) quiet_draws).
  reflexivity.
Defined.

(** C10.  With no transmission processed yet both metrics are defined:
    the reliability index is [100.0] and the average latency [0.0].  This
    holds for a freshly constructed controller, after [reset_statistics],
    and in every reachable state whose [total_packets] is [0]. *)
Theorem metrics_defined_without_traffic :
  (forall cfg now,
      calculate_reliability_index (ScenarioController_init cfg now) = inr 100
      /\ calculate_average_latency (ScenarioController_init cfg now) = inr 0)
  /\ (forall s,
      calculate_reliability_index (reset_statistics s) = inr 100
      /\ calculate_average_latency (reset_statistics s) = inr 0)
  /\ (forall s,
      reachable s -> total_packets (stats s) = 0%Z ->
      calculate_reliability_index s = inr 100
      /\ calculate_average_latency s = inr 0).
Proof.
  split; [| split].
  - intros cfg now. split; reflexivity.
  - intros s. split; reflexivity.
  - intros s Hr Ht. apply reachable_counters_ok in Hr. unfold counters_ok in Hr.
    assert (Hl : lost_packets (stats s) = 0%Z) by lia.
    unfold calculate_reliability_index, calculate_average_latency.
    rewrite Ht, Hl. split; reflexivity.
Qed.

Lemma metrics_defined_without_traffic_witness :
  calculate_reliability_index (reset_statistics after_three) = inr 100
  /\ calculate_average_latency (reset_statistics after_three) = inr 0.
Proof.
  apply (proj2 (proj2 metrics_defined_without_traffic)
           (reset_statistics after_three)).
  - apply reach_reset. unfold after_three. apply run_reachable. apply reach_init.
  - reflexivity.
Defined.

End ChannelFacts.

(* ===================================================================== *)
(** * The waypoint-route simulator: acceleration and turn-rate limits     *)
(* ===================================================================== *)

Module AmmoniaFacts.

Import Py PyFacts Vessel Geo Ammonia.
Local Open Scope Q_scope.

Lemma sign_cases (x : Q) : sign x = -1 \/ sign x = 0 \/ sign x = 1.
Proof.
  unfold sign. destruct (ltb x 0); [now left |].
  destruct (ltb 0 x); [now right; right | now right; left].
Qed.

(** The speed never changes by more than 0.05 knots per second. *)
Lemma limit_speed_bound (speed target_speed : Q) (dt : Z) :
  (0 <= dt)%Z ->
  Qabs (limit_speed speed target_speed dt - speed) <= (5 # 100) * inject_Z dt.
Proof.
  intros Hdt. unfold limit_speed, abs.
  assert (Hm : 0 <= (5 # 100) * inject_Z dt).
  { apply Qmult_le_0_compat; [discriminate |].
    change 0 with (inject_Z 0). now rewrite <- Zle_Qle. }
  set (m := (5 # 100) * inject_Z dt) in *.
  destruct (gtb (Qabs (target_speed - speed)) m) eqn:E.
  - apply Qabs_Qle_condition.
    destruct (sign_cases (target_speed - speed)) as [-> | [-> | ->]];
      split; lra.
  - apply gtb_le in E. exact E.
Qed.

(** A rotation found by the code lies in [-180, 180). *)
Lemma course_diff_range (a b : Q) :
  -180 <= shortest_rotation a b /\ shortest_rotation a b < 180.
Proof.
  unfold shortest_rotation.
  destruct (mod_360_range (b - a + 180)) as [H1 H2]. split; lra.
Qed.

(** The course never turns by more than 2 degrees per second, measured
    along the shorter way round. *)
Lemma limit_course_bound (course target_course : Q) (dt : Z) :
  (0 <= dt)%Z ->
  Qabs (shortest_rotation course (limit_course course target_course dt))
  <= 2 * inject_Z dt.
Proof.
  intros Hdt.
  assert (Hm : 0 <= 2 * inject_Z dt).
  { apply Qmult_le_0_compat; [discriminate |].
    change 0 with (inject_Z 0). now rewrite <- Zle_Qle. }
  unfold limit_course, abs.
  fold (shortest_rotation course target_course).
  destruct (course_diff_range course target_course) as [Hlo Hhi].
  set (d := shortest_rotation course target_course) in *.
  set (m := 2 * inject_Z dt) in *.
  unfold shortest_rotation at 1.
  destruct (gtb (Qabs d) m) eqn:E.
  - apply gtb_gt in E.
    assert (Eabs :
      mod_ (mod_ (course + sign d * m) 360 - course + 180) 360
      == mod_ (sign d * m + 180) 360).
    { assert (E1 : mod_ (course + sign d * m) 360 - course + 180
                   == mod_ (course + sign d * m) 360 + (- course + 180)) by ring.
      rewrite E1, mod_360_absorb.
      apply mod_comp; [ring | reflexivity]. }
    rewrite Eabs.
    destruct (Qlt_le_dec d 0) as [Hneg | Hpos].
    + rewrite (Qabs_neg d) in E by lra.
      rewrite (sign_neg d Hneg).
      rewrite mod_360_small by lra.
      apply Qabs_Qle_condition. split; lra.
    + rewrite (Qabs_pos d Hpos) in E.
      rewrite (sign_pos d) by lra.
      rewrite mod_360_small by lra.
      apply Qabs_Qle_condition. split; lra.
  - apply gtb_le in E.
    assert (Eabs :
      mod_ (mod_ target_course 360 - course + 180) 360
      == mod_ (target_course - course + 180) 360).
    { assert (E1 : mod_ target_course 360 - course + 180
                   == mod_ target_course 360 + (- course + 180)) by ring.
      rewrite E1, mod_360_absorb.
      apply mod_comp; [ring | reflexivity]. }
    rewrite Eabs. exact E.
Qed.

(** What a tick leaves in the vessel's speed and course. *)
Lemma step_speed_course `{Geodesy} (self self' : AmmoniaVesselSimulator)
    (inp : StepInput) :
  step self inp = inr self' ->
  exists target_speed target_course : Q,
    speed (vessel_state self')
      = limit_speed (speed (vessel_state self)) target_speed
          (tick_duration self inp)
    /\ course (vessel_state self')
      = limit_course (course (vessel_state self)) target_course
          (tick_duration self inp).
Proof.
  unfold step. intros Hstep.
  destruct (update_blackout _ inp) as [e | s1] eqn:Hb; [discriminate |].
  assert (Hv : vessel_state s1 = vessel_state self).
  { unfold update_blackout in Hb.
    repeat match type of Hb with
           | context [match ?x with _ => _ end] => destruct x
           end; inversion Hb; reflexivity. }
  match type of Hstep with
  | context [nth_error ?l ?i] => destruct (nth_error l i) as [wp |] eqn:Hwp
  end; [| discriminate].
  match type of Hwp with
  | context [if ?c then _ else _] => destruct c
  end; simpl in *;
    match type of Hstep with
    | context [if ?c then _ else _] => destruct c
    end; inversion Hstep; subst self'; simpl; rewrite Hv;
    eexists; eexists; split; reflexivity.
Qed.

(** A tick returns whenever the route has a waypoint and the blackout
    flag has its start time. *)
Lemma step_returns `{Geodesy} (self : AmmoniaVesselSimulator) (inp : StepInput) :
  waypoints (route (config self)) <> [] ->
  (in_blackout self = true -> blackout_start_time self <> None) ->
  exists self', step self inp = inr self'.
Proof.
  intros Hroute Hblk. unfold step.
  destruct (update_blackout _ inp) as [e | s1] eqn:Hb.
  - exfalso. unfold update_blackout in Hb. simpl in Hb.
    destruct (in_blackout self) eqn:Eb.
    + destruct (blackout_start_time self) eqn:Es; [| now apply Hblk].
      destruct (geb _ _); discriminate.
    + destruct (ltb _ _); discriminate.
  - assert (Hc : config s1 = config self).
    { unfold update_blackout in Hb.
      repeat match type of Hb with
             | context [match ?x with _ => _ end] => destruct x
             end; inversion Hb; reflexivity. }
    match goal with
    | |- context [nth_error ?l ?i] => destruct (nth_error l i) as [wp |] eqn:Hwp
    end.
    + eexists. reflexivity.
    + exfalso. apply nth_error_None in Hwp.
      unfold get_total_waypoints in Hwp.
      destruct (Nat.leb_spec (List.length (waypoints (route (config s1))))
                             (current_waypoint_idx s1)) as [Hle | Hlt];
        simpl in Hwp.
      * rewrite Hc in Hwp. destruct (waypoints (route (config self)));
          [now apply Hroute | simpl in Hwp; lia].
      * lia.
Qed.



End AmmoniaFacts.

(* ===================================================================== *)
(** * The corridor simulator: when a deviation is logged                  *)
(* ===================================================================== *)

Module SMRFacts.

Import Py PyFacts Vessel Geo SMR.
Local Open Scope Q_scope.

Section Tick.

Context {geo : Geodesy}.

(** The deviation test and its event only read the configuration, the
    corridor, the vessel and the clock. *)
Lemma deviation_ext (a b : SMRVesselSimulator) :
  config a = config b -> corridor a = corridor b ->
  vessel_state a = vessel_state b -> simulation_time a = simulation_time b ->
  deviation_detected a = deviation_detected b
  /\ deviation_event a = deviation_event b
  /\ cross_track a = cross_track b.
Proof.
  intros Hc Hk Hv Ht.
  unfold deviation_detected, deviation_event, cross_track.
  rewrite Hc, Hk, Hv, Ht. repeat split.
Qed.

(** Section 6 logs the deviation event exactly when the test holds. *)
Lemma check_corridor_spec (self : SMRVesselSimulator) :
  config (check_corridor self) = config self
  /\ corridor (check_corridor self) = corridor self
  /\ vessel_state (check_corridor self) = vessel_state self
  /\ simulation_time (check_corridor self) = simulation_time self
  /\ geofence_zones (check_corridor self) = geofence_zones self
  /\ current_centerline_index (check_corridor self)
     = current_centerline_index self
  /\ violation_log (check_corridor self)
     = violation_log self
       ++ (if deviation_detected self then [deviation_event self] else [])
  /\ corridor_deviations (stats (check_corridor self))
     = (corridor_deviations (stats self)
        + (if deviation_detected self then 1 else 0))%Z.
Proof.
  unfold check_corridor, deviation_detected, deviation_event,
    is_within_corridor, cross_track, _log_violation.
  destruct (leb _ _); simpl;
    [| destruct (gtb _ _); simpl];
    rewrite ?app_nil_r, ?Z.add_0_r; repeat split.
Qed.

(** Section 7 never logs a corridor deviation and leaves the vessel, the
    corridor and the deviation counter alone. *)
Lemma check_zone_frame (self : SMRVesselSimulator) (zone : GeofenceZone) :
  config (check_zone self zone) = config self
  /\ corridor (check_zone self zone) = corridor self
  /\ vessel_state (check_zone self zone) = vessel_state self
  /\ simulation_time (check_zone self zone) = simulation_time self
  /\ current_centerline_index (check_zone self zone)
     = current_centerline_index self
  /\ corridor_deviations (stats (check_zone self zone))
     = corridor_deviations (stats self)
  /\ exists events,
       violation_log (check_zone self zone) = violation_log self ++ events
       /\ corridor_deviation_events events = [].
Proof.
  unfold check_zone, _log_violation.
  destruct (String.eqb (zone_type zone) "PROHIBITED" && _); simpl.
  { repeat split. eexists. split; reflexivity. }
  destruct (String.eqb (zone_type zone) "RESTRICTED" && _); simpl.
  2: { repeat split. exists []. now rewrite app_nil_r. }
  destruct (max_speed_knots zone) as [limit |].
  2: { repeat split. exists []. now rewrite app_nil_r. }
  destruct (negb (eqb limit 0) && _); simpl.
  - repeat split. eexists. split; reflexivity.
  - repeat split. exists []. now rewrite app_nil_r.
Qed.

Lemma check_zones_frame (zones : list GeofenceZone) (self : SMRVesselSimulator) :
  config (fold_left check_zone zones self) = config self
  /\ corridor (fold_left check_zone zones self) = corridor self
  /\ vessel_state (fold_left check_zone zones self) = vessel_state self
  /\ simulation_time (fold_left check_zone zones self) = simulation_time self
  /\ current_centerline_index (fold_left check_zone zones self)
     = current_centerline_index self
  /\ corridor_deviations (stats (fold_left check_zone zones self))
     = corridor_deviations (stats self)
  /\ exists events,
       violation_log (fold_left check_zone zones self)
       = violation_log self ++ events
       /\ corridor_deviation_events events = [].
Proof.
  revert self. induction zones as [| zone zones IH]; intros self; simpl.
  - repeat split. exists []. now rewrite app_nil_r.
  - destruct (IH (check_zone self zone))
      as (Hc & Hk & Hv & Ht & Hi & Hd & evs & Hl & Hf).
    destruct (check_zone_frame self zone)
      as (Hc' & Hk' & Hv' & Ht' & Hi' & Hd' & evs' & Hl' & Hf').
    rewrite Hc, Hk, Hv, Ht, Hi, Hd, Hl, Hl'.
    repeat split; try assumption.
    exists (evs' ++ evs). split; [now rewrite app_assoc |].
    unfold corridor_deviation_events in *.
    now rewrite List.filter_app, Hf', Hf.
Qed.

(** What one tick adds to the violation log: the deviation event, when
    the test holds at the new position, then the zone events. *)
Lemma step_log (self self' : SMRVesselSimulator) (inp : StepInput) :
  step self inp = inr self' ->
  config self' = config self
  /\ corridor self' = corridor self
  /\ exists zone_events,
       corridor_deviation_events zone_events = []
       /\ violation_log self'
          = violation_log self
            ++ (if deviation_detected self' then [deviation_event self']
                else [])
            ++ zone_events
       /\ corridor_deviations (stats self')
          = (corridor_deviations (stats self)
             + (if deviation_detected self' then 1 else 0))%Z.
Proof.
  unfold step. intros Hstep.
  match type of Hstep with
  | context [nth_error ?l ?i] => destruct (nth_error l i) as [pt |] eqn:Hpt
  end; [| discriminate].
  match type of Hstep with
  | context [check_geofences (check_corridor ?s)] =>
      remember s as s0 eqn:Hs0
  end.
  assert (H0 : config s0 = config self /\ corridor s0 = corridor self
               /\ violation_log s0 = violation_log self
               /\ corridor_deviations (stats s0)
                  = corridor_deviations (stats self)).
  { subst s0. simpl.
    destruct (_ <=? _)%nat; simpl; repeat split. }
  destruct H0 as (H0c & H0k & H0l & H0d).
  destruct (check_corridor_spec s0)
    as (Hc1 & Hk1 & Hv1 & Ht1 & Hz1 & Hi1 & Hl1 & Hd1).
  unfold check_geofences in Hstep. rewrite Hz1 in Hstep.
  destruct (check_zones_frame (geofence_zones s0) (check_corridor s0))
    as (Hc2 & Hk2 & Hv2 & Ht2 & Hi2 & Hd2 & evs & Hl2 & Hf2).
  set (s2 := fold_left check_zone (geofence_zones s0) (check_corridor s0)) in *.
  assert (Hfin : config self' = config s2 /\ corridor self' = corridor s2
                 /\ vessel_state self' = vessel_state s2
                 /\ simulation_time self' = simulation_time s2
                 /\ violation_log self' = violation_log s2
                 /\ stats self' = stats s2).
  { match type of Hstep with
    | context [if ?c then _ else _] => destruct c
    end; inversion Hstep; subst self'; simpl; repeat split. }
  destruct Hfin as (Hc3 & Hk3 & Hv3 & Ht3 & Hl3 & Hst3).
  destruct (deviation_ext self' s0) as (Edet & Eev & _); try congruence.
  split; [congruence |]. split; [congruence |].
  exists evs. split; [exact Hf2 |].
  rewrite Edet, Eev, Hl3, Hst3, Hl2, Hl1, Hd2, Hd1, H0l, H0d.
  split; [now rewrite app_assoc | reflexivity].
Qed.

(** The test, in terms of the two distances. *)
Lemma deviation_detected_iff (self : SMRVesselSimulator) :
  deviation_detected self = true
  <-> width_m (corridor self) / 2 < cross_track self
      /\ corridor_deviation_threshold_m (config self) < cross_track self.
Proof.
  unfold deviation_detected.
  rewrite andb_true_iff, negb_true_iff, leb_gt, gtb_gt. tauto.
Qed.

Lemma deviation_not_detected_inside (self : SMRVesselSimulator) :
  cross_track self <= width_m (corridor self) / 2 ->
  deviation_detected self = false.
Proof.
  intros H. unfold deviation_detected.
  apply leb_le in H. now rewrite H.
Qed.

End Tick.

Lemma skipn_length_app {A : Type} (l x : list A) :
  skipn (List.length l) (l ++ x) = x.
Proof. induction l as [| a l IH]; simpl; [reflexivity | exact IH]. Qed.

Lemma deviation_event_is_deviation `{Geodesy} (self : SMRVesselSimulator) :
  is_corridor_deviation (deviation_event self) = true.
Proof. reflexivity. Qed.

(** The claim of C3 fails inside a wide corridor: the default vessel
    (threshold 2 000 m) in the default corridor (half-width 5 000 m) ends a
    tick 3 336 m off the centreline, beyond the threshold, and nothing is
    logged. *)
Lemma deviation_within_half_width_not_logged :
  let geo := equatorial_waters 90 50000 0 in
  exists self',
    step pioneer_off_track ten_seconds = inr self'
    /\ corridor_deviation_threshold_m (config self') < cross_track self'
    /\ ~ deviation_logged pioneer_off_track self'.
Proof.
  intros geo.
  destruct (@step geo pioneer_off_track ten_seconds) as [e | self'] eqn:E;
    [vm_compute in E; discriminate |].
  exists self'. split; [reflexivity |].
  vm_compute in E. inversion E; subst self'; clear E.
  split; [vm_compute; reflexivity |].
  intros (e & Hin & _). vm_compute in Hin. exact Hin.
Qed.

(** C3, amended.  After a tick, if the cross-track distance from the new
    position exceeds the deviation threshold and also half the corridor
    width, a CORRIDOR_DEVIATION event of severity CRITICAL is appended to
    the log on that tick and counted; if the distance is within half the
    corridor width, no corridor deviation is logged on that tick, whatever
    the threshold. *)
Theorem deviation_logged_outside_corridor_beyond_threshold `{Geodesy}
    (self self' : SMRVesselSimulator) (inp : StepInput) :
  step self inp = inr self' ->
  (corridor_deviation_threshold_m (config self') < cross_track self' ->
   width_m (corridor self') / 2 < cross_track self' ->
   deviation_logged self self'
   /\ corridor_deviations (stats self')
      = (corridor_deviations (stats self) + 1)%Z)
  /\ (cross_track self' <= width_m (corridor self') / 2 ->
      corridor_deviation_events (logged_between self self') = []
      /\ corridor_deviations (stats self') = corridor_deviations (stats self)).
Proof.
  intros Hstep.
  destruct (step_log self self' inp Hstep) as (_ & _ & evs & Hf & Hl & Hd).
  unfold deviation_logged, logged_between.
  rewrite Hl, skipn_length_app. split.
  - intros Hthr Hwid.
    assert (E : deviation_detected self' = true)
      by (apply deviation_detected_iff; now split).
    rewrite E in *. split; [| exact Hd].
    exists (deviation_event self'). split; [now left | split; reflexivity].
  - intros Hin.
    rewrite (deviation_not_detected_inside self' Hin) in *.
    split; [exact Hf | lia].
Qed.

Lemma deviation_logged_outside_corridor_beyond_threshold_witness :
  (let geo := equatorial_waters 90 50000 (1 # 10) in
   exists self',
     step pioneer_on_track one_hour = inr self'
     /\ deviation_logged pioneer_on_track self'
     /\ corridor_deviations (stats self') = 1%Z)
  /\ (let geo := equatorial_waters 90 50000 0 in
      exists self',
        step pioneer_off_track ten_seconds = inr self'
        /\ corridor_deviation_events (logged_between pioneer_off_track self') = []
        /\ corridor_deviations (stats self') = 0%Z).
Proof.
  split; intros geo.
  - destruct (@step geo pioneer_on_track one_hour) as [e | self'] eqn:E;
      [vm_compute in E; discriminate |].
    exists self'. split; [reflexivity |].
    apply (proj1 (@deviation_logged_outside_corridor_beyond_threshold geo
                    pioneer_on_track self' one_hour E)).
    + vm_compute in E. inversion E. vm_compute. reflexivity.
    + vm_compute in E. inversion E. vm_compute. reflexivity.
  - destruct (@step geo pioneer_off_track ten_seconds) as [e | self'] eqn:E;
      [vm_compute in E; discriminate |].
    exists self'. split; [reflexivity |].
    apply (proj2 (@deviation_logged_outside_corridor_beyond_threshold geo
                    pioneer_off_track self' ten_seconds E)).
    vm_compute in E. inversion E. vm_compute. discriminate.
Defined.

(** The claim of C4 fails: the vessel starts on the centreline, is set
    0.1 degrees (11 km) north on each of two ticks, and so stays beyond the
    threshold from the first tick on; two corridor-deviation events are
    logged, one on each tick. *)
Lemma two_ticks_off_corridor_log_two_events :
  let geo := equatorial_waters 90 50000 (1 # 10) in
  cross_track pioneer_on_track
    <= corridor_deviation_threshold_m (config pioneer_on_track)
  /\ stays_beyond_threshold pioneer_on_track [one_hour; one_hour]
  /\ exists self',
       steps pioneer_on_track [one_hour; one_hour] = inr self'
       /\ List.length
            (corridor_deviation_events (logged_between pioneer_on_track self'))
          = 2%nat.
Proof.
  intros geo. split; [vm_compute; discriminate |].
  split; [vm_compute; repeat split |].
  destruct (@steps geo pioneer_on_track [one_hour; one_hour])
    as [e | self'] eqn:E; [vm_compute in E; discriminate |].
  exists self'. split; [reflexivity |].
  vm_compute in E. inversion E. reflexivity.
Qed.

(** C4, amended.  Over a run of consecutive ticks each of which ends with
    the cross-track distance above the deviation threshold and above half
    the corridor width, one corridor-deviation event is logged on every
    tick: a run of [k] ticks returns and adds exactly [k] such events to
    the log and [k] to the deviation counter. *)
Theorem one_deviation_event_per_tick_off_corridor `{Geodesy}
    (inps : list StepInput) (self : SMRVesselSimulator) :
  stays_off_corridor self inps ->
  exists self',
    steps self inps = inr self'
    /\ List.length (corridor_deviation_events (violation_log self'))
       = (List.length (corridor_deviation_events (violation_log self))
          + List.length inps)%nat
    /\ corridor_deviations (stats self')
       = (corridor_deviations (stats self) + Z.of_nat (List.length inps))%Z.
Proof.
  revert self. induction inps as [| inp rest IH]; intros self Hoff; simpl in *.
  - exists self. split; [reflexivity |]. split; lia.
  - destruct (step self inp) as [e | s1] eqn:Hstep; [contradiction |].
    destruct Hoff as ((Hthr & Hwid) & Hrest).
    destruct (IH s1 Hrest) as (self' & Hrun & Hlen & Hcnt).
    exists self'. split; [exact Hrun |].
    destruct (step_log self s1 inp Hstep) as (_ & _ & evs & Hf & Hl & Hd).
    assert (E : deviation_detected s1 = true)
      by (apply deviation_detected_iff; now split).
    rewrite E in *.
    rewrite Hlen, Hcnt, Hd, Hl.
    unfold corridor_deviation_events in *.
    rewrite !List.filter_app, Hf. simpl. rewrite !length_app. simpl.
    split; lia.
Qed.

Lemma one_deviation_event_per_tick_off_corridor_witness :
  let geo := equatorial_waters 90 50000 (1 # 10) in
  exists self',
    steps pioneer_on_track [one_hour; one_hour] = inr self'
    /\ List.length (corridor_deviation_events (violation_log self'))
       = (0 + 2)%nat
    /\ corridor_deviations (stats self') = (0 + 2)%Z.
Proof.
  intros geo.
  apply (@one_deviation_event_per_tick_off_corridor geo
           [one_hour; one_hour] pioneer_on_track).
  vm_compute. repeat split.
Defined.

End SMRFacts.

(* ===================================================================== *)
(** * The AIS client: ingest, queue and reconnection                      *)
(* ===================================================================== *)

Module AISFacts.

Import Py PyFacts Vessel AIS.
Local Open Scope Z_scope.

(** ** The outcomes of [_handle_position_report] *)

(** The handler ends in one of three ways: the report is filtered and
    only counted; it is filtered for its position after the vessel was
    created in the cache; or it is admitted, the cached vessel is updated
    and its reference enqueued. *)
Lemma handle_position_report_cases (self : AISStreamClient)
    (metadata : MetaData) (message : PositionReport) (now : Now) :
  let self' := _handle_position_report self metadata message now in
  let mmsi := MMSI metadata in
  (self' = set_stats self (incr_messages_filtered (stats self)))
  \/ (exists vessel,
        vessel_cache self !! mmsi = None
        /\ vessel
           = new_vessel mmsi
               (strip (default ("Unknown-" ++ mmsi)%string (ShipName metadata)))
               (is_autonomous_mmsi self mmsi) now
        /\ self'
           = set_stats
               (set_vessel_cache self (<[mmsi := vessel]> (vessel_cache self)))
               (incr_messages_filtered (stats self)))
  \/ (exists vessel lat lon,
        (vessel_cache self !! mmsi = Some vessel
         \/ vessel_cache self !! mmsi = None
            /\ vessel
               = new_vessel mmsi
                   (strip (default ("Unknown-" ++ mmsi)%string
                             (ShipName metadata)))
                   (is_autonomous_mmsi self mmsi) now)
        /\ lat = default (latitude vessel) (Latitude message)
        /\ lon = default (longitude vessel) (Longitude message)
        /\ eqb lat 0 && eqb lon 0 = false
        /\ vessel_cache self'
           = <[mmsi := update_position vessel lat lon message now]>
               (vessel_cache self)
        /\ message_queue self' = enqueue (message_queue self) mmsi
        /\ messages_received (stats self') = messages_received (stats self)
        /\ messages_filtered (stats self') = messages_filtered (stats self)
        /\ parse_errors (stats self') = parse_errors (stats self)
        /\ is_connected self' = is_connected self
        /\ reconnect_attempts self' = reconnect_attempts self
        /\ max_reconnect_attempts self' = max_reconnect_attempts self
        /\ running self' = running self).
Proof.
  unfold _handle_position_report.
  destruct (negb _ && negb _); [now left |].
  destruct (negb _ && (_ <=? _)); [now left |].
  destruct (vessel_cache self !! MMSI metadata) as [vessel |] eqn:Hlook.
  - destruct (eqb _ _ && eqb _ _) eqn:Hnull; [now left |].
    right; right. exists vessel. eexists. eexists.
    split; [now left |]. split; [reflexivity |]. split; [reflexivity |].
    split; [exact Hnull |].
    destruct (message_callback _) as [callback |];
      [destruct (callback _) |]; simpl; repeat split.
  - simpl.
    destruct (eqb _ _ && eqb _ _) eqn:Hnull.
    + right; left. eexists. split; [reflexivity |]. split; reflexivity.
    + right; right. eexists. eexists. eexists.
      split; [right; split; reflexivity |].
      split; [reflexivity |]. split; [reflexivity |].
      split; [exact Hnull |].
      destruct (message_callback _) as [callback |];
        [destruct (callback _) |]; simpl;
        rewrite insert_insert_eq; repeat split.
Qed.

(** A report at null island for a vessel that is already cached leaves
    the cache as it is. *)
Lemma null_island_known_vessel_untouched (self : AISStreamClient)
    (metadata : MetaData) (message : PositionReport) (now : Now) :
  is_Some (vessel_cache self !! MMSI metadata) ->
  Latitude message = Some 0%Q -> Longitude message = Some 0%Q ->
  vessel_cache (_handle_position_report self metadata message now)
  = vessel_cache self.
Proof.
  intros [v Hv] Hlat Hlon.
  destruct (handle_position_report_cases self metadata message now)
    as [-> | [(v' & Hnone & _) | (v' & lat & lon & _ & -> & -> & Hnull & _)]].
  - reflexivity.
  - congruence.
  - rewrite Hlat, Hlon in Hnull. discriminate.
Qed.

(** C1, the failing input.  The first report received for
    HMM Algeciras (an allow-listed identity) is at latitude 0.0 and
    longitude 0.0.  The report is counted as filtered, yet the cache, empty
    before, now holds a record for the vessel, at latitude 0 and
    longitude 0. *)
Theorem null_island_first_report_is_cached :
  let self' :=
    _handle_position_report AISStreamClient_default
      hmm_algeciras null_island_report at_noon in
  vessel_cache AISStreamClient_default !! "440326000"%string = None
  /\ messages_filtered (stats self') = 1
  /\ items (message_queue self') = []
  /\ exists v,
       vessel_cache self' !! "440326000"%string = Some v
       /\ (latitude v == 0)%Q /\ (longitude v == 0)%Q.
Proof.
  vm_compute. repeat split. eexists. repeat split.
Qed.

(** ** Course and speed *)

(** The claim of C2 fails: a report with course 360 and speed -1 is
    admitted, and the cache holds exactly those values. *)
Lemma course_360_is_stored :
  let self' :=
    _handle_position_report AISStreamClient_default
      hmm_algeciras report_cog_360 at_noon in
  exists v,
    vessel_cache self' !! "440326000"%string = Some v
    /\ course v = 360%Q /\ speed v = (-1)%Q
    /\ ~ course_speed_in_range v.
Proof.
  eexists. split; [vm_compute; reflexivity |].
  split; [reflexivity |]. split; [reflexivity |].
  intros (_ & Hc & _). vm_compute in Hc. discriminate.
Qed.

Lemma new_vessel_in_range mmsi name auto now :
  course_speed_in_range (new_vessel mmsi name auto now).
Proof. unfold course_speed_in_range. simpl. lra. Qed.

Lemma update_position_in_range v lat lon msg now :
  course_speed_in_range v -> report_in_range msg ->
  course_speed_in_range (update_position v lat lon msg now).
Proof.
  intros (H1 & H2 & H3) (Hc & Hs). unfold course_speed_in_range. simpl.
  destruct (Cog msg) as [c |]; destruct (Sog msg) as [s |]; simpl;
    try (destruct (Hc c eq_refl)); try (pose proof (Hs s eq_refl));
    repeat split; assumption.
Qed.

Lemma handle_position_report_in_range self metadata message now :
  cache_in_range self -> report_in_range message ->
  cache_in_range (_handle_position_report self metadata message now).
Proof.
  intros Hcache Hmsg. unfold cache_in_range in *.
  destruct (handle_position_report_cases self metadata message now)
    as [-> | [(v & _ & -> & ->)
             | (v & lat & lon & Hv & _ & _ & _ & -> & _)]]; simpl.
  - exact Hcache.
  - apply map_Forall_insert_2; [apply new_vessel_in_range | exact Hcache].
  - apply map_Forall_insert_2; [| exact Hcache].
    apply update_position_in_range; [| exact Hmsg].
    destruct Hv as [Hv | [_ ->]];
      [exact (Hcache _ _ Hv) | apply new_vessel_in_range].
Qed.

Lemma handle_static_data_in_range self metadata message now :
  cache_in_range self ->
  cache_in_range (_handle_static_data self metadata message now).
Proof.
  intros Hcache. unfold cache_in_range, _handle_static_data in *.
  destruct (negb _ && negb _); [exact Hcache |].
  destruct (negb _ && (_ <=? _)); [exact Hcache |].
  simpl. apply map_Forall_insert_2; [| exact Hcache].
  destruct (vessel_cache self !! MMSI metadata) as [v |] eqn:Hv.
  - exact (Hcache _ _ Hv).
  - apply new_vessel_in_range.
Qed.

Lemma receive_in_range self fr :
  cache_in_range self -> frame_in_range fr -> cache_in_range (receive self fr).
Proof.
  intros Hcache Hfr. destruct fr as [frame now].
  unfold receive, _process_message, frame_in_range in *. simpl in *.
  destruct frame; simpl; try exact Hcache.
  - now apply handle_position_report_in_range.
  - now apply handle_static_data_in_range.
Qed.

(** C2, amended.  The client stores [Cog] and [Sog] as they are received,
    without normalisation or clamping.  So after any sequence of frames,
    every cached record has its course in [0, 360) and its speed >= 0
    provided every position report of the sequence carries such values. *)
Theorem cached_course_speed_as_reported :
  (forall self metadata message now c s,
      admitted self metadata message now ->
      Cog message = Some c -> Sog message = Some s ->
      exists v,
        vessel_cache (_handle_position_report self metadata message now)
          !! MMSI metadata = Some v
        /\ course v = c /\ speed v = s)
  /\ (forall self frames,
        cache_in_range self -> Forall frame_in_range frames ->
        cache_in_range (receive_all self frames)).
Proof.
  split.
  - intros self metadata message now c s Hadm Hc Hs. unfold admitted in Hadm.
    destruct (handle_position_report_cases self metadata message now)
      as [E | [(v & _ & _ & E)
              | (v & lat & lon & _ & _ & _ & _ & E & _)]].
    + rewrite E in Hadm. simpl in Hadm. lia.
    + rewrite E in Hadm. simpl in Hadm. lia.
    + rewrite E, lookup_insert_eq. eexists. split; [reflexivity |].
      simpl. now rewrite Hc, Hs.
  - intros self frames. revert self.
    induction frames as [| fr frames IH]; intros self Hcache Hall; simpl.
    + exact Hcache.
    + inversion Hall as [| ? ? Hfr Hrest]; subst.
      apply IH; [now apply receive_in_range | exact Hrest].
Qed.

Lemma cached_course_speed_as_reported_witness :
  (exists v,
      vessel_cache
        (_handle_position_report AISStreamClient_default
           hmm_algeciras good_report at_noon)
        !! "440326000"%string = Some v
      /\ course v = 88%Q /\ speed v = (152 # 10)%Q)
  /\ cache_in_range
       (receive_all AISStreamClient_default
          [ (PositionReportFrame hmm_algeciras good_report, at_noon) ]).
Proof.
  split.
  - apply (proj1 cached_course_speed_as_reported AISStreamClient_default
             hmm_algeciras good_report at_noon);
      [vm_compute; reflexivity | reflexivity | reflexivity].
  - apply (proj2 cached_course_speed_as_reported).
    + unfold cache_in_range. simpl. apply map_Forall_empty.
    + constructor; [| constructor].
      unfold frame_in_range, report_in_range. simpl.
      split; intros x Hx; inversion Hx; subst; lra.
Defined.

(** ** The bounded queue *)

Lemma enqueue_bound (q : Queue) (ref : string) :
  0 < maxsize q -> qsize q <= maxsize q ->
  maxsize (enqueue q ref) = maxsize q /\ qsize (enqueue q ref) <= maxsize q.
Proof.
  intros Hpos Hle. unfold enqueue, full, put, get, qsize in *.
  destruct (0 <? maxsize q) eqn:E0; [| apply Z.ltb_ge in E0; lia].
  destruct (Z.leb_spec (maxsize q) (Z.of_nat (List.length (items q))))
    as [Hfull | Hroom]; simpl; rewrite length_app; simpl.
  - split; [reflexivity |].
    destruct (items q) as [| x l]; simpl in *; lia.
  - split; [reflexivity | lia].
Qed.

Lemma enqueue_full (q : Queue) (ref : string) :
  full q = true ->
  items (enqueue q ref) = tail (items q) ++ [ref]
  /\ qsize (enqueue q ref) = qsize q
  /\ maxsize (enqueue q ref) = maxsize q.
Proof.
  intros Hfull. unfold enqueue. rewrite Hfull. simpl.
  split; [reflexivity |]. split; [| reflexivity].
  unfold full, qsize in *. simpl. rewrite length_app. simpl.
  apply andb_true_iff in Hfull as [H0 H1].
  apply Z.ltb_lt in H0. apply Z.leb_le in H1.
  destruct (items q) as [| x l]; simpl in *; lia.
Qed.

Lemma handle_position_report_queue self metadata message now :
  message_queue (_handle_position_report self metadata message now)
  = message_queue self
  \/ message_queue (_handle_position_report self metadata message now)
     = enqueue (message_queue self) (MMSI metadata).
Proof.
  destruct (handle_position_report_cases self metadata message now)
    as [-> | [(v & _ & _ & ->)
             | (v & lat & lon & _ & _ & _ & _ & _ & -> & _)]];
    [left | left | right]; reflexivity.
Qed.

Lemma handle_static_data_frame self metadata message now :
  let self' := _handle_static_data self metadata message now in
  message_queue self' = message_queue self
  /\ is_connected self' = is_connected self
  /\ reconnect_attempts self' = reconnect_attempts self
  /\ max_reconnect_attempts self' = max_reconnect_attempts self
  /\ running self' = running self.
Proof.
  unfold _handle_static_data.
  destruct (negb _ && negb _); [repeat split |].
  destruct (negb _ && (_ <=? _)); repeat split.
Qed.

Lemma receive_queue_bound self fr :
  0 < maxsize (message_queue self) ->
  qsize (message_queue self) <= maxsize (message_queue self) ->
  maxsize (message_queue (receive self fr)) = maxsize (message_queue self)
  /\ qsize (message_queue (receive self fr)) <= maxsize (message_queue self).
Proof.
  intros Hpos Hle. destruct fr as [frame now].
  unfold receive, _process_message. simpl.
  destruct frame; simpl; try (split; [reflexivity | exact Hle]).
  - match goal with
    | |- context [_handle_position_report ?c ?m ?r ?n] =>
        destruct (handle_position_report_queue c m r n) as [-> | ->]
    end; simpl; [split; [reflexivity | exact Hle] |].
    now apply enqueue_bound.
  - match goal with
    | |- context [_handle_static_data ?c ?m ?r ?n] =>
        destruct (handle_static_data_frame c m r n) as (-> & _)
    end. simpl. split; [reflexivity | exact Hle].
Qed.

(** The claim of C6 fails in its last part: the queue of one entry is
    full, the next admitted report pushes the oldest entry out, and no
    count of [get_statistics] has changed. *)
Lemma overflow_loss_is_not_counted :
  let before := client_with_full_queue in
  let after := _handle_position_report before hmm_algeciras good_report at_noon in
  full (message_queue before) = true
  /\ admitted before hmm_algeciras good_report at_noon
  /\ items (message_queue before) = ["257646000"%string]
  /\ items (message_queue after) = ["440326000"%string]
  /\ ~ some_count_changed (get_statistics before) (get_statistics after).
Proof.
  split; [vm_compute; reflexivity |].
  split; [vm_compute; reflexivity |].
  split; [vm_compute; reflexivity |].
  split; [vm_compute; reflexivity |].
  unfold some_count_changed. vm_compute.
  intros [H | [H | [H | [H | [H | H]]]]]; now apply H.
Qed.

(** C6, amended.  When an admitted report is enqueued on a full queue the
    oldest entry is discarded and the new one enqueued at the tail, and the
    size of the queue stays the same; the loss is not counted:
    [messages_received], [messages_filtered] and [parse_errors] are as
    before.  Whatever frames arrive, the size of a queue of positive
    capacity never exceeds the capacity. *)
Theorem overflow_drops_head_without_counting :
  (forall self metadata message now,
      admitted self metadata message now ->
      full (message_queue self) = true ->
      let self' := _handle_position_report self metadata message now in
      items (message_queue self')
        = tail (items (message_queue self)) ++ [MMSI metadata]
      /\ qsize (message_queue self') = qsize (message_queue self)
      /\ maxsize (message_queue self') = maxsize (message_queue self)
      /\ messages_received (stats self') = messages_received (stats self)
      /\ messages_filtered (stats self') = messages_filtered (stats self)
      /\ parse_errors (stats self') = parse_errors (stats self))
  /\ (forall frames self,
        0 < maxsize (message_queue self) ->
        qsize (message_queue self) <= maxsize (message_queue self) ->
        qsize (message_queue (receive_all self frames))
          <= maxsize (message_queue self)).
Proof.
  split.
  - intros self metadata message now Hadm Hfull. unfold admitted in Hadm.
    destruct (handle_position_report_cases self metadata message now)
      as [E | [(v & _ & _ & E)
              | (v & lat & lon & _ & _ & _ & _ & _ & Hq & Hr & Hf & Hp & _)]].
    + rewrite E in Hadm. simpl in Hadm. lia.
    + rewrite E in Hadm. simpl in Hadm. lia.
    + simpl. rewrite Hq, Hr, Hf, Hp.
      destruct (enqueue_full (message_queue self) (MMSI metadata) Hfull)
        as (-> & -> & ->).
      repeat split.
  - induction frames as [| fr frames IH]; intros self Hpos Hle; simpl.
    + exact Hle.
    + destruct (receive_queue_bound self fr Hpos Hle) as [Hm Hq].
      rewrite <- Hm. apply IH; rewrite Hm; assumption.
Qed.

Lemma overflow_drops_head_without_counting_witness :
  let self' :=
    _handle_position_report client_with_full_queue
      hmm_algeciras good_report at_noon in
  (items (message_queue self')
     = tail (items (message_queue client_with_full_queue)) ++ ["440326000"%string]
   /\ qsize (message_queue self') = qsize (message_queue client_with_full_queue)
   /\ maxsize (message_queue self') = maxsize (message_queue client_with_full_queue)
   /\ messages_received (stats self')
      = messages_received (stats client_with_full_queue)
   /\ messages_filtered (stats self')
      = messages_filtered (stats client_with_full_queue)
   /\ parse_errors (stats self') = parse_errors (stats client_with_full_queue))
  /\ qsize (message_queue
              (receive_all client_with_full_queue
                 [ (PositionReportFrame hmm_algeciras good_report, at_noon) ]))
     <= 1.
Proof.
  split.
  - apply (proj1 overflow_drops_head_without_counting client_with_full_queue
             hmm_algeciras good_report at_noon);
      vm_compute; reflexivity.
  - apply (proj2 overflow_drops_head_without_counting
             [ (PositionReportFrame hmm_algeciras good_report, at_noon) ]
             client_with_full_queue).
    + vm_compute. reflexivity.
    + vm_compute. discriminate.
Defined.

(** ** Reconnection *)

(** Handling frames leaves the connection state alone. *)
Lemma handle_position_report_connection self metadata message now :
  let self' := _handle_position_report self metadata message now in
  is_connected self' = is_connected self
  /\ reconnect_attempts self' = reconnect_attempts self
  /\ max_reconnect_attempts self' = max_reconnect_attempts self
  /\ running self' = running self.
Proof.
  destruct (handle_position_report_cases self metadata message now)
    as [-> | [(v & _ & _ & ->)
             | (v & lat & lon & _ & _ & _ & _ & _ & _ & _ & _ & _ & H)]];
    simpl; [repeat split | repeat split | exact H].
Qed.

Lemma receive_connection self fr :
  is_connected (receive self fr) = is_connected self
  /\ reconnect_attempts (receive self fr) = reconnect_attempts self
  /\ max_reconnect_attempts (receive self fr) = max_reconnect_attempts self
  /\ running (receive self fr) = running self.
Proof.
  destruct fr as [frame now]. unfold receive, _process_message. simpl.
  destruct frame; simpl; try (repeat split; fail).
  - match goal with
    | |- context [_handle_position_report ?c ?m ?r ?n] =>
        apply (handle_position_report_connection c m r n)
    end.
  - match goal with
    | |- context [_handle_static_data ?c ?m ?r ?n] =>
        destruct (handle_static_data_frame c m r n) as (_ & H)
    end. exact H.
Qed.

Lemma receive_all_connection frames self :
  is_connected (receive_all self frames) = is_connected self
  /\ reconnect_attempts (receive_all self frames) = reconnect_attempts self
  /\ max_reconnect_attempts (receive_all self frames)
     = max_reconnect_attempts self
  /\ running (receive_all self frames) = running self.
Proof.
  revert self. induction frames as [| fr frames IH]; intros self; simpl.
  - repeat split.
  - destruct (IH (receive self fr)) as (H1 & H2 & H3 & H4).
    destruct (receive_connection self fr) as (G1 & G2 & G3 & G4).
    unfold receive_all in *. rewrite H1, H2, H3, H4. repeat split; assumption.
Qed.

(** A connection that is established resets the attempt counter. *)
Lemma connect_established self frames ending :
  reconnect_attempts (connect self (Established frames ending)) = 0
  /\ max_reconnect_attempts (connect self (Established frames ending))
     = max_reconnect_attempts self
  /\ running (connect self (Established frames ending)) = running self.
Proof.
  unfold connect.
  destruct frames as [| fr frames].
  - destruct ending; repeat split.
  - destruct (negb _); [repeat split |].
    match goal with
    | |- context [receive_all ?c ?l] =>
        destruct (receive_all_connection l c) as (H1 & H2 & H3 & H4);
        set (s1 := receive_all c l) in *
    end.
    simpl in H2, H3, H4.
    destruct ending; simpl; rewrite ?H2, ?H3, ?H4; repeat split.
Qed.

(** A refused connection keeps the counter and leaves the client
    disconnected. *)
Lemma connect_refused self :
  connect self Refused = set_connection self false (reconnect_attempts self).
Proof. reflexivity. Qed.

(** Refusals in a row use up the attempt budget: the loop sleeps before
    each attempt and then stops the client. *)
Lemma refused_until_budget (k : nat) (self : AISStreamClient) :
  running self = true ->
  max_reconnect_attempts self - reconnect_attempts self = Z.of_nat k ->
  exists self',
    reconnect_with_backoff self (repeat Refused k)
    = Some (self',
            map backoff_time (attempt_numbers (reconnect_attempts self + 1) k))
    /\ running self' = false
    /\ reconnect_attempts self' = max_reconnect_attempts self.
Proof.
  revert self. induction k as [| k IH]; intros self Hrun Hk.
  - simpl. rewrite Hrun.
    destruct (Z.ltb_spec (reconnect_attempts self) (max_reconnect_attempts self));
      [lia |].
    simpl. eexists. split; [reflexivity |]. split; [reflexivity |]. simpl. lia.
  - cbn [repeat reconnect_with_backoff]. rewrite Hrun.
    destruct (Z.ltb_spec (reconnect_attempts self) (max_reconnect_attempts self));
      [| lia].
    cbn [andb attempt connect]. cbn [is_connected set_connection].
    destruct (IH (set_connection
                    (set_connection self (is_connected self)
                       (reconnect_attempts self + 1))
                    false (reconnect_attempts self + 1)))
      as (self' & Hrec & Hr & Ha).
    + exact Hrun.
    + simpl. lia.
    + simpl in Hrec, Ha.
      change (reconnect_attempts
                (set_connection self (is_connected self)
                   (reconnect_attempts self + 1)))
        with (reconnect_attempts self + 1).
      rewrite Hrec.
      exists self'. split; [reflexivity |]. split; [exact Hr | exact Ha].
Qed.



End AISFacts.

(* ===================================================================== *)
(** * The channel simulator: further properties                           *)
(* ===================================================================== *)

Module ChannelMore.

Import Py PyFacts Channel ChannelFacts.
Local Open Scope Q_scope.

Lemma min_le_r (a b : Q) : min a b <= b.
Proof.
  unfold min. destruct (ltb b a) eqn:E.
  - apply Qle_refl.
  - now apply ltb_ge in E.
Qed.

Lemma max_0_nonneg (x : Q) : 0 <= max 0 x.
Proof.
  unfold max. destruct (gtb x 0) eqn:E.
  - apply gtb_gt in E. now apply Qlt_le_weak.
  - apply Qle_refl.
Qed.

(** What the Gilbert-Elliott step leaves in the model. *)
Lemma ge_step_probabilities (g : GilbertElliotModel) (u1 u2 : Q) :
  p_loss_good (fst (ge_step g u1 u2)) = p_loss_good g
  /\ p_loss_bad (fst (ge_step g u1 u2)) = p_loss_bad g
  /\ p_gb (fst (ge_step g u1 u2)) = p_gb g
  /\ p_bg (fst (ge_step g u1 u2)) = p_bg g.
Proof.
  unfold ge_step. destruct g as [plg plb pgb pbg st]. simpl.
  destruct st; destruct (ltb u1 _); simpl; repeat split.
Qed.

(** A loss decided by the step: the draw was below the loss probability of
    the state the step ended in. *)
Lemma ge_step_loss (g : GilbertElliotModel) (u1 u2 : Q) :
  snd (ge_step g u1 u2) = true ->
  match current_state (fst (ge_step g u1 u2)) with
  | GOOD => u2 < p_loss_good g
  | BAD => u2 < p_loss_bad g
  end.
Proof.
  unfold ge_step. destruct g as [plg plb pgb pbg st]. simpl.
  destruct st; destruct (ltb u1 _); simpl; intros H; now apply ltb_lt in H.
Qed.

Lemma transmit_frame (s : ScenarioController) (rnd : Draws) :
  let s' := fst (transmit s rnd) in
  config s' = config s
  /\ in_blackout s' = in_blackout s
  /\ blackout_start_time s' = blackout_start_time s
  /\ blackout_end_time s' = blackout_end_time s
  /\ simulation_time s' = simulation_time s
  /\ blackout_events (stats s') = blackout_events (stats s)
  /\ total_blackout_duration_sec (stats s')
     = total_blackout_duration_sec (stats s)
  /\ p_loss_good (ge_model s') = p_loss_good (ge_model s)
  /\ p_loss_bad (ge_model s') = p_loss_bad (ge_model s)
  /\ p_gb (ge_model s') = p_gb (ge_model s)
  /\ p_bg (ge_model s') = p_bg (ge_model s).
Proof.
  unfold transmit.
  match goal with
  | |- context [ge_step ?g ?a ?b] =>
      pose proof (ge_step_probabilities g a b) as (_ & _ & H3 & H4);
      destruct (ge_step g a b) as [g' lost]
  end.
  simpl in H3, H4.
  destruct lost; simpl; rewrite ?H3, ?H4; repeat split.
Qed.

Lemma transmit_returns (s : ScenarioController) (rnd : Draws) :
  exists r, snd (transmit s rnd) = Returned r /\ r <> BLACKOUT.
Proof.
  unfold transmit. destruct (ge_step _ _ _) as [g lost].
  destruct lost; simpl; eexists; split; try reflexivity; discriminate.
Qed.

Lemma transmit_delay (s : ScenarioController) (rnd : Draws) :
  0 <= total_delay_ms (stats s) ->
  0 <= total_delay_ms (stats (fst (transmit s rnd)))
  /\ forall l cs a b,
       snd (transmit s rnd) = Returned (SUCCESS l cs a b) -> 0 <= l.
Proof.
  intros H0. unfold transmit. destruct (ge_step _ _ _) as [g lost].
  destruct lost; simpl.
  - split; [exact H0 |]. intros l cs a b H. discriminate.
  - split.
    + match goal with
      | |- context [max 0 ?x] =>
          pose proof (max_0_nonneg x) as Hm; set (m := max 0 x) in *
      end.
      lra.
    + intros l cs a b H. inversion H. apply max_0_nonneg.
Qed.

Lemma process_transmission_begin (s : ScenarioController)
    (t : option datetime) (rnd : Draws) :
  process_transmission s t rnd
  = let self := begin_call s t in
    if in_blackout self then
      match blackout_end_time self with
      | None => (self, Raised TypeError)
      | Some end_time =>
          if (end_time <=? simulation_time self)%Z then
            match blackout_start_time self with
            | None => (self, Raised TypeError)
            | Some start_time =>
                transmit
                  (set_blackout
                     (set_stats self
                        (add_blackout_duration (stats self)
                           (total_seconds (end_time - start_time))))
                     false None None)
                  rnd
            end
          else
            (set_stats self (incr_lost_packets (stats self)), Returned BLACKOUT)
      end
    else transmit self rnd.
Proof. reflexivity. Qed.

Lemma begin_call_frame (s : ScenarioController) (t : option datetime) :
  config (begin_call s t) = config s
  /\ ge_model (begin_call s t) = ge_model s
  /\ simulation_time (begin_call s t) = call_time s t
  /\ total_packets (stats (begin_call s t)) = (total_packets (stats s) + 1)%Z
  /\ lost_packets (stats (begin_call s t)) = lost_packets (stats s)
  /\ total_delay_ms (stats (begin_call s t)) = total_delay_ms (stats s)
  /\ total_blackout_duration_sec (stats (begin_call s t))
     = total_blackout_duration_sec (stats s).
Proof.
  unfold begin_call, call_time.
  destruct t; simpl; destruct (force_blackout (config s));
    try destruct (in_blackout s); simpl; repeat split.
Qed.

(** The blackout fields after the opening: a window starts when a blackout
    is forced and none is on; otherwise nothing changes. *)
Lemma begin_call_blackout (s : ScenarioController) (t : option datetime) :
  (force_blackout (config s) = true /\ in_blackout s = false
   /\ in_blackout (begin_call s t) = true
   /\ blackout_start_time (begin_call s t) = Some (call_time s t)
   /\ blackout_end_time (begin_call s t)
      = Some (call_time s t
              + timedelta_seconds (blackout_duration_sec (config s)))%Z
   /\ blackout_events (stats (begin_call s t))
      = (blackout_events (stats s) + 1)%Z)
  \/ ((force_blackout (config s) = false \/ in_blackout s = true)
      /\ in_blackout (begin_call s t) = in_blackout s
      /\ blackout_start_time (begin_call s t) = blackout_start_time s
      /\ blackout_end_time (begin_call s t) = blackout_end_time s
      /\ blackout_events (stats (begin_call s t)) = blackout_events (stats s)).
Proof.
  unfold begin_call, call_time.
  destruct t; simpl; destruct (force_blackout (config s)) eqn:Ef;
    try destruct (in_blackout s) eqn:Eb; simpl;
    first [ solve [left; repeat split; auto]
          | solve [right; split; [auto | repeat split; auto]] ].
Qed.

Lemma begin_call_window_set (s : ScenarioController) (t : option datetime) :
  blackout_window_set s -> blackout_window_set (begin_call s t).
Proof.
  intros Hinv.
  destruct (begin_call_blackout s t)
    as [(_ & _ & _ & Hs & He & _) | (_ & Hb & Hs & He & _)];
    unfold blackout_window_set; rewrite ?Hb, Hs, He; [eauto | exact Hinv].
Qed.

Lemma process_transmission_window_set s t rnd :
  blackout_window_set s ->
  blackout_window_set (fst (process_transmission s t rnd))
  /\ exists r, snd (process_transmission s t rnd) = Returned r.
Proof.
  intros Hinv. apply (begin_call_window_set s t) in Hinv.
  rewrite process_transmission_begin. cbv zeta.
  set (b := begin_call s t) in *. unfold blackout_window_set in Hinv.
  destruct (in_blackout b) eqn:Eb.
  - destruct (Hinv eq_refl) as [[st Hst] [en Hen]]. rewrite Hen, Hst.
    destruct (en <=? simulation_time b)%Z.
    + match goal with
      | |- context [transmit ?a ?r] =>
          destruct (transmit_frame a r) as (_ & H1 & H2 & H3 & _);
          destruct (transmit_returns a r) as (res & Hres & _)
      end.
      split; [| eauto].
      unfold blackout_window_set. rewrite H1. simpl. discriminate.
    + split; [| eauto]. unfold blackout_window_set. simpl.
      rewrite Hst, Hen. eauto.
  - destruct (transmit_frame b rnd) as (_ & H1 & H2 & H3 & _).
    destruct (transmit_returns b rnd) as (res & Hres & _).
    split; [| eauto].
    unfold blackout_window_set. rewrite H1, Eb. discriminate.
Qed.

Lemma reachable_window_set s : reachable s -> blackout_window_set s.
Proof.
  induction 1 as [cfg now | s t rnd _ IH | s _ IH].
  - unfold blackout_window_set. simpl. discriminate.
  - now apply process_transmission_window_set.
  - exact IH.
Qed.



Lemma process_transmission_probabilities s t rnd :
  let s' := fst (process_transmission s t rnd) in
  config s' = config s
  /\ p_loss_good (ge_model s') = p_loss_good (ge_model s)
  /\ p_loss_bad (ge_model s') = p_loss_bad (ge_model s)
  /\ p_gb (ge_model s') = p_gb (ge_model s)
  /\ p_bg (ge_model s') = p_bg (ge_model s).
Proof.
  rewrite process_transmission_begin. cbv zeta.
  destruct (begin_call_frame s t) as (Hc & Hg & _).
  set (b := begin_call s t) in *.
  destruct (in_blackout b).
  - destruct (blackout_end_time b) as [en |]; [| simpl; rewrite Hc, Hg; repeat split].
    destruct (en <=? simulation_time b)%Z;
      [| simpl; rewrite Hc, Hg; repeat split].
    destruct (blackout_start_time b) as [st |];
      [| simpl; rewrite Hc, Hg; repeat split].
    match goal with
    | |- context [transmit ?a ?r] =>
        destruct (transmit_frame a r)
          as (H0 & _ & _ & _ & _ & _ & _ & H1 & H2 & H3 & H4)
    end.
    simpl in H0, H1, H2, H3, H4. rewrite H0, H1, H2, H3, H4, Hc, Hg.
    repeat split.
  - destruct (transmit_frame b rnd)
      as (H0 & _ & _ & _ & _ & _ & _ & H1 & H2 & H3 & H4).
    rewrite H0, H1, H2, H3, H4, Hc, Hg. repeat split.
Qed.

(** X2.  The degraded loss probabilities are used for one step only: a
    call of [process_transmission] leaves the four probabilities of the
    Gilbert-Elliott model as they were, and in every reachable state they
    are those of the communication profile. *)
Theorem loss_probabilities_restored :
  (forall s t rnd,
      p_loss_good (ge_model (fst (process_transmission s t rnd)))
        = p_loss_good (ge_model s)
      /\ p_loss_bad (ge_model (fst (process_transmission s t rnd)))
        = p_loss_bad (ge_model s)
      /\ p_gb (ge_model (fst (process_transmission s t rnd))) = p_gb (ge_model s)
      /\ p_bg (ge_model (fst (process_transmission s t rnd))) = p_bg (ge_model s))
  /\ (forall s, reachable s -> probabilities_of_profile s).
Proof.
  split.
  - intros s t rnd.
    destruct (process_transmission_probabilities s t rnd) as (_ & H).
    exact H.
  - intros s Hr. unfold probabilities_of_profile.
    induction Hr as [cfg now | s t rnd _ IH | s _ IH].
    + simpl. repeat split.
    + destruct (process_transmission_probabilities s t rnd)
        as (-> & -> & -> & -> & ->).
      exact IH.
    + exact IH.
Qed.

Lemma loss_probabilities_restored_witness :
  probabilities_of_profile after_three.
Proof.
  apply (proj2 loss_probabilities_restored after_three).
  unfold after_three. apply run_reachable. apply reach_init.
Defined.

Lemma transmit_loss_capped (s : ScenarioController) (rnd : Draws) cs :
  snd (transmit s rnd) = Returned (PACKET_LOSS cs) ->
  u_loss rnd < 9 # 10 /\ (cs = GOOD -> u_loss rnd < 1 # 2).
Proof.
  unfold transmit.
  match goal with
  | |- context [ge_step ?g ?a ?b] =>
      pose proof (ge_step_loss g a b) as Hl;
      destruct (ge_step g a b) as [g' lost]
  end.
  simpl in Hl. destruct lost; simpl; intros H; inversion H; subst cs.
  specialize (Hl eq_refl). clear H.
  match type of Hl with
  | context [min ?x (1 # 2)] => pose proof (min_le_r x (1 # 2)) as Hg
  end.
  match type of Hl with
  | context [min ?x (9 # 10)] => pose proof (min_le_r x (9 # 10)) as Hb
  end.
  destruct (current_state g'); split.
  - apply Qlt_le_trans with (1 # 2); [eapply Qlt_le_trans; eassumption | discriminate].
  - intros _. eapply Qlt_le_trans; eassumption.
  - eapply Qlt_le_trans; eassumption.
  - discriminate.
Qed.

(** X3.  The loss probability is capped whatever the degradation level:
    a packet is lost to the channel only on a draw below 0.9, and below 0.5
    when the channel ends the step in the GOOD state. *)
Theorem channel_loss_is_capped (s s' : ScenarioController)
    (t : option datetime) (rnd : Draws) (cs : GEState) :
  process_transmission s t rnd = (s', Returned (PACKET_LOSS cs)) ->
  u_loss rnd < 9 # 10 /\ (cs = GOOD -> u_loss rnd < 1 # 2).
Proof.
  rewrite process_transmission_begin. cbv zeta.
  set (b := begin_call s t).
  intros H.
  destruct (in_blackout b).
  - destruct (blackout_end_time b) as [en |]; [| discriminate].
    destruct (en <=? simulation_time b)%Z; [| discriminate].
    destruct (blackout_start_time b) as [st |]; [| discriminate].
    eapply transmit_loss_capped. rewrite H. reflexivity.
  - eapply transmit_loss_capped. rewrite H. reflexivity.
Qed.

Lemma channel_loss_is_capped_witness :
  u_loss lossy_draws < 9 # 10 /\ (BAD = GOOD -> u_loss lossy_draws < 1 # 2).
Proof.
  apply (channel_loss_is_capped
           (ScenarioController_init (scenario_defaults "Normal Conditions" get_vsat) 0%Z)
           (fst (process_transmission
                   (ScenarioController_init
                      (scenario_defaults "Normal Conditions" get_vsat) 0%Z)
                   None lossy_draws))
           None lossy_draws BAD).
  reflexivity.
Defined.

Lemma process_transmission_delay s t rnd :
  0 <= total_delay_ms (stats s) ->
  0 <= total_delay_ms (stats (fst (process_transmission s t rnd)))
  /\ forall l cs a b,
       snd (process_transmission s t rnd) = Returned (SUCCESS l cs a b) ->
       0 <= l.
Proof.
  intros H0. rewrite process_transmission_begin. cbv zeta.
  destruct (begin_call_frame s t) as (_ & _ & _ & _ & _ & Hd & _).
  rewrite <- Hd in H0.
  set (b := begin_call s t) in *.
  destruct (in_blackout b).
  - destruct (blackout_end_time b) as [en |];
      [| simpl; split; [exact H0 | discriminate]].
    destruct (en <=? simulation_time b)%Z;
      [| simpl; split; [exact H0 | discriminate]].
    destruct (blackout_start_time b) as [st |];
      [| simpl; split; [exact H0 | discriminate]].
    apply transmit_delay. simpl. exact H0.
  - now apply transmit_delay.
Qed.

Lemma reachable_delay_nonneg s : reachable s -> 0 <= total_delay_ms (stats s).
Proof.
  induction 1 as [cfg now | s t rnd _ IH | s _ IH].
  - simpl. apply Qle_refl.
  - now apply process_transmission_delay.
  - simpl. apply Qle_refl.
Qed.

(** X4.  Latencies are never negative: the latency of a delivered packet
    is at least 0, and in every reachable state the cumulative delay is at
    least 0 and [calculate_average_latency] returns a value that is at
    least 0. *)
Theorem latency_is_never_negative :
  (forall s t rnd s' l cs a b,
      process_transmission s t rnd = (s', Returned (SUCCESS l cs a b)) ->
      0 <= l)
  /\ (forall s,
        reachable s ->
        0 <= total_delay_ms (stats s)
        /\ exists avg, calculate_average_latency s = inr avg /\ 0 <= avg).
Proof.
  split.
  - intros s t rnd s' l cs a b H.
    destruct (Qlt_le_dec (total_delay_ms (stats s)) 0) as [Hneg | Hpos].
    + (* the bound on [l] does not depend on the accumulated delay *)
      revert H. rewrite process_transmission_begin. cbv zeta.
      set (bc := begin_call s t).
      assert (Ht : forall x, transmit x rnd = (s', Returned (SUCCESS l cs a b)) ->
                             0 <= l).
      { intros x Hx. unfold transmit in Hx.
        destruct (ge_step _ _ _) as [g lost]. destruct lost; inversion Hx.
        apply max_0_nonneg. }
      destruct (in_blackout bc); [| apply Ht].
      destruct (blackout_end_time bc) as [en |]; [| discriminate].
      destruct (en <=? simulation_time bc)%Z; [| discriminate].
      destruct (blackout_start_time bc) as [st |]; [| discriminate].
      apply Ht.
    + destruct (process_transmission_delay s t rnd Hpos) as (_ & Hl).
      apply (Hl l cs a b). now rewrite H.
  - intros s Hr.
    pose proof (reachable_delay_nonneg s Hr) as Hd.
    pose proof (reachable_counters_ok s Hr) as Hc. unfold counters_ok in Hc.
    split; [exact Hd |].
    unfold calculate_average_latency, truediv.
    set (n := (total_packets (stats s) - lost_packets (stats s))%Z).
    destruct (Z.eqb_spec n 0) as [E | E].
    + exists 0. split; [reflexivity | apply Qle_refl].
    + destruct (eqb (inject_Z n) 0) eqn:Eq.
      * apply eqb_eq in Eq. now apply inject_Z_nonzero in Eq.
      * eexists. split; [reflexivity |].
        apply Qle_shift_div_l.
        -- change 0 with (inject_Z 0). rewrite <- Zlt_Qlt. subst n. lia.
        -- now rewrite Qmult_0_l.
Qed.

Lemma latency_is_never_negative_witness :
  0 <= total_delay_ms (stats after_three)
  /\ exists avg, calculate_average_latency after_three = inr avg /\ 0 <= avg.
Proof.
  apply (proj2 latency_is_never_negative after_three).
  unfold after_three. apply run_reachable. apply reach_init.
Defined.





(** X7.  [total_packets] counts the calls: after any scripted run of
    [process_transmission] calls it has grown by the number of calls, and
    [lost_packets] has grown by at most that number and never decreased. *)
Theorem total_packets_counts_calls (calls : list (option datetime * Draws))
    (s : ScenarioController) :
  total_packets (stats (run s calls))
    = (total_packets (stats s) + Z.of_nat (List.length calls))%Z
  /\ (lost_packets (stats s) <= lost_packets (stats (run s calls))
      <= lost_packets (stats s) + Z.of_nat (List.length calls))%Z.
Proof.
  revert s. induction calls as [| [t rnd] rest IH]; intros s.
  - simpl. lia.
  - cbn [run List.length].
    destruct (IH (fst (process_transmission s t rnd))) as [Ht Hl].
    pose proof (process_transmission_counters s t rnd) as [Ht1 Hl1].
    rewrite Ht, Ht1. split; lia.
Qed.

End ChannelMore.

(* ===================================================================== *)
(** * The waypoint-route simulator: further properties                    *)
(* ===================================================================== *)

Module AmmoniaMore.

Import Py PyFacts Vessel Geo Ammonia AmmoniaFacts.
Local Open Scope Q_scope.

Lemma update_blackout_frame (self s1 : AmmoniaVesselSimulator) (inp : StepInput) :
  update_blackout self inp = inr s1 ->
  config s1 = config self
  /\ update_interval s1 = update_interval self
  /\ current_waypoint_idx s1 = current_waypoint_idx self
  /\ vessel_state s1 = vessel_state self
  /\ simulation_time s1 = simulation_time self.
Proof.
  unfold update_blackout. intros Hb.
  repeat match type of Hb with
         | context [match ?x with _ => _ end] => destruct x
         end; inversion Hb; repeat split.
Qed.

(** Everything a tick that returns leaves behind, but for the blackout
    fields. *)
Lemma step_result `{Geodesy} (self self' : AmmoniaVesselSimulator)
    (inp : StepInput) :
  step self inp = inr self' ->
  exists wp s1,
    update_blackout
      (set_simulation_time self (time_after self inp)) inp = inr s1
    /\ in_blackout self' = in_blackout s1
    /\ blackout_start_time self' = blackout_start_time s1
    /\ blackout_duration_sec self' = blackout_duration_sec s1
    /\ nth_error (waypoints (route (config self))) (target_index self) = Some wp
    /\ config self' = config self
    /\ update_interval self' = update_interval self
    /\ simulation_time self' = time_after self inp
    /\ timestamp (vessel_state self') = time_after self inp
    /\ speed (vessel_state self')
       = limit_speed (speed (vessel_state self))
           (target_speed_for (config self) wp
              (calculate_distance_haversine
                 (latitude (vessel_state self)) (longitude (vessel_state self))
                 (wp_latitude wp) (wp_longitude wp)))
           (tick_duration self inp)
    /\ course (vessel_state self')
       = limit_course (course (vessel_state self))
           (calculate_bearing
              (latitude (vessel_state self)) (longitude (vessel_state self))
              (wp_latitude wp) (wp_longitude wp))
           (tick_duration self inp)
    /\ heading (vessel_state self') = Some (course (vessel_state self'))
    /\ current_waypoint_idx self'
       = (if ltb (calculate_distance_haversine
                    (latitude (vessel_state self)) (longitude (vessel_state self))
                    (wp_latitude wp) (wp_longitude wp)) 500
          then S (target_index self) else target_index self).
Proof.
  unfold step, time_after, target_index. intros Hstep.
  destruct (update_blackout _ inp) as [e | s1] eqn:Hb; [discriminate |].
  destruct (update_blackout_frame _ s1 inp Hb) as (Hc & Hu & Hi & Hv & Ht).
  simpl in Hc, Hu, Hi, Hv, Ht.
  match type of Hstep with
  | context [nth_error ?l ?i] => destruct (nth_error l i) as [wp |] eqn:Hwp
  end; [| discriminate].
  exists wp, s1. split; [reflexivity |].
  rewrite Hc, Hi in *.
  destruct (get_total_waypoints (route (config self))
              <=? current_waypoint_idx self)%nat;
    simpl in *; rewrite ?Hc, ?Hv in *; try rewrite Hi in Hwp;
    match type of Hstep with
    | context [if ?c then _ else _] => destruct c
    end; inversion Hstep; subst self'; simpl;
    rewrite ?Hc, ?Hu, ?Ht, ?Hv, ?Hi; repeat split; exact Hwp.
Qed.



Lemma limit_speed_between (speed target_speed : Q) (dt : Z) :
  (0 <= dt)%Z ->
  (speed <= target_speed ->
   speed <= limit_speed speed target_speed dt
   /\ limit_speed speed target_speed dt <= target_speed)
  /\ (target_speed <= speed ->
      target_speed <= limit_speed speed target_speed dt
      /\ limit_speed speed target_speed dt <= speed)
  /\ (Qabs (target_speed - speed) <= (5 # 100) * inject_Z dt ->
      limit_speed speed target_speed dt = target_speed).
Proof.
  intros Hdt. unfold limit_speed, abs.
  assert (Hm : 0 <= (5 # 100) * inject_Z dt).
  { apply Qmult_le_0_compat; [discriminate |].
    change 0 with (inject_Z 0). now rewrite <- Zle_Qle. }
  set (m := (5 # 100) * inject_Z dt) in *.
  destruct (gtb (Qabs (target_speed - speed)) m) eqn:E.
  - apply gtb_gt in E.
    destruct (Qlt_le_dec (target_speed - speed) 0) as [Hneg | Hpos].
    + rewrite (Qabs_neg (target_speed - speed)) in E by lra.
      rewrite (sign_neg _ Hneg).
      split; [intros; lra |]. split; [intros; split; lra |].
      intros Habs. rewrite (Qabs_neg (target_speed - speed)) in Habs by lra. lra.
    + rewrite (Qabs_pos _ Hpos) in E.
      rewrite (sign_pos (target_speed - speed)) by lra.
      split; [intros; split; lra |]. split; [intros; lra |].
      intros Habs. rewrite (Qabs_pos _ Hpos) in Habs. lra.
  - split; [intros; split; lra |]. split; [intros; split; lra | reflexivity].
Qed.

(** X9.  On a tick of duration [dt >= 0] the speed moves towards the
    target speed of the waypoint steered to and never past it: it stays
    between the old speed and the target, and it is the target as soon as
    the target is within [0.05 * dt] knots. *)
Theorem speed_never_overshoots `{Geodesy}
    (self self' : AmmoniaVesselSimulator) (inp : StepInput) :
  (0 <= tick_duration self inp)%Z ->
  step self inp = inr self' ->
  exists wp,
    nth_error (waypoints (route (config self))) (target_index self) = Some wp
    /\ let target :=
         target_speed_for (config self) wp
           (calculate_distance_haversine
              (latitude (vessel_state self)) (longitude (vessel_state self))
              (wp_latitude wp) (wp_longitude wp)) in
       (speed (vessel_state self) <= target ->
        speed (vessel_state self) <= speed (vessel_state self')
        /\ speed (vessel_state self') <= target)
       /\ (target <= speed (vessel_state self) ->
           target <= speed (vessel_state self')
           /\ speed (vessel_state self') <= speed (vessel_state self))
       /\ (Qabs (target - speed (vessel_state self))
             <= (5 # 100) * inject_Z (tick_duration self inp) ->
           speed (vessel_state self') = target).
Proof.
  intros Hdt Hstep.
  destruct (step_result self self' inp Hstep)
    as (wp & s1 & _ & _ & _ & _ & Hwp & _ & _ & _ & _ & Hs & _).
  exists wp. split; [exact Hwp |]. cbv zeta. rewrite Hs.
  now apply limit_speed_between.
Qed.

Lemma speed_never_overshoots_witness :
  let geo := equatorial_waters 20 100000 0 in
  exists self',
    step sakigake_under_way ten_seconds = inr self'
    /\ 12 <= speed (vessel_state self') /\ speed (vessel_state self') <= 16.
Proof.
  intros geo.
  destruct (@step geo sakigake_under_way ten_seconds) as [e | self'] eqn:E;
    [vm_compute in E; discriminate |].
  exists self'. split; [reflexivity |].
  assert (Hdt : (0 <= tick_duration sakigake_under_way ten_seconds)%Z)
    by (vm_compute; discriminate).
  destruct (@speed_never_overshoots geo sakigake_under_way self' ten_seconds
              Hdt E) as (wp & Hwp & Hup & _).
  vm_compute in Hwp. inversion Hwp; subst wp; clear Hwp.
  apply Hup. vm_compute. discriminate.
Defined.

(** X10.  The waypoint index stays on the route: a tick steers to an
    existing waypoint (waypoint 0 when the index had run past the end) and
    leaves the index at that waypoint or at the next one, so at most at the
    length of the route. *)
Theorem waypoint_index_stays_on_route `{Geodesy}
    (self self' : AmmoniaVesselSimulator) (inp : StepInput) :
  step self inp = inr self' ->
  (target_index self < List.length (waypoints (route (config self))))%nat
  /\ ((List.length (waypoints (route (config self)))
       <= current_waypoint_idx self)%nat -> target_index self = 0%nat)
  /\ (current_waypoint_idx self' = target_index self
      \/ current_waypoint_idx self' = S (target_index self))
  /\ (current_waypoint_idx self'
      <= List.length (waypoints (route (config self'))))%nat.
Proof.
  intros Hstep.
  destruct (step_result self self' inp Hstep)
    as (wp & s1 & _ & _ & _ & _ & Hwp & Hc & _ & _ & _ & _ & _ & _ & Hi).
  assert (Hlt : (target_index self
                 < List.length (waypoints (route (config self))))%nat).
  { apply nth_error_Some. rewrite Hwp. discriminate. }
  split; [exact Hlt |]. split.
  - intros Hge. unfold target_index, get_total_waypoints.
    destruct (Nat.leb_spec (List.length (waypoints (route (config self))))
                (current_waypoint_idx self)); [reflexivity | lia].
  - rewrite Hc, Hi. destruct (ltb _ 500); split; [now right | lia | now left | lia].
Qed.

Lemma waypoint_index_stays_on_route_witness :
  let geo := equatorial_waters 20 100000 0 in
  exists self',
    step sakigake_under_way ten_seconds = inr self'
    /\ (current_waypoint_idx self' <= 3)%nat.
Proof.
  intros geo.
  destruct (@step geo sakigake_under_way ten_seconds) as [e | self'] eqn:E;
    [vm_compute in E; discriminate |].
  exists self'. split; [reflexivity |].
  destruct (@waypoint_index_stays_on_route geo sakigake_under_way self'
              ten_seconds E) as (_ & _ & _ & Hle).
  assert (Hc : config self' = sakigake)
    by (vm_compute in E; inversion E; reflexivity).
  rewrite Hc in Hle. exact Hle.
Defined.

Lemma elapsed_reaches (x d : Z) :
  geb (total_seconds x) (inject_Z d) = true <-> (d * 1000000 <= x)%Z.
Proof.
  unfold geb, total_seconds. rewrite Qle_bool_iff.
  split; intros Hle.
  - apply (Qmult_le_r _ _ 1000000) in Hle; [| reflexivity].
    assert (E : inject_Z x / 1000000 * 1000000 == inject_Z x) by (field).
    rewrite E in Hle. change 1000000 with (inject_Z 1000000) in Hle.
    rewrite <- inject_Z_mult in Hle. rewrite Zle_Qle. exact Hle.
  - apply Qle_shift_div_l; [reflexivity |].
    change 1000000 with (inject_Z 1000000).
    rewrite <- inject_Z_mult. rewrite <- Zle_Qle. exact Hle.
Qed.

(** What section 1 of a tick does to the blackout fields. *)
Lemma update_blackout_cases (self : AmmoniaVesselSimulator) (inp : StepInput) :
  (forall st,
      in_blackout self = true -> blackout_start_time self = Some st ->
      ((simulation_time self - st < blackout_duration_sec self * 1000000)%Z ->
       update_blackout self inp = inr self)
      /\ ((blackout_duration_sec self * 1000000 <= simulation_time self - st)%Z ->
          update_blackout self inp
          = inr (set_blackout self false None (blackout_duration_sec self))))
  /\ (in_blackout self = false ->
      (u_blackout inp < signal_blackout_probability (config self) ->
       update_blackout self inp
       = inr (set_blackout self true (Some (simulation_time self))
                (blackout_draw inp)))
      /\ (signal_blackout_probability (config self) <= u_blackout inp ->
          update_blackout self inp = inr self)).
Proof.
  unfold update_blackout. split.
  - intros st Hon Hst. rewrite Hon, Hst.
    pose proof (elapsed_reaches (simulation_time self - st)
                  (blackout_duration_sec self)) as Hiff.
    destruct (geb _ _); split; intros Hcmp; try reflexivity.
    + assert (blackout_duration_sec self * 1000000
              <= simulation_time self - st)%Z by (now apply Hiff). lia.
    + apply Hiff in Hcmp. discriminate.
  - intros Hoff. rewrite Hoff. split; intros Hu.
    + apply ltb_lt in Hu. now rewrite Hu.
    + apply ltb_ge in Hu. now rewrite Hu.
Qed.

(** X11.  The blackout timer.  While a blackout is on, a tick that ends
    before the drawn duration has elapsed since the start keeps the blackout
    and draws nothing; the first tick that ends at or after it clears the
    blackout.  While no blackout is on, a tick starts one exactly when its
    draw is below the configured probability, from the end-of-tick time and
    for the drawn duration.  In every case the vessel is moved on: its
    timestamp is the end-of-tick time. *)
Theorem blackout_lasts_its_duration `{Geodesy}
    (self self' : AmmoniaVesselSimulator) (inp : StepInput) :
  step self inp = inr self' ->
  (forall st,
      in_blackout self = true -> blackout_start_time self = Some st ->
      ((time_after self inp - st < blackout_duration_sec self * 1000000)%Z ->
       in_blackout self' = true
       /\ blackout_start_time self' = Some st
       /\ blackout_duration_sec self' = blackout_duration_sec self)
      /\ ((blackout_duration_sec self * 1000000 <= time_after self inp - st)%Z ->
          in_blackout self' = false /\ blackout_start_time self' = None))
  /\ (in_blackout self = false ->
      (u_blackout inp < signal_blackout_probability (config self) ->
       in_blackout self' = true
       /\ blackout_start_time self' = Some (time_after self inp)
       /\ blackout_duration_sec self' = blackout_draw inp)
      /\ (signal_blackout_probability (config self) <= u_blackout inp ->
          in_blackout self' = false))
  /\ timestamp (vessel_state self') = time_after self inp.
Proof.
  intros Hstep.
  destruct (step_result self self' inp Hstep)
    as (wp & s1 & Hb & Hin & Hst & Hdur & _ & _ & _ & _ & Hts & _).
  destruct (update_blackout_cases
              (set_simulation_time self (time_after self inp)) inp)
    as [Hon Hoff].
  simpl in Hon, Hoff.
  split; [| split; [| exact Hts]].
  - intros st Eon Est. destruct (Hon st Eon Est) as [Hkeep Hend].
    split; intros Hcmp.
    + rewrite (Hkeep Hcmp) in Hb. inversion Hb; subst s1.
      rewrite Hin, Hst, Hdur. simpl. repeat split; assumption.
    + rewrite (Hend Hcmp) in Hb. inversion Hb; subst s1.
      rewrite Hin, Hst. simpl. split; reflexivity.
  - intros Eoff. destruct (Hoff Eoff) as [Hstart Hnone].
    split; intros Hu.
    + rewrite (Hstart Hu) in Hb. inversion Hb; subst s1.
      rewrite Hin, Hst, Hdur. simpl. repeat split.
    + rewrite (Hnone Hu) in Hb. inversion Hb; subst s1.
      rewrite Hin. simpl. exact Eoff.
Qed.

Lemma blackout_lasts_its_duration_witness :
  let geo := equatorial_waters 20 100000 0 in
  (exists self',
      step sakigake_in_blackout
        {| delta_time_sec := Some 5%Z;
           wind_speed_knots := None; wind_direction_deg := None;
           current_speed_knots := None; current_direction_deg := None;
           u_blackout := 0; blackout_draw := 600 |} = inr self'
      /\ in_blackout self' = true)
  /\ (exists self',
        step sakigake_in_blackout ten_seconds = inr self'
        /\ in_blackout self' = false)
  /\ (exists self',
        step sakigake_under_way ten_seconds = inr self'
        /\ in_blackout self' = false).
Proof.
  intros geo. split; [| split].
  - match goal with
    | |- exists _, step ?s ?i = _ /\ _ =>
        destruct (@step geo s i) as [e | self'] eqn:E;
          [vm_compute in E; discriminate |];
        exists self'; split; [reflexivity |];
        destruct (@blackout_lasts_its_duration geo s self' i E) as (Hon & _)
    end.
    destruct (Hon 0%Z eq_refl eq_refl) as (Hkeep & _).
    apply Hkeep. vm_compute. reflexivity.
  - destruct (@step geo sakigake_in_blackout ten_seconds) as [e | self'] eqn:E;
      [vm_compute in E; discriminate |].
    exists self'. split; [reflexivity |].
    destruct (@blackout_lasts_its_duration geo sakigake_in_blackout self'
                ten_seconds E) as (Hon & _).
    destruct (Hon 0%Z eq_refl eq_refl) as (_ & Hend).
    apply Hend. vm_compute. discriminate.
  - destruct (@step geo sakigake_under_way ten_seconds) as [e | self'] eqn:E;
      [vm_compute in E; discriminate |].
    exists self'. split; [reflexivity |].
    destruct (@blackout_lasts_its_duration geo sakigake_under_way self'
                ten_seconds E) as (_ & Hoff & _).
    apply (Hoff eq_refl). vm_compute. discriminate.
Defined.

Lemma step_keeps_ready `{Geodesy} (self self' : AmmoniaVesselSimulator)
    (inp : StepInput) :
  ready self -> step self inp = inr self' -> ready self'.
Proof.
  intros [Hroute Hblk] Hstep.
  destruct (step_result self self' inp Hstep)
    as (wp & s1 & Hb & Hin & Hst & _ & _ & Hc & _).
  split; [now rewrite Hc |].
  rewrite Hin, Hst. unfold update_blackout in Hb. simpl in Hb.
  destruct (in_blackout self) eqn:Eon.
  - destruct (Hblk eq_refl) as [st Est]. rewrite Est in Hb.
    destruct (geb _ _); inversion Hb; subst s1; simpl;
      [discriminate | rewrite Eon, Est; eauto].
  - destruct (ltb _ _); inversion Hb; subst s1; simpl;
      [eauto | rewrite Eon; discriminate].
Qed.

Lemma ready_steps_return `{Geodesy} (inps : list StepInput)
    (self : AmmoniaVesselSimulator) :
  ready self -> exists self', steps self inps = inr self' /\ ready self'.
Proof.
  revert self. induction inps as [| inp rest IH]; intros self Hready; simpl.
  - eauto.
  - destruct Hready as [Hroute Hblk].
    destruct (step_returns self inp Hroute) as [s1 Hs1].
    + intros Hon. destruct (Hblk Hon) as [st Est]. rewrite Est. discriminate.
    + rewrite Hs1. apply IH. eapply step_keeps_ready; [| exact Hs1].
      split; assumption.
Qed.



End AmmoniaMore.

(* ===================================================================== *)
(** * The corridor simulator: further properties                          *)
(* ===================================================================== *)

Module SMRMore.

Import Py PyFacts Vessel Geo SMR SMRFacts.
Local Open Scope Q_scope.

Section Zones.

Context {geo : Geodesy}.

(** The events of one zone check. *)
Lemma check_zone_events (self : SMRVesselSimulator) (zone : GeofenceZone) :
  exists events,
    violation_log (check_zone self zone) = violation_log self ++ events
    /\ Forall (stamped_by self) events
    /\ List.length (List.filter is_geofence_violation events)
       = List.length (List.filter (prohibited_hit (vessel_state self)) [zone])
    /\ List.length (List.filter is_speed_violation events)
       = List.length (List.filter (speeding_hit (vessel_state self)) [zone])
    /\ geofence_violations (stats (check_zone self zone))
       = (geofence_violations (stats self)
          + Z.of_nat (List.length
                        (List.filter (prohibited_hit (vessel_state self)) [zone])))%Z
    /\ speed_violations (stats (check_zone self zone))
       = (speed_violations (stats self)
          + Z.of_nat (List.length
                        (List.filter (speeding_hit (vessel_state self)) [zone])))%Z
    /\ total_distance_traveled_m (stats (check_zone self zone))
       = total_distance_traveled_m (stats self).
Proof.
  unfold check_zone, prohibited_hit, speeding_hit, _log_violation.
  cbn [List.filter].
  destruct (String.eqb_spec (zone_type zone) "PROHIBITED") as [Ep | Ep].
  - rewrite Ep. cbn [String.eqb Ascii.eqb Bool.eqb andb].
    destruct (contains_point zone _ _); cbn [andb].
    + eexists. split; [reflexivity |]. split.
      * constructor; [| constructor]. unfold stamped_by. simpl.
        repeat split. right; left. split; reflexivity.
      * simpl. repeat split; lia.
    + exists []. rewrite app_nil_r. split; [reflexivity |].
      split; [constructor |]. simpl. repeat split; lia.
  - cbn [andb].
    destruct (String.eqb (zone_type zone) "RESTRICTED"); cbn [andb].
    2: { exists []. rewrite app_nil_r. split; [reflexivity |].
         split; [constructor |]. simpl. repeat split; lia. }
    destruct (contains_point zone _ _); cbn [andb].
    2: { exists []. rewrite app_nil_r. split; [reflexivity |].
         split; [constructor |]. simpl. repeat split; lia. }
    destruct (max_speed_knots zone) as [limit |].
    2: { exists []. rewrite app_nil_r. split; [reflexivity |].
         split; [constructor |]. simpl. repeat split; lia. }
    destruct (negb (eqb limit 0) && gtb (speed (vessel_state self)) limit).
    + eexists. split; [reflexivity |]. split.
      * constructor; [| constructor]. unfold stamped_by. simpl.
        repeat split. right; right. split; reflexivity.
      * simpl. repeat split; lia.
    + exists []. rewrite app_nil_r. split; [reflexivity |].
      split; [constructor |]. simpl. repeat split; lia.
Qed.

Lemma stamped_by_ext (a b : SMRVesselSimulator) (e : ViolationEvent) :
  simulation_time a = simulation_time b -> vessel_state a = vessel_state b ->
  stamped_by a e -> stamped_by b e.
Proof. unfold stamped_by. intros -> ->. tauto. Qed.

(** The events of the loop over the zones: one geofence event for every
    prohibited zone that contains the vessel, one speed event for every
    restricted zone whose limit it exceeds, and the counters to match. *)
Lemma check_zones_events (zones : list GeofenceZone) (self : SMRVesselSimulator) :
  exists events,
    violation_log (fold_left check_zone zones self) = violation_log self ++ events
    /\ Forall (stamped_by self) events
    /\ List.length (List.filter is_geofence_violation events)
       = List.length (List.filter (prohibited_hit (vessel_state self)) zones)
    /\ List.length (List.filter is_speed_violation events)
       = List.length (List.filter (speeding_hit (vessel_state self)) zones)
    /\ geofence_violations (stats (fold_left check_zone zones self))
       = (geofence_violations (stats self)
          + Z.of_nat (List.length
                        (List.filter (prohibited_hit (vessel_state self)) zones)))%Z
    /\ speed_violations (stats (fold_left check_zone zones self))
       = (speed_violations (stats self)
          + Z.of_nat (List.length
                        (List.filter (speeding_hit (vessel_state self)) zones)))%Z
    /\ total_distance_traveled_m (stats (fold_left check_zone zones self))
       = total_distance_traveled_m (stats self).
Proof.
  revert self. induction zones as [| zone zones IH]; intros self.
  - exists []. simpl. rewrite app_nil_r. split; [reflexivity |].
    split; [constructor |]. repeat split; lia.
  - cbn [fold_left].
    destruct (check_zone_events self zone)
      as (ev1 & Hl1 & Hs1 & Hg1 & Hv1 & Hcg1 & Hcv1 & Hd1).
    destruct (check_zone_frame self zone)
      as (_ & _ & Hvs & Hts & _).
    destruct (IH (check_zone self zone))
      as (ev2 & Hl2 & Hs2 & Hg2 & Hv2 & Hcg2 & Hcv2 & Hd2).
    rewrite Hvs in *.
    exists (ev1 ++ ev2).
    split; [rewrite Hl2, Hl1; now rewrite app_assoc |].
    split.
    { apply Forall_app. split; [exact Hs1 |].
      eapply List.Forall_impl; [| exact Hs2].
      intros e. apply stamped_by_ext; assumption. }
    change (zone :: zones) with ([zone] ++ zones).
    rewrite !List.filter_app, !length_app.
    rewrite Hg1, Hg2, Hv1, Hv2, Hcg2, Hcg1, Hcv2, Hcv1, Hd2, Hd1.
    repeat split; lia.
Qed.

(** The vessel after a tick. *)
Lemma smr_step_vessel (self self' : SMRVesselSimulator) (inp : StepInput) :
  step self inp = inr self' ->
  exists desired_course,
    simulation_time self' = time_after self inp
    /\ timestamp (vessel_state self') = time_after self inp
    /\ course (vessel_state self')
       = SMR.limit_course (course (vessel_state self)) desired_course
           (tick_duration self inp)
    /\ heading (vessel_state self') = Some (course (vessel_state self'))
    /\ speed (vessel_state self')
       = min (cruise_speed_knots (config self))
             (corridor_max_speed_knots (corridor self)).
Proof.
  unfold step, time_after. intros Hstep.
  match type of Hstep with
  | context [nth_error ?l ?i] => destruct (nth_error l i) as [pt |] eqn:Hpt
  end; [| discriminate].
  match type of Hstep with
  | context [check_geofences (check_corridor ?s)] =>
      remember s as s0 eqn:Hs0
  end.
  destruct (check_corridor_spec s0) as (_ & _ & Hv1 & Ht1 & Hz1 & _).
  unfold check_geofences in Hstep. rewrite Hz1 in Hstep.
  destruct (check_zones_frame (geofence_zones s0) (check_corridor s0))
    as (_ & _ & Hv2 & Ht2 & _).
  set (s2 := fold_left check_zone (geofence_zones s0) (check_corridor s0)) in *.
  assert (Hfin : vessel_state self' = vessel_state s0
                 /\ simulation_time self' = simulation_time s0).
  { match type of Hstep with
    | context [if ?c then _ else _] => destruct c
    end; inversion Hstep; subst self'; simpl; split; congruence. }
  destruct Hfin as (-> & ->).
  subst s0.
  destruct (_ <=? _)%nat; simpl in *; eexists; repeat split.
Qed.

(** The log and the counters after a tick. *)
Lemma smr_step_events (self self' : SMRVesselSimulator) (inp : StepInput) :
  step self inp = inr self' ->
  exists zone_events,
    violation_log self'
    = violation_log self
      ++ (if deviation_detected self' then [deviation_event self'] else [])
      ++ zone_events
    /\ Forall (stamped_by self') zone_events
    /\ corridor_deviation_events zone_events = []
    /\ List.length (List.filter is_geofence_violation zone_events)
       = List.length (List.filter (prohibited_hit (vessel_state self'))
                        (geofence_zones self))
    /\ List.length (List.filter is_speed_violation zone_events)
       = List.length (List.filter (speeding_hit (vessel_state self'))
                        (geofence_zones self))
    /\ corridor_deviations (stats self')
       = (corridor_deviations (stats self)
          + (if deviation_detected self' then 1 else 0))%Z
    /\ geofence_violations (stats self')
       = (geofence_violations (stats self)
          + Z.of_nat (List.length
                        (List.filter (prohibited_hit (vessel_state self'))
                           (geofence_zones self))))%Z
    /\ speed_violations (stats self')
       = (speed_violations (stats self)
          + Z.of_nat (List.length
                        (List.filter (speeding_hit (vessel_state self'))
                           (geofence_zones self))))%Z.
Proof.
  unfold step. intros Hstep.
  match type of Hstep with
  | context [nth_error ?l ?i] => destruct (nth_error l i) as [pt |] eqn:Hpt
  end; [| discriminate].
  match type of Hstep with
  | context [check_geofences (check_corridor ?s)] =>
      remember s as s0 eqn:Hs0
  end.
  assert (H0 : config s0 = config self /\ corridor s0 = corridor self
               /\ geofence_zones s0 = geofence_zones self
               /\ violation_log s0 = violation_log self
               /\ corridor_deviations (stats s0)
                  = corridor_deviations (stats self)
               /\ geofence_violations (stats s0)
                  = geofence_violations (stats self)
               /\ speed_violations (stats s0) = speed_violations (stats self)).
  { subst s0. simpl. destruct (_ <=? _)%nat; simpl; repeat split. }
  destruct H0 as (H0c & H0k & H0z & H0l & H0d & H0g & H0v).
  clear Hs0 Hpt.
  destruct (check_corridor_spec s0)
    as (Hc1 & Hk1 & Hv1 & Ht1 & Hz1 & Hi1 & Hl1 & Hd1).
  assert (Hgs1 : geofence_violations (stats (check_corridor s0))
                 = geofence_violations (stats s0)
                 /\ speed_violations (stats (check_corridor s0))
                    = speed_violations (stats s0)).
  { unfold check_corridor, _log_violation.
    destruct (negb _); [destruct (gtb _ _) |]; simpl; split; reflexivity. }
  destruct Hgs1 as (Hg1 & Hs1).
  unfold check_geofences in Hstep. rewrite Hz1 in Hstep.
  destruct (check_zones_frame (geofence_zones s0) (check_corridor s0))
    as (Hc2 & Hk2 & Hv2 & Ht2 & Hi2 & Hd2 & _).
  destruct (check_zones_events (geofence_zones s0) (check_corridor s0))
    as (evs & Hl2 & Hst2 & Hcg & Hcv & Hsg & Hsv & _).
  destruct (check_zones_frame (geofence_zones s0) (check_corridor s0))
    as (_ & _ & _ & _ & _ & _ & evs' & Hl2' & Hf2).
  assert (evs' = evs) by (rewrite Hl2 in Hl2'; now apply app_inv_head in Hl2').
  subst evs'.
  set (s2 := fold_left check_zone (geofence_zones s0) (check_corridor s0)) in *.
  assert (Hfin : config self' = config s2 /\ corridor self' = corridor s2
                 /\ vessel_state self' = vessel_state s2
                 /\ simulation_time self' = simulation_time s2
                 /\ violation_log self' = violation_log s2
                 /\ stats self' = stats s2).
  { match type of Hstep with
    | context [if ?c then _ else _] => destruct c
    end; inversion Hstep; subst self'; simpl; repeat split. }
  destruct Hfin as (Hc3 & Hk3 & Hv3 & Ht3 & Hl3 & Hst3).
  destruct (deviation_ext self' s0) as (Edet & Eev & _); try congruence.
  exists evs.
  rewrite Edet, Eev, Hl3, Hst3, Hl2, Hl1, Hd2, Hd1, Hsg, Hsv, Hg1, Hs1,
    H0l, H0d, H0g, H0v, Hv3, Hv2, <- H0z, Hcg, Hcv.
  split; [now rewrite app_assoc |].
  split.
  { eapply List.Forall_impl; [| exact Hst2].
    intros e. apply stamped_by_ext; congruence. }
  repeat split; assumption.
Qed.

Lemma smr_step_returns (self : SMRVesselSimulator) (inp : StepInput) :
  centerline_coords (corridor self) <> [] ->
  exists self', step self inp = inr self'.
Proof.
  intros Hne. unfold step.
  match goal with
  | |- context [nth_error ?l ?i] => destruct (nth_error l i) as [pt |] eqn:Hpt
  end; [eexists; reflexivity |].
  exfalso. apply nth_error_None in Hpt. revert Hpt. simpl.
  destruct (Nat.leb_spec (List.length (centerline_coords (corridor self)))
              (current_centerline_index self)) as [Hle | Hlt];
    simpl; intros Hpt; [| lia].
  destruct (centerline_coords (corridor self)); [contradiction | simpl in Hpt; lia].
Qed.

End Zones.

Lemma min_le_left (a b : Q) : min a b <= a.
Proof.
  unfold min. destruct (ltb b a) eqn:E.
  - apply ltb_lt in E. now apply Qlt_le_weak.
  - apply Qle_refl.
Qed.

Lemma min_le_right (a b : Q) : min a b <= b.
Proof.
  unfold min. destruct (ltb b a) eqn:E.
  - apply Qle_refl.
  - now apply ltb_ge in E.
Qed.

(** The corridor simulator turns by at most 1.5 degrees per second. *)
Lemma smr_limit_course_bound (course desired_course : Q) (dt : Z) :
  (0 <= dt)%Z ->
  Qabs (Ammonia.shortest_rotation course
          (SMR.limit_course course desired_course dt))
  <= (15 # 10) * inject_Z dt.
Proof.
  intros Hdt.
  assert (Hm : 0 <= (15 # 10) * inject_Z dt).
  { apply Qmult_le_0_compat; [discriminate |].
    change 0 with (inject_Z 0). now rewrite <- Zle_Qle. }
  unfold SMR.limit_course, abs.
  fold (Ammonia.shortest_rotation course desired_course).
  destruct (AmmoniaFacts.course_diff_range course desired_course) as [Hlo Hhi].
  set (d := Ammonia.shortest_rotation course desired_course) in *.
  set (m := (15 # 10) * inject_Z dt) in *.
  unfold Ammonia.shortest_rotation at 1.
  destruct (gtb (Qabs d) m) eqn:E.
  - apply gtb_gt in E.
    assert (Eabs :
      mod_ (mod_ (course + sign d * m) 360 - course + 180) 360
      == mod_ (sign d * m + 180) 360).
    { assert (E1 : mod_ (course + sign d * m) 360 - course + 180
                   == mod_ (course + sign d * m) 360 + (- course + 180)) by ring.
      rewrite E1, mod_360_absorb.
      apply mod_comp; [ring | reflexivity]. }
    rewrite Eabs.
    destruct (Qlt_le_dec d 0) as [Hneg | Hpos].
    + rewrite (Qabs_neg d) in E by lra.
      rewrite (sign_neg d Hneg).
      rewrite mod_360_small by lra.
      apply Qabs_Qle_condition. split; lra.
    + rewrite (Qabs_pos d Hpos) in E.
      rewrite (sign_pos d) by lra.
      rewrite mod_360_small by lra.
      apply Qabs_Qle_condition. split; lra.
  - apply gtb_le in E.
    assert (Eabs :
      mod_ (mod_ desired_course 360 - course + 180) 360
      == mod_ (desired_course - course + 180) 360).
    { assert (E1 : mod_ desired_course 360 - course + 180
                   == mod_ desired_course 360 + (- course + 180)) by ring.
      rewrite E1, mod_360_absorb.
      apply mod_comp; [ring | reflexivity]. }
    rewrite Eabs. exact E.
Qed.



Lemma deviation_event_stamped `{Geodesy} (self : SMRVesselSimulator) :
  stamped_by self (deviation_event self).
Proof.
  unfold stamped_by, deviation_event. simpl. repeat split.
  left. split; reflexivity.
Qed.

(** What a tick appends to the log. *)
Lemma tick_log `{Geodesy} (self self' : SMRVesselSimulator) (inp : StepInput) :
  step self inp = inr self' ->
  violation_log self' = violation_log self ++ logged_between self self'
  /\ Forall (stamped_by self') (logged_between self self').
Proof.
  intros Hstep.
  destruct (smr_step_events self self' inp Hstep) as (evs & Hl & Hst & _).
  unfold logged_between. rewrite Hl, skipn_length_app.
  split; [reflexivity |].
  apply Forall_app. split; [| exact Hst].
  destruct (deviation_detected self'); constructor;
    [apply deviation_event_stamped | constructor].
Qed.

(** X14.  The violation log is append-only.  A tick keeps every earlier
    event and appends its own, each stamped with the time and the position
    at the end of that tick and with the severity of its kind (CRITICAL for
    corridor and geofence events, WARNING for speed events); a run of ticks
    keeps the log it started with as a prefix. *)
Theorem violation_log_is_append_only `{Geodesy} :
  (forall self self' inp,
      step self inp = inr self' ->
      violation_log self' = violation_log self ++ logged_between self self'
      /\ Forall (stamped_by self') (logged_between self self'))
  /\ (forall inps self self',
        steps self inps = inr self' ->
        exists new, violation_log self' = violation_log self ++ new).
Proof.
  split; [exact tick_log |].
  induction inps as [| inp rest IH]; intros self self' Hrun; simpl in Hrun.
  - inversion Hrun. exists []. now rewrite app_nil_r.
  - destruct (step self inp) as [e | s1] eqn:Hstep; [discriminate |].
    destruct (tick_log self s1 inp Hstep) as (Hl & _).
    destruct (IH s1 self' Hrun) as (new & Hnew).
    eexists. rewrite Hnew, Hl, <- app_assoc. reflexivity.
Qed.

Lemma violation_log_is_append_only_witness :
  let geo := equatorial_zones 100 50000 0 in
  exists self',
    steps pioneer_among_zones [ten_seconds; ten_seconds] = inr self'
    /\ exists new,
         violation_log self' = violation_log pioneer_among_zones ++ new.
Proof.
  intros geo.
  destruct (@steps geo pioneer_among_zones [ten_seconds; ten_seconds])
    as [e | self'] eqn:E; [vm_compute in E; discriminate |].
  exists self'. split; [reflexivity |].
  exact (proj2 (@violation_log_is_append_only geo)
           [ten_seconds; ten_seconds] pioneer_among_zones self' E).
Defined.

(** The events logged on a tick, by kind. *)
Lemma tick_events_by_kind `{Geodesy}
    (self self' : SMRVesselSimulator) (inp : StepInput) :
  step self inp = inr self' ->
  List.length (List.filter is_corridor_deviation (logged_between self self'))
    = (if deviation_detected self' then 1 else 0)%nat
  /\ List.length (List.filter is_geofence_violation (logged_between self self'))
    = List.length (List.filter (prohibited_hit (vessel_state self'))
                     (geofence_zones self))
  /\ List.length (List.filter is_speed_violation (logged_between self self'))
    = List.length (List.filter (speeding_hit (vessel_state self'))
                     (geofence_zones self)).
Proof.
  intros Hstep.
  destruct (smr_step_events self self' inp Hstep)
    as (evs & Hl & _ & Hcd & Hg & Hv & _).
  unfold logged_between. rewrite Hl, skipn_length_app.
  unfold corridor_deviation_events in Hcd.
  rewrite !List.filter_app, !length_app, Hcd, Hg, Hv.
  destruct (deviation_detected self'); simpl; repeat split; lia.
Qed.





Lemma step_keeps_stats_agree `{Geodesy}
    (self self' : SMRVesselSimulator) (inp : StepInput) :
  stats_agree_with_log self -> step self inp = inr self' ->
  stats_agree_with_log self'.
Proof.
  intros (Hc & Hg & Hv) Hstep.
  destruct (tick_events_by_kind self self' inp Hstep) as (Kc & Kg & Kv).
  destruct (smr_step_events self self' inp Hstep)
    as (evs & _ & _ & _ & _ & _ & Sc & Sg & Sv).
  destruct (tick_log self self' inp Hstep) as (Hl & _).
  unfold stats_agree_with_log.
  rewrite Hl, !List.filter_app, !length_app, Kc, Kg, Kv, Sc, Sg, Sv, Hc, Hg, Hv.
  destruct (deviation_detected self'); repeat split; lia.
Qed.

(** X17.  The statistics agree with the log: for a simulator built by the
    constructor, after any run of ticks, the three violation counters are
    the numbers of CORRIDOR_DEVIATION, GEOFENCE_VIOLATION and
    SPEED_VIOLATION events in the violation log. *)
Theorem statistics_agree_with_log `{Geodesy} :
  (forall config corridor zones update_interval_sec now s0,
      SMRVesselSimulator_init config corridor zones update_interval_sec now
      = inr s0 ->
      stats_agree_with_log s0)
  /\ (forall inps self self',
        stats_agree_with_log self -> steps self inps = inr self' ->
        stats_agree_with_log self').
Proof.
  split.
  - intros config corridor zones ui now s0. unfold SMRVesselSimulator_init.
    destruct (centerline_coords corridor) as [| p0 [| p1 rest]];
      try discriminate.
    intros Hinit. inversion Hinit. unfold stats_agree_with_log. simpl.
    repeat split.
  - induction inps as [| inp rest IH]; intros self self' Hagree Hrun;
      simpl in Hrun.
    + inversion Hrun; subst. exact Hagree.
    + destruct (step self inp) as [e | s1] eqn:Hstep; [discriminate |].
      apply (IH s1 self'); [| exact Hrun].
      eapply step_keeps_stats_agree; eassumption.
Qed.

Lemma statistics_agree_with_log_witness :
  let geo := equatorial_zones 100 50000 0 in
  exists self',
    steps pioneer_among_zones [ten_seconds; ten_seconds] = inr self'
    /\ stats_agree_with_log self'.
Proof.
  intros geo.
  destruct (@steps geo pioneer_among_zones [ten_seconds; ten_seconds])
    as [e | self'] eqn:E; [vm_compute in E; discriminate |].
  exists self'. split; [reflexivity |].
  apply (proj2 (@statistics_agree_with_log geo)
           [ten_seconds; ten_seconds] pioneer_among_zones self');
    [| exact E].
  unfold stats_agree_with_log. simpl. repeat split.
Defined.

Lemma steps_return `{Geodesy} (inps : list StepInput) (self : SMRVesselSimulator) :
  centerline_coords (corridor self) <> [] ->
  exists self', steps self inps = inr self'.
Proof.
  revert self. induction inps as [| inp rest IH]; intros self Hne; simpl.
  - eauto.
  - destruct (smr_step_returns self inp Hne) as (s1 & Hs1). rewrite Hs1.
    apply IH.
    destruct (step_log self s1 inp Hs1) as (_ & -> & _). exact Hne.
Qed.



End SMRMore.

(* ===================================================================== *)
(** * The AIS client: further properties                                  *)
(* ===================================================================== *)

Module AISMore.

Import Py PyFacts Vessel AIS AISFacts.
Local Open Scope Z_scope.

(** ** The two handlers, outcome by outcome *)

Lemma position_report_outcome (self : AISStreamClient)
    (metadata : MetaData) (message : PositionReport) (now : Now) :
  let self' := _handle_position_report self metadata message now in
  let mmsi := MMSI metadata in
  same_settings self self'
  /\ ((passes_admission self mmsi (default 0 (pr_Type message)) = false
       /\ vessel_cache self' = vessel_cache self
       /\ message_queue self' = message_queue self
       /\ stats self' = incr_messages_filtered (stats self))
      \/ (passes_admission self mmsi (default 0 (pr_Type message)) = true
          /\ exists v0,
               (vessel_cache self !! mmsi = Some v0
                \/ vessel_cache self !! mmsi = None
                   /\ v0 = new_vessel mmsi
                             (strip (default ("Unknown-" ++ mmsi)%string
                                       (ShipName metadata)))
                             (is_autonomous_mmsi self mmsi) now)
               /\ let lat := default (latitude v0) (Latitude message) in
                  let lon := default (longitude v0) (Longitude message) in
                  (eqb lat 0 && eqb lon 0 = true
                   /\ vessel_cache self' = <[mmsi := v0]> (vessel_cache self)
                   /\ message_queue self' = message_queue self
                   /\ stats self' = incr_messages_filtered (stats self))
                  \/ (eqb lat 0 && eqb lon 0 = false
                      /\ vessel_cache self'
                         = <[mmsi := update_position v0 lat lon message now]>
                             (vessel_cache self)
                      /\ message_queue self' = enqueue (message_queue self) mmsi
                      /\ (stats self' = set_last_update (stats self) (instant now)
                          \/ stats self' = stats self)))).
Proof.
  unfold _handle_position_report, passes_admission, same_settings.
  destruct (is_autonomous_mmsi self (MMSI metadata)) eqn:Ea;
    destruct (is_cargo_tanker self (default 0 (pr_Type message))) eqn:Ec;
    destruct (max_vessels self <=? cache_len self) eqn:Em;
    cbn [negb andb orb];
    try (split; [repeat split | left; repeat split]; fail);
    (destruct (vessel_cache self !! MMSI metadata) as [vessel |] eqn:Hlook;
     [ destruct (eqb _ _ && eqb _ _) eqn:Hnull;
       [ split; [repeat split |];
         right; split; [reflexivity |]; exists vessel;
         split; [now left |]; left; split; [exact Hnull |];
         simpl; rewrite (insert_id _ _ _ Hlook); repeat split
       | match goal with
         | |- context [message_callback ?c] =>
             destruct (message_callback c) as [callback |];
             [destruct (callback _) |]
         end;
         (split; [simpl; unfold enqueue;
                  destruct (negb (full _)); repeat split |]);
         right; (split; [reflexivity |]); exists vessel;
         (split; [now left |]); right; (split; [exact Hnull |]);
         simpl; repeat split; auto ]
     | cbn zeta beta iota;
       destruct (eqb _ _ && eqb _ _) eqn:Hnull;
       [ split; [repeat split |];
         right; split; [reflexivity |]; eexists;
         split; [right; split; reflexivity |]; left; split; [exact Hnull |];
         simpl; repeat split
       | match goal with
         | |- context [message_callback ?c] =>
             destruct (message_callback c) as [callback |];
             [destruct (callback _) |]
         end;
         (split; [simpl; unfold enqueue;
                  destruct (negb (full _)); repeat split |]);
         right; (split; [reflexivity |]); eexists;
         (split; [right; split; reflexivity |]); right;
         (split; [exact Hnull |]);
         simpl; rewrite insert_insert_eq; repeat split; auto ] ]).
Qed.

Lemma static_data_outcome (self : AISStreamClient)
    (metadata : MetaData) (message : ShipStaticData) (now : Now) :
  let self' := _handle_static_data self metadata message now in
  let mmsi := MMSI metadata in
  same_settings self self'
  /\ message_queue self' = message_queue self
  /\ stats self' = stats self
  /\ ((passes_admission self mmsi (default 0 (sd_Type message)) = false
       /\ vessel_cache self' = vessel_cache self)
      \/ (passes_admission self mmsi (default 0 (sd_Type message)) = true
          /\ exists v0,
               (vessel_cache self !! mmsi = Some v0
                \/ vessel_cache self !! mmsi = None
                   /\ v0 = new_vessel mmsi
                             (strip (default ("Unknown-" ++ mmsi)%string
                                       (sd_Name message)))
                             (is_autonomous_mmsi self mmsi) now)
               /\ vessel_cache self'
                  = <[mmsi := update_static v0 message
                                (parse_eta (eta v0) (sd_Eta message) now)]>
                      (vessel_cache self))).
Proof.
  unfold _handle_static_data, passes_admission, same_settings.
  destruct (is_autonomous_mmsi self (MMSI metadata)) eqn:Ea;
    destruct (is_cargo_tanker self (default 0 (sd_Type message))) eqn:Ec;
    destruct (max_vessels self <=? cache_len self) eqn:Em;
    cbn [negb andb orb];
    try (repeat split; left; repeat split; fail);
    (split; [repeat split |]; split; [reflexivity |]; split; [reflexivity |];
     right; split; [reflexivity |];
     destruct (vessel_cache self !! MMSI metadata) as [vessel |] eqn:Hlook;
     eexists; (split; [first [now left | right; split; reflexivity] |]);
     reflexivity).
Qed.

Lemma same_identity_refl (v : VesselState) : same_identity v v.
Proof. unfold same_identity. repeat split. Qed.

Lemma same_identity_trans (a b c : VesselState) :
  same_identity a b -> same_identity b c -> same_identity a c.
Proof.
  unfold same_identity.
  intros (H1 & H2 & H3 & H4 & H5) (G1 & G2 & G3 & G4 & G5).
  repeat split; congruence.
Qed.

(** Inserting, under a vessel's key, a record of the same vessel keeps
    every cached vessel. *)
Lemma insert_extends (m : gmap string VesselState) (k : string)
    (v0 v1 : VesselState) :
  (m !! k = Some v0 \/ m !! k = None) -> same_identity v0 v1 ->
  forall j v, m !! j = Some v ->
              exists v', <[k := v1]> m !! j = Some v' /\ same_identity v v'.
Proof.
  intros Hk Hid j v Hj.
  destruct (decide (k = j)) as [-> | Hne].
  - rewrite lookup_insert_eq. exists v1. split; [reflexivity |].
    destruct Hk as [Hk | Hk]; rewrite Hk in Hj; [| discriminate].
    inversion Hj; subst. exact Hid.
  - rewrite lookup_insert_ne by exact Hne.
    exists v. split; [exact Hj | apply same_identity_refl].
Qed.

Lemma position_report_extends self metadata message now :
  cache_extends self (_handle_position_report self metadata message now).
Proof.
  destruct (position_report_outcome self metadata message now)
    as (_ & [(_ & Hc & _) | (_ & v0 & Hv0 & [(_ & Hc & _) | (_ & Hc & _)])]);
    unfold cache_extends; rewrite Hc.
  - intros k v Hk. exists v. split; [exact Hk | apply same_identity_refl].
  - apply (insert_extends _ _ v0); [tauto | apply same_identity_refl].
  - apply (insert_extends _ _ v0); [tauto |].
    unfold same_identity. simpl. repeat split.
Qed.

Lemma static_data_extends self metadata message now :
  cache_extends self (_handle_static_data self metadata message now).
Proof.
  destruct (static_data_outcome self metadata message now)
    as (_ & _ & _ & [(_ & Hc) | (_ & v0 & Hv0 & Hc)]);
    unfold cache_extends; rewrite Hc.
  - intros k v Hk. exists v. split; [exact Hk | apply same_identity_refl].
  - apply (insert_extends _ _ v0); [tauto |].
    unfold same_identity. simpl. repeat split.
Qed.

Lemma receive_extends self fr : cache_extends self (receive self fr).
Proof.
  destruct fr as [frame now]. unfold receive, _process_message. simpl.
  destruct frame; simpl;
    try (intros k v Hk; exists v; split; [exact Hk | apply same_identity_refl]).
  - match goal with
    | |- context [_handle_position_report ?c ?m ?r ?n] =>
        pose proof (position_report_extends c m r n) as H
    end. exact H.
  - match goal with
    | |- context [_handle_static_data ?c ?m ?r ?n] =>
        pose proof (static_data_extends c m r n) as H
    end. exact H.
Qed.

Lemma cache_extends_trans (a b c : AISStreamClient) :
  cache_extends a b -> cache_extends b c -> cache_extends a c.
Proof.
  intros Hab Hbc k v Hk.
  destruct (Hab k v Hk) as (v1 & Hk1 & Hid1).
  destruct (Hbc k v1 Hk1) as (v2 & Hk2 & Hid2).
  exists v2. split; [exact Hk2 |]. eapply same_identity_trans; eassumption.
Qed.

Lemma receive_all_extends frames self :
  cache_extends self (receive_all self frames).
Proof.
  revert self. induction frames as [| fr frames IH]; intros self; simpl.
  - intros k v Hk. exists v. split; [exact Hk | apply same_identity_refl].
  - eapply cache_extends_trans; [apply receive_extends | apply IH].
Qed.

Lemma receive_keys self fr : keys_are_mmsi self -> keys_are_mmsi (receive self fr).
Proof.
  intros Hkeys. destruct fr as [frame now].
  unfold receive, _process_message. simpl.
  destruct frame; simpl; try exact Hkeys.
  - match goal with
    | |- context [_handle_position_report ?c ?m ?r ?n] =>
        destruct (position_report_outcome c m r n)
          as (_ & [(_ & Hc & _)
                  | (_ & v0 & Hv0 & [(_ & Hc & _) | (_ & Hc & _)])])
    end; unfold keys_are_mmsi; rewrite Hc; simpl; [exact Hkeys | |];
      intros k v Hk;
      (destruct (decide (MMSI meta = k)) as [<- | Hne];
       [ rewrite lookup_insert_eq in Hk; inversion Hk; subst v; simpl;
         destruct Hv0 as [Hv0 | [_ ->]]; [apply (Hkeys _ _ Hv0) | reflexivity]
       | rewrite lookup_insert_ne in Hk by exact Hne; apply (Hkeys _ _ Hk) ]).
  - match goal with
    | |- context [_handle_static_data ?c ?m ?r ?n] =>
        destruct (static_data_outcome c m r n)
          as (_ & _ & _ & [(_ & Hc) | (_ & v0 & Hv0 & Hc)])
    end; unfold keys_are_mmsi; rewrite Hc; simpl; [exact Hkeys |].
    intros k v Hk.
    destruct (decide (MMSI meta = k)) as [<- | Hne].
    + rewrite lookup_insert_eq in Hk. inversion Hk; subst v. simpl.
      destruct Hv0 as [Hv0 | [_ ->]]; [apply (Hkeys _ _ Hv0) | reflexivity].
    + rewrite lookup_insert_ne in Hk by exact Hne. apply (Hkeys _ _ Hk).
Qed.

(** X19.  Identity is immutable and vessels are never dropped: whatever
    frames are handled, every vessel of the cache stays in the cache under
    the same key with the same MMSI, name, classification and data source,
    and every record is cached under its own MMSI. *)
Theorem cached_identity_is_immutable (frames : list (Frame * Now))
    (self : AISStreamClient) :
  cache_extends self (receive_all self frames)
  /\ (keys_are_mmsi self -> keys_are_mmsi (receive_all self frames)).
Proof.
  split; [apply receive_all_extends |].
  revert self. induction frames as [| fr frames IH]; intros self Hkeys; simpl.
  - exact Hkeys.
  - apply IH. now apply receive_keys.
Qed.

Lemma cached_identity_is_immutable_witness :
  keys_are_mmsi
    (receive_all AISStreamClient_default
       [ (PositionReportFrame hmm_algeciras good_report, at_noon);
         (ShipStaticDataFrame hmm_algeciras algeciras_static, at_noon) ]).
Proof.
  apply (proj2 (cached_identity_is_immutable
                  [ (PositionReportFrame hmm_algeciras good_report, at_noon);
                    (ShipStaticDataFrame hmm_algeciras algeciras_static, at_noon) ]
                  AISStreamClient_default)).
  intros k v Hk. simpl in Hk. rewrite lookup_empty in Hk. discriminate.
Defined.

Lemma same_settings_trans (a b c : AISStreamClient) :
  same_settings a b -> same_settings b c -> same_settings a c.
Proof.
  unfold same_settings. intros (H1 & H2 & H3 & H4) (G1 & G2 & G3 & G4).
  repeat split; congruence.
Qed.

Lemma receive_settings self fr : same_settings self (receive self fr).
Proof.
  destruct fr as [frame now]. unfold receive, _process_message. simpl.
  destruct frame; simpl; try (unfold same_settings; repeat split; fail).
  - match goal with
    | |- context [_handle_position_report ?c ?m ?r ?n] =>
        destruct (position_report_outcome c m r n) as (H & _)
    end. exact H.
  - match goal with
    | |- context [_handle_static_data ?c ?m ?r ?n] =>
        destruct (static_data_outcome c m r n) as (H & _)
    end. exact H.
Qed.

Lemma not_cargo_without_fallback self ship_type :
  use_ship_type_fallback self = false -> is_cargo_tanker self ship_type = false.
Proof. unfold is_cargo_tanker. now intros ->. Qed.

Lemma passes_without_fallback self mmsi ship_type :
  use_ship_type_fallback self = false ->
  passes_admission self mmsi ship_type = true ->
  mmsi ∈ autonomous_mmsi_set self.
Proof.
  intros Hf. unfold passes_admission.
  rewrite (not_cargo_without_fallback self ship_type Hf). simpl.
  rewrite orb_false_r. unfold is_autonomous_mmsi.
  apply bool_decide_eq_true_1.
Qed.

Lemma insert_allowlisted (m : gmap string VesselState) (k : string)
    (v : VesselState) (allow : gset string) :
  k ∈ allow ->
  (forall j, is_Some (m !! j) -> j ∈ allow) ->
  forall j, is_Some (<[k := v]> m !! j) -> j ∈ allow.
Proof.
  intros Hk Hm j Hj. apply lookup_insert_is_Some in Hj.
  destruct Hj as [<- | [_ Hj]]; [exact Hk | now apply Hm].
Qed.

Lemma receive_allowlisted self fr :
  use_ship_type_fallback self = false ->
  only_allowlisted self -> only_allowlisted (receive self fr).
Proof.
  intros Hf Hall.
  pose proof (receive_settings self fr) as (Hset & _).
  unfold only_allowlisted. rewrite Hset. revert Hall. unfold only_allowlisted.
  destruct fr as [frame now]. unfold receive, _process_message. simpl.
  destruct frame; simpl; intros Hall; try exact Hall.
  - match goal with
    | |- context [_handle_position_report ?c ?m ?r ?n] =>
        destruct (position_report_outcome c m r n)
          as (_ & [(_ & Hc & _)
                  | (Hp & v0 & Hv0 & [(_ & Hc & _) | (_ & Hc & _)])])
    end; rewrite Hc; simpl; [exact Hall | |];
      (apply insert_allowlisted; [| exact Hall]);
      apply (passes_without_fallback _ _ _ Hf Hp).
  - match goal with
    | |- context [_handle_static_data ?c ?m ?r ?n] =>
        destruct (static_data_outcome c m r n)
          as (_ & _ & _ & [(_ & Hc) | (Hp & v0 & Hv0 & Hc)])
    end; rewrite Hc; simpl; [exact Hall |].
    apply insert_allowlisted; [| exact Hall].
    apply (passes_without_fallback _ _ _ Hf Hp).
Qed.

(** X20.  Without the ship-type fallback the client re-filters on its own
    allow-list: whatever frames arrive, position reports or static data, only
    identities of the autonomous allow-list are ever cached.  For a client
    built by the constructor these are the five listed MMSIs. *)
Theorem only_allowlisted_identities_cached (frames : list (Frame * Now))
    (self : AISStreamClient) :
  use_ship_type_fallback self = false ->
  only_allowlisted self ->
  only_allowlisted (receive_all self frames)
  /\ autonomous_mmsi_set (receive_all self frames) = autonomous_mmsi_set self.
Proof.
  revert self. induction frames as [| fr frames IH]; intros self Hf Hall; simpl.
  - split; [exact Hall | reflexivity].
  - pose proof (receive_settings self fr) as (Hset & Hfb & _).
    destruct (IH (receive self fr)) as [H1 H2].
    + now rewrite Hfb.
    + now apply receive_allowlisted.
    + split; [exact H1 | now rewrite H2].
Qed.

Lemma only_allowlisted_identities_cached_witness :
  only_allowlisted
    (receive_all AISStreamClient_default
       [ (PositionReportFrame some_cargo_ship cargo_report, at_noon);
         (PositionReportFrame hmm_algeciras good_report, at_noon) ])
  /\ autonomous_mmsi_set
       (receive_all AISStreamClient_default
          [ (PositionReportFrame some_cargo_ship cargo_report, at_noon);
            (PositionReportFrame hmm_algeciras good_report, at_noon) ])
     = list_to_set AUTONOMOUS_SHIP_MMSI_LIST.
Proof.
  apply (only_allowlisted_identities_cached
           [ (PositionReportFrame some_cargo_ship cargo_report, at_noon);
             (PositionReportFrame hmm_algeciras good_report, at_noon) ]
           AISStreamClient_default).
  - reflexivity.
  - intros k Hk. simpl in Hk. rewrite lookup_empty in Hk.
    destruct Hk as [x Hx]. discriminate.
Defined.

(** X21.  The capacity test comes before the cache lookup.  Once the cache
    holds [max_vessels] records, a position report of an identity that is not
    allow-listed is only counted as filtered, and its static data is ignored,
    even when that vessel is already cached: cache and queue stay as they
    are. *)
Theorem non_autonomous_dropped_at_capacity (self : AISStreamClient)
    (metadata : MetaData) (now : Now) :
  is_autonomous_mmsi self (MMSI metadata) = false ->
  max_vessels self <= cache_len self ->
  (forall message,
      let self' := _handle_position_report self metadata message now in
      vessel_cache self' = vessel_cache self
      /\ message_queue self' = message_queue self
      /\ messages_filtered (stats self') = messages_filtered (stats self) + 1)
  /\ (forall message,
        vessel_cache (_handle_static_data self metadata message now)
        = vessel_cache self).
Proof.
  intros Ha Hfull.
  assert (Hp : forall t, passes_admission self (MMSI metadata) t = false).
  { intros t. unfold passes_admission. rewrite Ha. simpl.
    apply Z.leb_le in Hfull. rewrite Hfull. apply andb_false_r. }
  split; intros message.
  - destruct (position_report_outcome self metadata message now)
      as (_ & [(_ & Hc & Hq & Hs) | (Hpass & _)]).
    + cbv zeta. rewrite Hc, Hq, Hs. repeat split.
    + rewrite Hp in Hpass. discriminate.
  - destruct (static_data_outcome self metadata message now)
      as (_ & _ & _ & [(_ & Hc) | (Hpass & _)]).
    + exact Hc.
    + rewrite Hp in Hpass. discriminate.
Qed.

Lemma non_autonomous_dropped_at_capacity_witness :
  is_Some (vessel_cache client_at_capacity !! "123456789"%string)
  /\ vessel_cache
       (_handle_position_report client_at_capacity some_cargo_ship
          (report 31 33 12 9) at_noon)
     = vessel_cache client_at_capacity.
Proof.
  split; [vm_compute; eauto |].
  assert (Ha : is_autonomous_mmsi client_at_capacity (MMSI some_cargo_ship)
               = false) by (vm_compute; reflexivity).
  assert (Hfull : max_vessels client_at_capacity <= cache_len client_at_capacity)
    by (vm_compute; discriminate).
  destruct (proj1 (non_autonomous_dropped_at_capacity client_at_capacity
                     some_cargo_ship at_noon Ha Hfull) (report 31 33 12 9))
    as (Hc & _).
  exact Hc.
Defined.

Lemma enqueue_items (q : Queue) (ref : string) :
  exists kept,
    items (enqueue q ref) = kept ++ [ref]
    /\ (forall x, In x kept -> In x (items q)).
Proof.
  unfold enqueue. destruct (negb (full q)); simpl.
  - exists (items q). split; [reflexivity | auto].
  - exists (tail (items q)). split; [reflexivity |].
    intros x Hx. destruct (items q); simpl in *; [contradiction | now right].
Qed.

(** X22.  An allow-listed vessel is admitted whatever the size of the
    cache: a report that carries a position other than (0, 0) is not counted
    as filtered, [get_vessel_by_mmsi] then returns a record with the reported
    latitude and longitude, the heading and navigation status of the report
    and the time of reception, and the newest entry of the queue refers to
    that vessel. *)
Theorem autonomous_report_is_stored (self : AISStreamClient)
    (metadata : MetaData) (message : PositionReport) (now : Now) (lat lon : Q) :
  is_autonomous_mmsi self (MMSI metadata) = true ->
  Latitude message = Some lat -> Longitude message = Some lon ->
  eqb lat 0 && eqb lon 0 = false ->
  let self' := _handle_position_report self metadata message now in
  messages_filtered (stats self') = messages_filtered (stats self)
  /\ (exists v,
        get_vessel_by_mmsi self' (MMSI metadata) = Some v
        /\ latitude v = lat /\ longitude v = lon
        /\ heading v = TrueHeading message
        /\ nav_status v = NavigationalStatus message
        /\ timestamp v = instant now)
  /\ last (items (message_queue self')) = Some (MMSI metadata).
Proof.
  intros Ha Hlat Hlon Hpos. cbv zeta.
  destruct (position_report_outcome self metadata message now)
    as (_ & [(Hp & _) | (_ & v0 & Hv0 & Hcase)]).
  - unfold passes_admission in Hp. rewrite Ha in Hp. discriminate.
  - cbv zeta in Hcase. rewrite Hlat, Hlon in Hcase. simpl in Hcase.
    destruct Hcase as [(Hnull & _) | (_ & Hc & Hq & Hs)]; [congruence |].
    split; [destruct Hs as [-> | ->]; reflexivity |].
    split.
    + unfold get_vessel_by_mmsi. rewrite Hc, lookup_insert_eq.
      eexists. split; [reflexivity |]. simpl. repeat split.
    + rewrite Hq.
      destruct (enqueue_items (message_queue self) (MMSI metadata))
        as (kept & -> & _).
      apply last_snoc.
Qed.

Lemma autonomous_report_is_stored_witness :
  let self' :=
    _handle_position_report client_at_capacity hmm_algeciras good_report at_noon in
  messages_filtered (stats self') = messages_filtered (stats client_at_capacity)
  /\ (exists v,
        get_vessel_by_mmsi self' "440326000"%string = Some v
        /\ latitude v = (123 # 10)%Q /\ longitude v = (456 # 10)%Q
        /\ heading v = None
        /\ nav_status v = Some 0
        /\ timestamp v = instant at_noon)
  /\ last (items (message_queue self')) = Some "440326000"%string.
Proof.
  apply (autonomous_report_is_stored client_at_capacity hmm_algeciras
           good_report at_noon (123 # 10) (456 # 10));
    vm_compute; reflexivity.
Defined.

Lemma receive_queue_refs self fr :
  queue_refs_cached self -> queue_refs_cached (receive self fr).
Proof.
  intros Hq. destruct fr as [frame now].
  unfold receive, _process_message. simpl.
  destruct frame; simpl; try exact Hq.
  - match goal with
    | |- context [_handle_position_report ?c ?m ?r ?n] =>
        destruct (position_report_outcome c m r n)
          as (_ & [(_ & Hc & Hi & _)
                  | (_ & v0 & Hv0 & [(_ & Hc & Hi & _) | (_ & Hc & Hi & _)])])
    end; unfold queue_refs_cached; rewrite Hc, Hi; simpl.
    + exact Hq.
    + intros ref Hin. apply lookup_insert_is_Some'. right. now apply Hq.
    + intros ref Hin.
      destruct (enqueue_items (message_queue self) (MMSI meta))
        as (kept & Hk & Hsub).
      rewrite Hk in Hin. apply in_app_or in Hin.
      apply lookup_insert_is_Some'.
      destruct Hin as [Hin | [<- | []]]; [right | now left].
      apply Hq. now apply Hsub.
  - match goal with
    | |- context [_handle_static_data ?c ?m ?r ?n] =>
        destruct (static_data_outcome c m r n)
          as (_ & Hi & _ & [(_ & Hc) | (_ & v0 & Hv0 & Hc)])
    end; unfold queue_refs_cached; rewrite Hc, Hi; simpl; [exact Hq |].
    intros ref Hin. apply lookup_insert_is_Some'. right. now apply Hq.
Qed.

(** X23.  The queue never holds a dangling reference: whatever frames are
    handled, every entry of the message queue refers to a vessel that is in
    the cache (the queue shares the cached objects). *)
Theorem queue_entries_are_cached (frames : list (Frame * Now))
    (self : AISStreamClient) :
  queue_refs_cached self -> queue_refs_cached (receive_all self frames).
Proof.
  revert self. induction frames as [| fr frames IH]; intros self Hq; simpl.
  - exact Hq.
  - apply IH. now apply receive_queue_refs.
Qed.

Lemma queue_entries_are_cached_witness :
  queue_refs_cached client_with_full_queue.
Proof.
  unfold client_with_full_queue.
  apply (queue_entries_are_cached
           [ (PositionReportFrame hmm_algeciras good_report, at_noon);
             (PositionReportFrame yara_birkeland good_report, at_noon) ]
           (AISStreamClient_init None 1 20 false)).
  intros ref Hin. simpl in Hin. contradiction.
Defined.

Lemma receive_counters self fr :
  messages_received (stats (receive self fr))
    = messages_received (stats self) + 1
  /\ parse_errors (stats (receive self fr))
     = parse_errors (stats self) + (if is_malformed fr then 1 else 0)
  /\ messages_filtered (stats self)
     <= messages_filtered (stats (receive self fr))
     <= messages_filtered (stats self)
        + (if is_position_report fr then 1 else 0).
Proof.
  destruct fr as [frame now].
  unfold receive, _process_message, is_malformed, is_position_report. simpl.
  destruct frame; simpl; try (repeat split; lia).
  - match goal with
    | |- context [_handle_position_report ?c ?m ?r ?n] =>
        destruct (position_report_outcome c m r n)
          as (_ & [(_ & _ & _ & Hs)
                  | (_ & v0 & _ & [(_ & _ & _ & Hs) | (_ & _ & _ & [Hs | Hs])])])
    end; rewrite Hs; simpl; repeat split; lia.
  - match goal with
    | |- context [_handle_static_data ?c ?m ?r ?n] =>
        destruct (static_data_outcome c m r n) as (_ & _ & Hs & _)
    end. rewrite Hs. simpl. repeat split; lia.
Qed.

(** X24.  The counters account for the frames: after any sequence of
    frames [messages_received] has grown by the number of frames,
    [parse_errors] by the number of frames that are not JSON objects, and
    [messages_filtered] by at most the number of position reports (static
    data is never counted as filtered). *)
Theorem counters_account_for_frames (frames : list (Frame * Now))
    (self : AISStreamClient) :
  messages_received (stats (receive_all self frames))
    = messages_received (stats self) + Z.of_nat (List.length frames)
  /\ parse_errors (stats (receive_all self frames))
     = parse_errors (stats self)
       + Z.of_nat (List.length (List.filter is_malformed frames))
  /\ messages_filtered (stats self)
     <= messages_filtered (stats (receive_all self frames))
     <= messages_filtered (stats self)
        + Z.of_nat (List.length (List.filter is_position_report frames)).
Proof.
  revert self. induction frames as [| fr frames IH]; intros self.
  - simpl. lia.
  - cbn [receive_all fold_left List.length List.filter].
    fold (receive_all (receive self fr) frames).
    destruct (IH (receive self fr)) as (H1 & H2 & H3).
    destruct (receive_counters self fr) as (G1 & G2 & G3).
    rewrite H1, H2, G1, G2.
    destruct (is_malformed fr); destruct (is_position_report fr);
      simpl List.length; repeat split; lia.
Qed.

Lemma same_fix_refl (v : VesselState) : same_fix v v.
Proof. unfold same_fix. repeat split. Qed.

(** X25.  Static data never moves a vessel.  [_handle_static_data] leaves
    the queue and the statistics alone and keeps the position, course, speed,
    heading and timestamp of every cached vessel.  An admitted identity that
    is not cached yet is created at latitude 0 and longitude 0, with the
    destination of the message, stripped. *)
Theorem static_data_keeps_the_fix (self : AISStreamClient)
    (metadata : MetaData) (message : ShipStaticData) (now : Now) :
  let self' := _handle_static_data self metadata message now in
  message_queue self' = message_queue self
  /\ stats self' = stats self
  /\ (forall k v,
        vessel_cache self !! k = Some v ->
        exists v', vessel_cache self' !! k = Some v' /\ same_fix v v')
  /\ (vessel_cache self !! MMSI metadata = None ->
      passes_admission self (MMSI metadata) (default 0 (sd_Type message)) = true ->
      exists v,
        vessel_cache self' !! MMSI metadata = Some v
        /\ latitude v = 0%Q /\ longitude v = 0%Q
        /\ destination v
           = Some (strip (default ""%string (sd_Destination message)))
        /\ draught v = sd_Draught message).
Proof.
  cbv zeta.
  destruct (static_data_outcome self metadata message now)
    as (_ & Hq & Hs & Hcase).
  split; [exact Hq |]. split; [exact Hs |]. split.
  - intros k v Hk.
    destruct Hcase as [(_ & Hc) | (_ & v0 & Hv0 & Hc)]; rewrite Hc.
    + exists v. split; [exact Hk | apply same_fix_refl].
    + destruct (decide (MMSI metadata = k)) as [<- | Hne].
      * rewrite lookup_insert_eq. eexists. split; [reflexivity |].
        destruct Hv0 as [Hv0 | [Hv0 _]]; rewrite Hv0 in Hk; [| discriminate].
        inversion Hk; subst v0. unfold same_fix. simpl. repeat split.
      * rewrite lookup_insert_ne by exact Hne.
        exists v. split; [exact Hk | apply same_fix_refl].
  - intros Hnone Hpass.
    destruct Hcase as [(Hp & _) | (_ & v0 & Hv0 & Hc)]; [congruence |].
    destruct Hv0 as [Hv0 | [_ ->]]; [congruence |].
    rewrite Hc, lookup_insert_eq. eexists. split; [reflexivity |].
    simpl. repeat split.
Qed.

Lemma static_data_keeps_the_fix_witness :
  let self' :=
    _handle_static_data AISStreamClient_default hmm_algeciras
      algeciras_static at_noon in
  exists v,
    vessel_cache self' !! "440326000"%string = Some v
    /\ latitude v = 0%Q /\ longitude v = 0%Q
    /\ destination v = Some "ROTTERDAM"%string
    /\ draught v = Some (165 # 10)%Q.
Proof.
  destruct (static_data_keeps_the_fix AISStreamClient_default hmm_algeciras
              algeciras_static at_noon) as (_ & _ & _ & Hnew).
  apply Hnew; reflexivity.
Defined.

Lemma days_in_month_le_31 (y m : Z) : 28 <= days_in_month y m <= 31.
Proof.
  unfold days_in_month.
  destruct (m =? 2); [destruct (is_leap y); lia |].
  destruct ((m =? 4) || (m =? 6) || (m =? 9) || (m =? 11)); lia.
Qed.

(** X26.  The ETA of a static message.  The result of the ETA block is
    either the previous ETA or a date of the current year whose month, day,
    hour and minute are those of the message and are a real calendar date
    (month 1 to 12, day within the month, hour 0 to 23, minute 0 to 59).  It
    is the previous ETA when there is no [Eta] dictionary, when month or day
    is missing or not positive, and when the date does not exist. *)
Theorem eta_is_a_calendar_date_or_unchanged (previous : option CivilTime)
    (eta_raw : option EtaRaw) (now : Now) :
  (parse_eta previous eta_raw now = previous
   \/ exists raw t,
        eta_raw = Some raw
        /\ parse_eta previous eta_raw now = Some t
        /\ ct_year t = year now
        /\ Month raw = Some (ct_month t) /\ Day raw = Some (ct_day t)
        /\ ct_hour t = default 0 (Hour raw)
        /\ ct_minute t = default 0 (Minute raw)
        /\ 1 <= ct_month t <= 12
        /\ 1 <= ct_day t <= days_in_month (year now) (ct_month t)
        /\ ct_day t <= 31
        /\ 0 <= ct_hour t <= 23 /\ 0 <= ct_minute t <= 59)
  /\ (eta_raw = None -> parse_eta previous eta_raw now = previous)
  /\ (forall raw,
        eta_raw = Some raw ->
        default 0 (Month raw) <= 0 \/ default 0 (Day raw) <= 0
        \/ 12 < default 0 (Month raw)
        \/ days_in_month (year now) (default 0 (Month raw)) < default 0 (Day raw)
        \/ 23 < default 0 (Hour raw) \/ 59 < default 0 (Minute raw) ->
        parse_eta previous eta_raw now = previous).
Proof.
  split; [| split].
  - unfold parse_eta. destruct eta_raw as [raw |]; [| now left].
    destruct ((0 <? default 0 (Month raw)) && (0 <? default 0 (Day raw))) eqn:Epos;
      [| now left].
    unfold make_datetime.
    match goal with
    | |- context [if ?c then Some _ else None] => destruct c eqn:Evalid
    end; [| now left].
    right. exists raw. eexists. split; [reflexivity |]. split; [reflexivity |].
    apply andb_true_iff in Epos as [Hm Hd].
    apply Z.ltb_lt in Hm, Hd.
    repeat (apply andb_true_iff in Evalid as [Evalid ?]).
    repeat match goal with
           | H : (_ <=? _) = true |- _ => apply Z.leb_le in H
           end.
    pose proof (days_in_month_le_31 (year now) (default 0 (Month raw))).
    simpl.
    destruct (Month raw) as [mo |]; [| simpl in Hm; lia].
    destruct (Day raw) as [d |]; [| simpl in Hd; lia].
    simpl in *. repeat split; lia.
  - intros ->. reflexivity.
  - intros raw -> Hbad. unfold parse_eta.
    destruct ((0 <? default 0 (Month raw)) && (0 <? default 0 (Day raw))) eqn:Epos;
      [| reflexivity].
    apply andb_true_iff in Epos as [Hm Hd].
    apply Z.ltb_lt in Hm, Hd.
    unfold make_datetime.
    match goal with
    | |- context [if ?c then Some _ else None] => destruct c eqn:Evalid
    end; [| reflexivity].
    exfalso.
    repeat (apply andb_true_iff in Evalid as [Evalid ?]).
    repeat match goal with
           | H : (_ <=? _) = true |- _ => apply Z.leb_le in H
           end.
    lia.
Qed.

Lemma eta_is_a_calendar_date_or_unchanged_witness :
  days_in_month (year at_noon) 2 < 30
  /\ parse_eta None (sd_Eta algeciras_static) at_noon = None.
Proof.
  split; [vm_compute; reflexivity |].
  apply (proj2 (proj2 (eta_is_a_calendar_date_or_unchanged None
                         (sd_Eta algeciras_static) at_noon))
           {| Month := Some 2; Day := Some 30;
              Hour := Some 12; Minute := Some 0 |}).
  - reflexivity.
  - right; right; right; left. vm_compute. reflexivity.
Defined.

Lemma backoff_time_bounds (n : Z) : 1 <= n -> 2 <= backoff_time n <= 60.
Proof.
  intros Hn. unfold backoff_time.
  assert (2 ^ 1 <= 2 ^ n) by (apply Z.pow_le_mono_r; lia).
  change (2 ^ 1) with 2 in *. lia.
Qed.

Lemma attempt_slept self answer :
  snd (attempt self answer) = backoff_time (reconnect_attempts self + 1).
Proof. reflexivity. Qed.

Lemma attempt_count_nonneg self answer :
  0 <= reconnect_attempts self ->
  0 <= reconnect_attempts (fst (attempt self answer)).
Proof.
  intros Hn. unfold attempt. cbn [fst].
  destruct answer as [| frames ending].
  - simpl. lia.
  - match goal with
    | |- context [connect ?c (Established frames ending)] =>
        destruct (connect_established c frames ending) as (-> & _)
    end. lia.
Qed.

(** X27.  Whatever the network answers, [reconnect_with_backoff] sleeps
    between 2 and 60 seconds before every attempt, makes at most one attempt
    per answer, and returns only in one of two states: connected (after at
    least one attempt) or with [running] cleared. *)
Theorem backoff_sleeps_are_bounded (net : list ConnectOutcome)
    (self self' : AISStreamClient) (sleeps : list Z) :
  0 <= reconnect_attempts self ->
  reconnect_with_backoff self net = Some (self', sleeps) ->
  Forall (fun slept => 2 <= slept <= 60) sleeps
  /\ (List.length sleeps <= List.length net)%nat
  /\ (is_connected self' = true /\ sleeps <> [] \/ running self' = false).
Proof.
  revert self self' sleeps.
  induction net as [| answer net IH]; intros self self' sleeps Hn H;
    cbn [reconnect_with_backoff] in H;
    destruct (running self
              && (reconnect_attempts self <? max_reconnect_attempts self));
    try discriminate.
  - inversion H; subst. split; [constructor |]. split; [simpl; lia |].
    right. reflexivity.
  - pose proof (attempt_slept self answer) as Hs.
    pose proof (attempt_count_nonneg self answer Hn) as Hn'.
    destruct (attempt self answer) as [s1 slept]. cbn [fst snd] in Hs, Hn'.
    assert (Hb : 2 <= slept <= 60)
      by (rewrite Hs; apply backoff_time_bounds; lia).
    destruct (is_connected s1) eqn:Ec.
    + inversion H; subst self' sleeps.
      split; [constructor; [exact Hb | constructor] |].
      split; [simpl; lia |]. left. split; [exact Ec | discriminate].
    + destruct (reconnect_with_backoff s1 net) as [[s2 rest] |] eqn:Er;
        [| discriminate].
      inversion H; subst s2 sleeps.
      destruct (IH s1 self' rest Hn' Er) as (Hall & Hlen & Hend).
      split; [constructor; [exact Hb | exact Hall] |].
      split; [simpl; lia |].
      destruct Hend as [[Hc _] | Hr]; [left | right; exact Hr].
      split; [exact Hc | discriminate].
  - inversion H; subst. split; [constructor |]. split; [simpl; lia |].
    right. reflexivity.
Qed.

Lemma backoff_sleeps_are_bounded_witness :
  exists self',
    reconnect_with_backoff started_client
      [Refused; Refused; Established [] StreamEnded]
    = Some (self', [2; 4; 8])
    /\ Forall (fun slept => 2 <= slept <= 60) [2; 4; 8]
    /\ is_connected self' = true.
Proof.
  destruct (reconnect_with_backoff started_client
              [Refused; Refused; Established [] StreamEnded])
    as [[self' sleeps] |] eqn:E; [| vm_compute in E; discriminate].
  assert (Hs : sleeps = [2; 4; 8])
    by (vm_compute in E; inversion E; reflexivity).
  assert (Hc : is_connected self' = true)
    by (vm_compute in E; inversion E; reflexivity).
  assert (Hn : 0 <= reconnect_attempts started_client)
    by (vm_compute; discriminate).
  destruct (backoff_sleeps_are_bounded _ _ _ _ Hn E) as (Hall & _).
  exists self'. rewrite Hs in *. split; [reflexivity |].
  split; [exact Hall | exact Hc].
Defined.

(** X28.  A client that is not running does nothing: [reconnect_with_backoff]
    returns at once without sleeping or connecting, and a session that
    [connect] opens stops at its first frame, so no frame reaches the cache,
    the queue or the counters, but the client is left marked as connected.
    [stop] puts the client into that state. *)
Theorem stopped_client_handles_nothing (self : AISStreamClient) :
  running self = false ->
  (forall net,
      exists self',
        reconnect_with_backoff self net = Some (self', [])
        /\ running self' = false
        /\ is_connected self' = is_connected self
        /\ reconnect_attempts self' = reconnect_attempts self)
  /\ (forall fr frames ending,
        let self' := connect self (Established (fr :: frames) ending) in
        vessel_cache self' = vessel_cache self
        /\ message_queue self' = message_queue self
        /\ stats self' = stats self
        /\ running self' = false
        /\ is_connected self' = true)
  /\ running (stop self) = false /\ is_connected (stop self) = false.
Proof.
  intros Hrun. split; [| split].
  - intros net. destruct net; simpl; rewrite Hrun; simpl;
      eexists; (split; [reflexivity | repeat split]).
  - intros fr frames ending. cbv zeta. unfold connect. simpl.
    rewrite Hrun. simpl. repeat split. exact Hrun.
  - split; reflexivity.
Qed.

Lemma stopped_client_handles_nothing_witness :
  stats (connect (stop started_client)
           (Established [(NotJSON, at_noon)] ConnectionLost))
  = stats (stop started_client).
Proof.
  assert (Hrun : running (stop started_client) = false) by reflexivity.
  destruct (stopped_client_handles_nothing (stop started_client) Hrun)
    as (_ & Hconn & _).
  destruct (Hconn (NotJSON, at_noon) [] ConnectionLost) as (_ & _ & Hs & _).
  exact Hs.
Defined.

(** X29.  A position report on a cached vessel overwrites only the
    kinematic fields.  A key that the report omits keeps the cached value
    for latitude, longitude, course and speed; heading and navigation status
    are taken from the report even when it omits them (they become [None]),
    and the position accuracy falls back to 1.  Name, type and the static
    data (dimensions, draught, destination, ETA) are kept. *)
Theorem position_update_keeps_static_data (self : AISStreamClient)
    (metadata : MetaData) (message : PositionReport) (now : Now)
    (v : VesselState) :
  passes_admission self (MMSI metadata) (default 0 (pr_Type message)) = true ->
  vessel_cache self !! MMSI metadata = Some v ->
  eqb (default (latitude v) (Latitude message)) 0
  && eqb (default (longitude v) (Longitude message)) 0 = false ->
  exists v',
    get_vessel_by_mmsi (_handle_position_report self metadata message now)
      (MMSI metadata) = Some v'
    /\ latitude v' = default (latitude v) (Latitude message)
    /\ longitude v' = default (longitude v) (Longitude message)
    /\ course v' = default (course v) (Cog message)
    /\ speed v' = default (speed v) (Sog message)
    /\ heading v' = TrueHeading message
    /\ nav_status v' = NavigationalStatus message
    /\ position_accuracy v' = default 1 (PositionAccuracy message)
    /\ same_identity v v'
    /\ length v' = length v /\ width v' = width v /\ draught v' = draught v
    /\ destination v' = destination v /\ eta v' = eta v.
Proof.
  intros Hpass Hv Hpos.
  destruct (position_report_outcome self metadata message now)
    as (_ & [(Hp & _) | (_ & v0 & Hv0 & Hcase)]); [congruence |].
  destruct Hv0 as [Hv0 | [Hv0 _]]; [| congruence].
  rewrite Hv in Hv0. inversion Hv0; subst v0. cbv zeta in Hcase.
  destruct Hcase as [(Hnull & _) | (_ & Hc & _)]; [congruence |].
  unfold get_vessel_by_mmsi. rewrite Hc, lookup_insert_eq.
  eexists. split; [reflexivity |]. unfold same_identity. simpl.
  repeat split.
Qed.

Lemma position_update_keeps_static_data_witness :
  let tracked :=
    receive_all AISStreamClient_default
      [ (PositionReportFrame hmm_algeciras good_report, at_noon);
        (ShipStaticDataFrame hmm_algeciras algeciras_static, at_noon) ] in
  exists v',
    get_vessel_by_mmsi
      (_handle_position_report tracked hmm_algeciras report_without_position
         at_noon) "440326000"%string = Some v'
    /\ latitude v' = (123 # 10)%Q /\ longitude v' = (456 # 10)%Q
    /\ course v' = 91%Q
    /\ heading v' = Some 92%Q
    /\ destination v' = Some "ROTTERDAM"%string
    /\ draught v' = Some (165 # 10)%Q.
Proof.
  cbv zeta.
  set (tracked := receive_all AISStreamClient_default _).
  destruct (vessel_cache tracked !! MMSI hmm_algeciras) as [v |] eqn:Hv;
    [| vm_compute in Hv; discriminate].
  assert (Hfix : latitude v = (123 # 10)%Q /\ longitude v = (456 # 10)%Q
                 /\ destination v = Some "ROTTERDAM"%string
                 /\ draught v = Some (165 # 10)%Q)
    by (vm_compute in Hv; inversion Hv; repeat split).
  destruct Hfix as (Hlat & Hlon & Hdest & Hdr).
  assert (Hpass : passes_admission tracked (MMSI hmm_algeciras)
                    (default 0 (pr_Type report_without_position)) = true)
    by (vm_compute; reflexivity).
  assert (Hpos : eqb (default (latitude v) (Latitude report_without_position)) 0
                 && eqb (default (longitude v)
                           (Longitude report_without_position)) 0 = false)
    by (simpl; rewrite Hlat; reflexivity).
  destruct (position_update_keeps_static_data tracked hmm_algeciras
              report_without_position at_noon v Hpass Hv Hpos)
    as (v' & Hget & H1 & H2 & H3 & _ & H5 & _ & _ & _ & _ & _ & H9 & H10 & _).
  exists v'. split; [exact Hget |]. simpl in H1, H2, H3, H5.
  repeat split; congruence.
Defined.

End AISMore.

(* ===================================================================== *)
(** * The oceanic route predictor                                         *)
(* ===================================================================== *)

Module OceanicMore.

Import Py PyFacts Oceanic.
Local Open Scope Q_scope.

Section Navigation.

Context {nav : GreatCircleNavigator}.

Lemma fraction_in_leg (cumulative traveled leg_distance : Q) :
  cumulative <= traveled -> traveled <= cumulative + leg_distance ->
  0 <= (if gtb leg_distance 0
        then (traveled - cumulative) / leg_distance else 0) <= 1.
Proof.
  intros Hlo Hhi. destruct (gtb leg_distance 0) eqn:Hg.
  - apply gtb_gt in Hg. split.
    + apply Qle_shift_div_l; [exact Hg | lra].
    + apply Qle_shift_div_r; [exact Hg | lra].
  - lra.
Qed.

Lemma locate_cons (wp1 wp2 : Waypoint) (rest : list Waypoint)
    (cumulative traveled : Q) :
  locate (wp1 :: wp2 :: rest) cumulative traveled
  = match calculate_distance_nm (latitude wp1) (longitude wp1)
            (latitude wp2) (longitude wp2) with
    | inl e => inl e
    | inr leg_distance =>
        if geb (cumulative + leg_distance) traveled then
          inr (Some (wp1, wp2,
                     if gtb leg_distance 0
                     then (traveled - cumulative) / leg_distance else 0))
        else locate (wp2 :: rest) (cumulative + leg_distance) traveled
    end.
Proof. reflexivity. Qed.

Lemma locate_spec (wps : list Waypoint) (cumulative traveled : Q) :
  distances_nonneg ->
  cumulative <= traveled ->
  match locate wps cumulative traveled with
  | inl e =>
      exists lat1 lon1 lat2 lon2,
        calculate_distance_nm lat1 lon1 lat2 lon2 = inl e
  | inr (Some (wp1, wp2, fraction)) =>
      In wp1 wps /\ In wp2 wps /\ 0 <= fraction <= 1
  | inr None => True
  end.
Proof.
  intros Hd. revert cumulative.
  induction wps as [| wp1 rest IH]; intros cumulative Hc; [exact I |].
  destruct rest as [| wp2 rest]; [exact I |].
  rewrite locate_cons.
  destruct (calculate_distance_nm (latitude wp1) (longitude wp1)
              (latitude wp2) (longitude wp2)) as [e | leg] eqn:El.
  - eauto.
  - destruct (geb (cumulative + leg) traveled) eqn:Eg.
    + apply (leb_le traveled (cumulative + leg)) in Eg.
      split; [now left |]. split; [right; now left |].
      now apply fraction_in_leg.
    + apply (leb_gt traveled (cumulative + leg)) in Eg.
      specialize (IH (cumulative + leg) ltac:(lra)).
      destruct (locate (wp2 :: rest) (cumulative + leg) traveled)
        as [e | [[[w1 w2] f] |]]; [exact IH | | exact I].
      destruct IH as (H1 & H2 & H3).
      split; [now right |]. split; [now right | exact H3].
Qed.


End Navigation.

Lemma plane_chart_distances_nonneg : @distances_nonneg plane_chart.
Proof.
  intros lat1 lon1 lat2 lon2 d H.
  assert (Hdist : d = 60 * (Qabs (lat2 - lat1) + Qabs (lon2 - lon1)))
    by (cbn [calculate_distance_nm plane_chart] in H; congruence).
  rewrite Hdist.
  pose proof (Qabs_nonneg (lat2 - lat1)).
  pose proof (Qabs_nonneg (lon2 - lon1)).
  lra.
Qed.


End OceanicMore.
